(** * WattWise: usage accounting, log store, daily aggregation, leaderboard

    A shallow embedding of the accounting core of [src/App.py]: the
    [Device] ledger, the per-user data file with its summary block and its
    log block, the replay of the log into per-day usage, and the leaderboard.

    Conventions.
    - Text is [string]; a character is a code point below 256.
    - A [datetime] keeps the calendar fields CPython keeps; differences and
      comparisons go through the count of microseconds since the start of
      ordinal day 0, which is how [timedelta] works.
    - Python floats are idealised as exact rationals ([Q], compared with
      [==]); [float()] and the formatting of a float inside an f-string are
      parameters of the development.  Only finite numbers are in the model:
      [inf] and [nan], which [float()] also returns, are not, and the sum of
      several pieces is exact where the float sum is rounded.
    - The content of a file is the text that reading in text mode delivers,
      every CR and CRLF already turned into LF; [universal_newlines] is
      that translation, and [read_text] applies it where text that was
      written is read again.
    - [datetime.now()] is a parameter of every operation that reads the
      clock. *)

From Stdlib Require Import ZArith QArith Ascii String List Lia.
From stdpp Require Import base gmap strings list sorting.

Local Open Scope Z_scope.

(** ** Python string operations *)

Module PyStr.

Definition LF : ascii := "010"%char.

(** [str.isspace] on one character. *)
Definition is_space (c : ascii) : bool :=
  match c with
  | "009" | "010" | "011" | "012" | "013"
  | "028" | "029" | "030" | "031" | " " | "133" | "160" => true
  | _ => false
  end%char.

Fixpoint lstrip (s : string) : string :=
  match s with
  | EmptyString => EmptyString
  | String c s' => if is_space c then lstrip s' else s
  end.

Fixpoint rstrip (s : string) : string :=
  match s with
  | EmptyString => EmptyString
  | String c s' =>
      match rstrip s' with
      | EmptyString => if is_space c then EmptyString else String c EmptyString
      | r => String c r
      end
  end.

(** [s.strip()] *)
Definition strip (s : string) : string := rstrip (lstrip s).

(** [s[n:]] *)
Fixpoint drop (n : nat) (s : string) : string :=
  match n, s with
  | O, _ => s
  | S _, EmptyString => EmptyString
  | S k, String _ s' => drop k s'
  end.

(** [s[a:b]] for [a <= b] *)
Definition slice (a b : nat) (s : string) : string :=
  String.substring a (b - a) s.

(** [s.split(sep)] for a non-empty [sep]: the pieces between the
    non-overlapping occurrences of [sep], found left to right.  [skip]
    counts the characters of a matched separator still to be passed. *)
Fixpoint split_from (sep : string) (skip : nat) (s : string) : list string :=
  match s with
  | EmptyString => [EmptyString]
  | String c s' =>
      match skip with
      | S k => split_from sep k s'
      | O =>
          if String.prefix sep s
          then EmptyString :: split_from sep (Nat.pred (String.length sep)) s'
          else match split_from sep O s' with
               | p :: ps => String c p :: ps
               | [] => [String c EmptyString]
               end
      end
  end.

Definition split (sep s : string) : list string := split_from sep O s.

(** [s.replace(old, "")] for a non-empty [old]. *)
Fixpoint remove_from (old : string) (skip : nat) (s : string) : string :=
  match s with
  | EmptyString => EmptyString
  | String c s' =>
      match skip with
      | S k => remove_from old k s'
      | O =>
          if String.prefix old s
          then remove_from old (Nat.pred (String.length old)) s'
          else String c (remove_from old O s')
      end
  end.

Definition remove_all (old s : string) : string := remove_from old O s.

(** [s.endswith(sfx)] *)
Fixpoint endswith (s sfx : string) : bool :=
  String.eqb s sfx ||
  match s with
  | EmptyString => false
  | String _ s' => endswith s' sfx
  end.

(** [s.startswith(p)] *)
Definition startswith (s p : string) : bool := String.prefix p s.

(** [sub in s] *)
Fixpoint contains (sub s : string) : bool :=
  String.prefix sub s ||
  match s with
  | EmptyString => false
  | String _ s' => contains sub s'
  end.

(** The lines of a text, once read in text mode, as iteration over the
    file yields them: every line keeps its line feed; the last one may lack
    it. *)
Fixpoint readlines (s : string) : list string :=
  match s with
  | EmptyString => []
  | String c s' =>
      if Ascii.eqb c LF then String c EmptyString :: readlines s'
      else match readlines s' with
           | [] => [String c EmptyString]
           | l :: ls => String c l :: ls
           end
  end.

(** [f.writelines(ls)] / [''.join(ls)] *)
Fixpoint join (ls : list string) : string :=
  match ls with
  | [] => EmptyString
  | l :: ls' => l +:+ join ls'
  end.

(** [c in s] for one character. *)
Fixpoint has_char (c : ascii) (s : string) : bool :=
  match s with
  | EmptyString => false
  | String x s' => Ascii.eqb c x || has_char c s'
  end.

(** The text has no line feed. *)
Definition no_LF (s : string) : bool := negb (has_char LF s).

Definition CR : ascii := "013"%char.

(** The text has no carriage return. *)
Definition no_CR (s : string) : bool := negb (has_char CR s).

(** What [open(file, "r")] makes of the characters of a file: a CR followed
    by LF and a CR alone are both read as LF. *)
Fixpoint universal_newlines (s : string) : string :=
  match s with
  | EmptyString => EmptyString
  | String c s' =>
      if Ascii.eqb c CR then
        match s' with
        | String c' _ =>
            if Ascii.eqb c' LF then universal_newlines s'
            else String LF (universal_newlines s')
        | EmptyString => String LF EmptyString
        end
      else String c (universal_newlines s')
  end.

(** Every character of [s] satisfies [p]. *)
Fixpoint all_chars (p : ascii -> bool) (s : string) : bool :=
  match s with
  | EmptyString => true
  | String x s' => p x && all_chars p s'
  end.

(** The number of characters before the first [c] in [s]; the length of [s]
    when there is none. *)
Fixpoint index_of (c : ascii) (s : string) : nat :=
  match s with
  | EmptyString => O
  | String x s' => if Ascii.eqb c x then O else S (index_of c s')
  end.

End PyStr.

(** ** [datetime], [date] and [timedelta] *)

Module Datetime.

(** A [datetime] object: the fields CPython stores. *)
Record datetime : Type := mk_datetime {
  year : Z; month : Z; day : Z;
  hour : Z; minute : Z; second : Z; microsecond : Z
}.

(** A [date] is its proleptic Gregorian ordinal ([date.toordinal()]). *)
Definition date : Type := Z.

Definition is_leap (y : Z) : bool :=
  (y mod 4 =? 0) && (negb (y mod 100 =? 0) || (y mod 400 =? 0)).

Definition days_before_year (y : Z) : Z :=
  let y' := y - 1 in y' * 365 + y' / 4 - y' / 100 + y' / 400.

Definition days_in_month (y m : Z) : Z :=
  if (m =? 2) && is_leap y then 29
  else nth (Z.to_nat m) [0; 31; 28; 31; 30; 31; 30; 31; 31; 30; 31; 30; 31] 0.

Definition days_before_month (y m : Z) : Z :=
  nth (Z.to_nat m) [0; 0; 31; 59; 90; 120; 151; 181; 212; 243; 273; 304; 334] 0
  + (if (2 <? m) && is_leap y then 1 else 0).

Definition ymd2ord (y m d : Z) : Z :=
  days_before_year y + days_before_month y m + d.

(** [dt.date()] *)
Definition date_of (dt : datetime) : date :=
  ymd2ord (year dt) (month dt) (day dt).

Definition US_PER_DAY : Z := 86400000000.

(** Microseconds from the start of ordinal day 0 to [dt]; [dt1 - dt2],
    [dt1 < dt2], [max] and [min] on datetimes are those of this count. *)
Definition to_us (dt : datetime) : Z :=
  ((date_of dt * 86400 + hour dt * 3600 + minute dt * 60 + second dt) * 1000000)
  + microsecond dt.

(** [datetime.combine(d, time.min)] and [datetime.combine(d, time.max)],
    as microsecond counts. *)
Definition day_start (d : date) : Z := d * US_PER_DAY.
Definition day_end (d : date) : Z := d * US_PER_DAY + (US_PER_DAY - 1).

(** One decimal digit, and the zero-padded fields [strftime] writes. *)
Definition digit_char (k : Z) : ascii := ascii_of_nat (48 + Z.to_nat (k mod 10)).

Definition fmt2 (n : Z) : string :=
  String (digit_char (n / 10)) (String (digit_char n) EmptyString).

Definition fmt4 (n : Z) : string :=
  String (digit_char (n / 1000)) (String (digit_char (n / 100))
    (String (digit_char (n / 10)) (String (digit_char n) EmptyString))).

(** [dt.strftime('%Y-%m-%d %H:%M:%S')] *)
Definition strftime (dt : datetime) : string :=
  fmt4 (year dt) +:+ "-" +:+ fmt2 (month dt) +:+ "-" +:+ fmt2 (day dt) +:+ " "
  +:+ fmt2 (hour dt) +:+ ":" +:+ fmt2 (minute dt) +:+ ":" +:+ fmt2 (second dt).

Definition digit_val (c : ascii) : option Z :=
  let n := Z.of_nat (nat_of_ascii c) in
  if (48 <=? n) && (n <=? 57) then Some (n - 48) else None.

(** The value of a string made of decimal digits only. *)
Fixpoint digits_val (acc : Z) (s : string) : option Z :=
  match s with
  | EmptyString => Some acc
  | String c s' =>
      match digit_val c with
      | Some v => digits_val (acc * 10 + v) s'
      | None => None
      end
  end.

Definition field_at (a b : nat) (s : string) : option Z :=
  digits_val 0 (String.substring a (b - a) s).

Definition sep_at (i : nat) (c : ascii) (s : string) : bool :=
  match String.get i s with
  | Some c' => Ascii.eqb c c'
  | None => false
  end.

(** [datetime.strptime(s, '%Y-%m-%d %H:%M:%S')], [None] for [ValueError].
    This is the fixed-width layout that [strftime] writes; the shorter
    field forms that [strptime] also accepts are not modelled. *)
Definition strptime (s : string) : option datetime :=
  if negb (Nat.eqb (String.length s) 19) then None
  else if negb (sep_at 4 "-" s && sep_at 7 "-" s && sep_at 10 " " s
                && sep_at 13 ":" s && sep_at 16 ":" s) then None
  else
    match field_at 0 4 s, field_at 5 7 s, field_at 8 10 s,
          field_at 11 13 s, field_at 14 16 s, field_at 17 19 s with
    | Some y, Some mo, Some d, Some h, Some mi, Some se =>
        if (1 <=? y) && (1 <=? mo) && (mo <=? 12)
           && (1 <=? d) && (d <=? days_in_month y mo)
           && (h <=? 23) && (mi <=? 59) && (se <=? 59)
        then Some (mk_datetime y mo d h mi se 0)
        else None
    | _, _, _, _, _, _ => None
    end.

(** [timedelta.total_seconds()] of a difference of [us] microseconds. *)
Definition total_seconds (us : Z) : Q := inject_Z us / 1000000.

(** [(a - b).total_seconds()] *)
Definition seconds_between (a b : datetime) : Q :=
  total_seconds (to_us a - to_us b).

End Datetime.

Import Datetime.

(** ** The device ledger and session accounting *)

Record Device : Type := mk_device {
  name : string;
  power : Q;
  is_on : bool;
  session_usage_seconds : Q;
  saved_usage_units : Q;
  last_on_time : option datetime
}.

(** [Device.__init__] *)
Definition new_device (n : string) (p : Q) : Device :=
  {| name := n; power := p; is_on := false;
     session_usage_seconds := 0; saved_usage_units := 0;
     last_on_time := None |}.

Definition set_saved_usage_units (u : Q) (d : Device) : Device :=
  {| name := name d; power := power d; is_on := is_on d;
     session_usage_seconds := session_usage_seconds d;
     saved_usage_units := u; last_on_time := last_on_time d |}.

(** [Device.toggle]; [now] is the value of [datetime.now()]. *)
Definition toggle (now : datetime) (d : Device) : Device :=
  if is_on d then
    match last_on_time d with
    | Some t =>
        {| name := name d; power := power d; is_on := false;
           session_usage_seconds :=
             (session_usage_seconds d + seconds_between now t)%Q;
           saved_usage_units := saved_usage_units d;
           last_on_time := None |}
    | None =>
        {| name := name d; power := power d; is_on := false;
           session_usage_seconds := session_usage_seconds d;
           saved_usage_units := saved_usage_units d;
           last_on_time := None |}
    end
  else
    {| name := name d; power := power d; is_on := true;
       session_usage_seconds := session_usage_seconds d;
       saved_usage_units := saved_usage_units d;
       last_on_time := Some now |}.

(** [Device.update_session_usage] *)
Definition update_session_usage (now : datetime) (d : Device) : Device :=
  match is_on d, last_on_time d with
  | true, Some t =>
      {| name := name d; power := power d; is_on := is_on d;
         session_usage_seconds :=
           (session_usage_seconds d + seconds_between now t)%Q;
         saved_usage_units := saved_usage_units d;
         last_on_time := Some now |}
  | _, _ => d
  end.

(** [Device.get_session_units] *)
Definition get_session_units (d : Device) : Q :=
  ((power d * session_usage_seconds d) / (1000 * 3600))%Q.

(** [Device.get_total_units] *)
Definition get_total_units (d : Device) : Q :=
  (saved_usage_units d + get_session_units d)%Q.

(** The body of the loop of [App._consolidate_session_usage] for one device.
    The source reads the clock twice: [now1] measures the elapsed time,
    [now2] becomes the new [last_on_time]. *)
Definition consolidate_device (now1 now2 : datetime) (d : Device) : Device :=
  let d1 :=
    match is_on d, last_on_time d with
    | true, Some t =>
        {| name := name d; power := power d; is_on := is_on d;
           session_usage_seconds :=
             (session_usage_seconds d + seconds_between now1 t)%Q;
           saved_usage_units := saved_usage_units d;
           last_on_time := Some now2 |}
    | _, _ => d
    end in
  {| name := name d1; power := power d1; is_on := is_on d1;
     session_usage_seconds := 0;
     saved_usage_units := (saved_usage_units d1 + get_session_units d1)%Q;
     last_on_time := last_on_time d1 |}.

(** [App._consolidate_session_usage]: [clock i] gives the two clock readings
    taken while the [i]-th device is handled. *)
Definition consolidate_session_usage
    (clock : nat -> datetime * datetime) (devices : list Device) : list Device :=
  imap (fun i d => consolidate_device (fst (clock i)) (snd (clock i)) d) devices.

(** The seconds a device has been on since [last_on_time], as seen at [now]. *)
Definition elapsed_on (now : datetime) (d : Device) : Q :=
  match is_on d, last_on_time d with
  | true, Some t => seconds_between now t
  | _, _ => 0%Q
  end.

(** *** Sequences of ledger operations *)

Inductive ledger_op : Type :=
| OpToggle (now : datetime)
| OpRefresh (now : datetime)
| OpConsolidate (now1 now2 : datetime).

Definition apply_op (d : Device) (o : ledger_op) : Device :=
  match o with
  | OpToggle now => toggle now d
  | OpRefresh now => update_session_usage now d
  | OpConsolidate now1 now2 => consolidate_device now1 now2 d
  end.

Definition run_ops (ops : list ledger_op) (d : Device) : Device :=
  fold_left apply_op ops d.

(** [last_on_time] is set exactly when the device is on. *)
Definition on_since_iff_on (d : Device) : Prop :=
  is_Some (last_on_time d) <-> is_on d = true.

(** ** The per-user data file *)

(** [float(s)] ([None] for [ValueError]) and the text an f-string writes for
    a float, on finite numbers. *)
Class FloatText : Type := {
  float_parse : string -> option Q;
  float_repr : Q -> string
}.

Definition DEVICES_MARK : string := "## DEVICES ##".
Definition LOGS_MARK : string := "## LOGS ##".

(** [f"{username}_data.txt"] *)
Definition data_file (username : string) : string := username +:+ "_data.txt".

(** The loop of [save_state] that re-reads the log block: every line after
    the first marker line is kept, marker lines excepted. *)
Fixpoint collect_logs (in_logs_section : bool) (lines : list string) : list string :=
  match lines with
  | [] => []
  | line :: rest =>
      if String.eqb (PyStr.strip line) LOGS_MARK then collect_logs true rest
      else if in_logs_section then line :: collect_logs in_logs_section rest
      else collect_logs in_logs_section rest
  end.

(** The lines that follow the first [## LOGS ##] line. *)
Fixpoint log_block (lines : list string) : list string :=
  match lines with
  | [] => []
  | line :: rest =>
      if String.eqb (PyStr.strip line) LOGS_MARK then rest else log_block rest
  end.

Definition is_marker_line (line : string) : bool :=
  String.eqb (PyStr.strip line) LOGS_MARK.

Definition has_logs_marker (content : string) : bool :=
  existsb is_marker_line (PyStr.readlines content).

Section Store.
Context {FT : FloatText}.

(** [f"{device.name} ({device.power}W) | {device.saved_usage_units}\n"] *)
Definition device_line (d : Device) : string :=
  name d +:+ " (" +:+ float_repr (power d) +:+ "W) | "
  +:+ float_repr (saved_usage_units d) +:+ "
".

(** The line of a device without its line feed. *)
Definition device_text (d : Device) : string :=
  name d +:+ " (" +:+ float_repr (power d) +:+ "W) | "
  +:+ float_repr (saved_usage_units d).

(** What [save_state] writes before the log lines. *)
Definition summary_block (devices : list Device) : string :=
  "## DEVICES ##
" +:+ PyStr.join (map device_line devices) +:+ "
## LOGS ##
".

(** [App.save_state]: the new content of the data file; [file] is its
    content before the call, [None] when it does not exist. *)
Definition save_state (devices : list Device) (file : option string) : string :=
  let logs :=
    match file with
    | Some content => collect_logs false (PyStr.readlines content)
    | None => []
    end in
  summary_block devices +:+ PyStr.join logs.

(** The [try] block of [load_state] for one stripped line; [None] when it
    raises. *)
Definition parse_device_line (stripped : string) : option Device :=
  match PyStr.split " | " stripped with
  | [info_part; usage_part] =>
      match PyStr.split " (" info_part with
      | [name_part; power_part] =>
          match float_parse (hd EmptyString (PyStr.split "W)" power_part)) with
          | Some p =>
              match float_parse usage_part with
              | Some u =>
                  Some (set_saved_usage_units u (new_device (PyStr.strip name_part) p))
              | None => None
              end
          | None => None
          end
      | _ => None
      end
  | _ => None
  end.

Fixpoint load_lines (in_devices_section : bool) (lines : list string) : list Device :=
  match lines with
  | [] => []
  | line :: rest =>
      let stripped := PyStr.strip line in
      if String.eqb stripped EmptyString then load_lines in_devices_section rest
      else if String.eqb stripped DEVICES_MARK then load_lines true rest
      else if String.eqb stripped LOGS_MARK then []
      else if in_devices_section then
        match parse_device_line stripped with
        | Some d => d :: load_lines in_devices_section rest
        | None => load_lines in_devices_section rest
        end
      else load_lines in_devices_section rest
  end.

(** [App.load_state]: the devices appended to [self.devices]. *)
Definition load_state (file : option string) : list Device :=
  match file with
  | Some content => load_lines false (PyStr.readlines content)
  | None => []
  end.

End Store.

(** What the summary block keeps of a device. *)
Definition summary_of (d : Device) : string * Q * Q :=
  (name d, power d, saved_usage_units d).

(** A file as the next [open(file, "r")] reads it, [None] when it does not
    exist. *)
Definition read_text (file : option string) : option string :=
  option_map PyStr.universal_newlines file.

(** Consecutive calls of [save_state], one per device list, starting from a
    file with the given characters; every call reads the file that the call
    before it wrote. *)
Definition saves {FT : FloatText} (devicess : list (list Device)) (content : string)
  : string :=
  fold_left (fun c devices => save_state devices (read_text (Some c)))
            devicess content.

(** The log block of a file: the lines after its first [## LOGS ##] line. *)
Definition log_lines_of (content : string) : list string :=
  log_block (PyStr.readlines content).

Definition single_line_names (devices : list Device) : bool :=
  forallb (fun d => PyStr.no_LF (name d)) devices.

(** Device names with neither line feed nor carriage return. *)
Definition no_newline_names (devices : list Device) : bool :=
  forallb (fun d => PyStr.no_LF (name d) && PyStr.no_CR (name d)) devices.

(** A line as [readlines] yields it before the end of the file: it ends
    with its only line feed. *)
Fixpoint is_complete_line (s : string) : bool :=
  match s with
  | EmptyString => false
  | String c s' =>
      if Ascii.eqb c PyStr.LF then String.eqb s' EmptyString else is_complete_line s'
  end.

(** What [readlines] can yield: complete lines, then possibly a last line
    without a line feed. *)
Inductive lines_ok : list string -> Prop :=
| lines_ok_nil : lines_ok []
| lines_ok_last (l : string) :
    l <> EmptyString -> PyStr.no_LF l = true -> lines_ok [l]
| lines_ok_cons (l : string) (ls : list string) :
    is_complete_line l = true -> lines_ok ls -> lines_ok (l :: ls).

Definition not_marker (l : string) : bool := negb (is_marker_line l).

(** *** Devices that the summary block can hold *)

(** The characters of the text of a float: digits, sign, point, exponent
    mark, and the letters of [inf] and [nan]. *)
Definition num_char (c : ascii) : bool :=
  match c with
  | "0" | "1" | "2" | "3" | "4" | "5" | "6" | "7" | "8" | "9"
  | "+" | "-" | "." | "e" | "i" | "n" | "f" | "a" => true
  | _ => false
  end%char.

Definition number_text (s : string) : bool :=
  negb (String.eqb s EmptyString) && PyStr.all_chars num_char s.

(** A device name without white space at its ends (what [strip] returns),
    not empty, on one line (neither line feed nor carriage return), and
    free of the two characters that the summary line uses after the name. *)
Definition good_name (n : string) : bool :=
  match n with
  | EmptyString => false
  | String x _ => negb (PyStr.is_space x)
  end
  && String.eqb (PyStr.rstrip n) n
  && negb (PyStr.has_char "|" n)
  && negb (PyStr.has_char "(" n)
  && PyStr.no_LF n
  && PyStr.no_CR n.

(** A number that [float] reads back from its own text. *)
Definition text_round_trips {FT : FloatText} (q : Q) : Prop :=
  float_parse (float_repr q) = Some q.

Definition storable {FT : FloatText} (d : Device) : Prop :=
  good_name (name d) = true
  /\ text_round_trips (power d)
  /\ text_round_trips (saved_usage_units d).

(** *** A concrete number text for the worked examples

    Plain decimal notation, at most 17 digits after the point.  For the
    numbers of the examples below (100.0, 60.0, 0.0, 1.5, ...) it is the
    text Python writes and reads. *)

Fixpoint nat_digits (fuel : nat) (n : Z) (acc : string) : string :=
  match fuel with
  | O => acc
  | S f =>
      let acc' := String (digit_char n) acc in
      if n <? 10 then acc' else nat_digits f (n / 10) acc'
  end.

Definition int_text (n : Z) : string :=
  nat_digits (S (Z.to_nat (Z.log2 n))) n EmptyString.

Fixpoint frac_digits (fuel : nat) (r den : Z) : string :=
  match fuel with
  | O => EmptyString
  | S f =>
      if r =? 0 then EmptyString
      else String (digit_char (r * 10 / den)) (frac_digits f (r * 10 mod den) den)
  end.

Definition decimal_repr (q : Q) : string :=
  let n := Qnum q in
  let d := Z.pos (Qden q) in
  let a := Z.abs n in
  (if n <? 0 then "-" else EmptyString)
  +:+ int_text (a / d) +:+ "."
  +:+ match frac_digits 17 (a mod d) d with
      | EmptyString => "0"
      | s => s
      end.

(** The leading decimal digits of [s]: their value, their number, the rest. *)
Fixpoint take_digits (s : string) (acc : Z) (n : nat) : Z * nat * string :=
  match s with
  | EmptyString => (acc, n, s)
  | String c s' =>
      match digit_val c with
      | Some v => take_digits s' (acc * 10 + v) (S n)
      | None => (acc, n, s)
      end
  end.

Definition decimal_parse (s : string) : option Q :=
  let s0 := PyStr.strip s in
  let '(neg, s1) :=
    match s0 with
    | String "-" r => (true, r)
    | String "+" r => (false, r)
    | _ => (false, s0)
    end in
  let '(ip, ni, s2) := take_digits s1 0 O in
  let signed (q : Q) := if neg then Qopp q else q in
  match s2 with
  | EmptyString => if Nat.eqb ni 0 then None else Some (signed (inject_Z ip))
  | String "." s3 =>
      let '(fp, nf, s4) := take_digits s3 0 O in
      match s4 with
      | EmptyString =>
          if Nat.eqb (ni + nf) 0 then None
          else Some (signed (Qred (Qmake (ip * 10 ^ Z.of_nat nf + fp)
                                         (Z.to_pos (10 ^ Z.of_nat nf)))))
      | _ => None
      end
  | _ => None
  end.

Definition plain_decimal : FloatText :=
  {| float_parse := decimal_parse; float_repr := decimal_repr |}.

(** *** The working directory *)

(** The entries of the current directory in the order [os.listdir] gives
    them; the content is [None] for an entry that cannot be opened and read
    as text. *)
Definition directory : Type := list (string * option string).

Fixpoint dir_lookup (fname : string) (dir : directory) : option (option string) :=
  match dir with
  | [] => None
  | (f, c) :: rest => if String.eqb f fname then Some c else dir_lookup fname rest
  end.

(** The content of a file that exists and can be read. *)
Definition dir_read (fname : string) (dir : directory) : option string :=
  match dir_lookup fname dir with
  | Some c => c
  | None => None
  end.

(** [open(fname, "a")] followed by [f.write(text)]; an [IOError] on an entry
    that cannot be opened leaves the directory as it is. *)
Fixpoint dir_append (fname text : string) (dir : directory) : directory :=
  match dir with
  | [] => [(fname, Some text)]
  | (f, c) :: rest =>
      if String.eqb f fname
      then (f, match c with Some old => Some (old +:+ text) | None => None end) :: rest
      else (f, c) :: dir_append fname text rest
  end.

(** [App.toggle_device] without the button: the device is toggled at
    [now_toggle] and the event is appended to the data file with the time
    read at [now_log]. *)
Definition toggle_device (username : string) (now_toggle now_log : datetime)
    (d : Device) (dir : directory) : Device * directory :=
  let d' := toggle now_toggle d in
  let log_message :=
    "[" +:+ strftime now_log +:+ "] " +:+ name d' +:+ " turned "
    +:+ (if is_on d' then "ON" else "OFF") +:+ "
" in
  (d', dir_append (data_file username) log_message dir).

(** ** The daily aggregator *)

Record log_entry : Type := mk_log {
  timestamp : datetime;
  device : string;
  status : string
}.

(** The [try] block of [show_stats] for one stripped log line; [None] for
    [ValueError] and [IndexError]. *)
Definition parse_log_line (stripped_line : string) : option log_entry :=
  match strptime (PyStr.slice 1 20 stripped_line) with
  | None => None
  | Some dt_obj =>
      let status_part_raw := PyStr.drop 22 stripped_line in
      match PyStr.split " turned " status_part_raw with
      | p0 :: p1 :: _ =>
          Some (mk_log dt_obj (PyStr.strip p0)
                  (PyStr.strip (hd EmptyString (PyStr.split " " p1))))
      | _ => None
      end
  end.

Fixpoint processed_logs (logs_section_started : bool) (lines : list string)
  : list log_entry :=
  match lines with
  | [] => []
  | line :: rest =>
      let stripped_line := PyStr.strip line in
      if String.eqb stripped_line LOGS_MARK then processed_logs true rest
      else if negb logs_section_started || String.eqb stripped_line EmptyString
      then processed_logs logs_section_started rest
      else match parse_log_line stripped_line with
           | Some e => e :: processed_logs logs_section_started rest
           | None => processed_logs logs_section_started rest
           end
  end.

(** [sorted(l, key=...)] and [list.sort(key=...)]: a stable sort. *)
Fixpoint insert_by {A : Type} (leb : A -> A -> bool) (x : A) (l : list A) : list A :=
  match l with
  | [] => [x]
  | y :: l' => if leb x y then x :: y :: l' else y :: insert_by leb x l'
  end.

Definition sort_by {A : Type} (leb : A -> A -> bool) (l : list A) : list A :=
  foldr (insert_by leb) [] l.

Definition log_leb (a b : log_entry) : bool :=
  to_us (timestamp a) <=? to_us (timestamp b).

(** [{d.name: d.power for d in self.devices}] *)
Definition device_power_map (devices : list Device) : gmap string Q :=
  fold_left (fun m d => <[name d := power d]> m) devices ∅.

(** [daily_usage_seconds_cumulative]: seconds per [(date, device name)]. *)
Abbreviation daily_usage := (gmap (date * string) Q).

(** The [while current_date_iter <= end_time.date()] loop; [n] is the number
    of dates from [current_date_iter] to [end_time.date()].  Dates are not
    bounded here; in the source the step past 9999-12-31 raises
    [OverflowError], once the entry of that day is written. *)
Fixpoint attribute_days (n : nat) (current_date_iter : date)
    (start_time end_time : Z) (device_name : string) (daily : daily_usage)
  : daily_usage :=
  match n with
  | O => daily
  | S k =>
      let session_start_on_day := Z.max start_time (day_start current_date_iter) in
      let session_end_on_day := Z.min end_time (day_end current_date_iter) in
      let duration := total_seconds (session_end_on_day - session_start_on_day) in
      let key := (current_date_iter, device_name) in
      let daily' :=
        if negb (Qle_bool duration 0)
        then <[key := (default 0%Q (daily !! key) + duration)%Q]> daily
        else daily in
      attribute_days k (current_date_iter + 1) start_time end_time device_name daily'
  end.

Definition attribute_session (device_name : string) (start_time end_time : datetime)
    (daily : daily_usage) : daily_usage :=
  attribute_days (Z.to_nat (date_of end_time - date_of start_time + 1))
    (date_of start_time) (to_us start_time) (to_us end_time) device_name daily.

(** One iteration of the replay loop over the sorted log. *)
Definition replay_step (power_map : gmap string Q)
    (st : gmap string datetime * daily_usage) (log : log_entry)
  : gmap string datetime * daily_usage :=
  let '(open_sessions, daily) := st in
  let device_name := device log in
  match power_map !! device_name with
  | None => st
  | Some _ =>
      if String.eqb (status log) "ON"
      then (<[device_name := timestamp log]> open_sessions, daily)
      else if String.eqb (status log) "OFF" then
        match open_sessions !! device_name with
        | Some start_time =>
            (delete device_name open_sessions,
             attribute_session device_name start_time (timestamp log) daily)
        | None => st
        end
      else st
  end.

Definition replay (power_map : gmap string Q) (logs : list log_entry)
  : gmap string datetime * daily_usage :=
  fold_left (replay_step power_map) (sort_by log_leb logs) (∅, ∅).

(** The loop over [self.devices] that closes the sessions still open at
    [now]. *)
Definition add_live_sessions (now : datetime) (devices : list Device)
    (daily : daily_usage) : daily_usage :=
  fold_left
    (fun acc d =>
       match is_on d, last_on_time d with
       | true, Some start_time => attribute_session (name d) start_time now acc
       | _, _ => acc
       end)
    devices daily.

(** [daily_usage_seconds_cumulative] once both loops of [show_stats] have
    run. *)
Definition daily_usage_seconds (devices : list Device) (file : option string)
    (now : datetime) : daily_usage :=
  let from_log :=
    match file with
    | Some content =>
        snd (replay (device_power_map devices)
               (processed_logs false (PyStr.readlines content)))
    | None => ∅
    end in
  add_live_sessions now devices from_log.

(** [(power * seconds) / (1000 * 3600)] *)
Definition kwh (p seconds : Q) : Q := ((p * seconds) / (1000 * 3600))%Q.

(** The units the aggregator attributes to a device on a date: the value
    written to the table from [daily_usage_seconds_cumulative], 0 without an
    entry. *)
Definition attributed_units (devices : list Device) (daily : daily_usage)
    (d : date) (device_name : string) : Q :=
  match daily !! (d, device_name) with
  | Some seconds => kwh (default 0%Q (device_power_map devices !! device_name)) seconds
  | None => 0%Q
  end.

(** [today - timedelta(days=i) for i in range(6, -1, -1)] *)
Definition dates_for_columns (today : date) : list date :=
  map (fun i => today - i) [6; 5; 4; 3; 2; 1; 0].

(** [sorted(list(set(names of devices + names in the keys)))] *)
Definition all_device_names (devices : list Device) (daily : daily_usage)
  : list string :=
  merge_sort String.le
    (remove_dups (map name devices ++ map snd (map fst (map_to_list daily)))).

(** The live total written to today's cell: the last device of that name in
    [self.devices] wins. *)
Definition live_total (devices : list Device) (device_name : string) : option Q :=
  fold_left
    (fun acc d => if String.eqb (name d) device_name then Some (get_total_units d) else acc)
    devices None.

(** One cell of the data frame after the two loops that fill it. *)
Definition cell (devices : list Device) (daily : daily_usage) (today : date)
    (device_name : string) (d : date) : Q :=
  match (if d =? today then live_total devices device_name else None) with
  | Some u => u
  | None => attributed_units devices daily d device_name
  end.

Record stats_table : Type := mk_table {
  columns : list date;
  rows : list (string * list Q)
}.

(** The table of [show_stats]; [None] when the "No usage data" label is
    shown instead.  [now] is the clock reading that closes the open
    sessions, [now_table] the later one that fixes today's date. *)
Definition show_stats (devices : list Device) (file : option string)
    (now now_table : datetime) : option stats_table :=
  let daily := daily_usage_seconds devices file now in
  if bool_decide (daily = ∅) && bool_decide (devices = []) then None
  else
    let today := date_of now_table in
    let cols := dates_for_columns today in
    Some (mk_table cols
            (map (fun n => (n, map (cell devices daily today n) cols))
                 (all_device_names devices daily))).

(** ** The leaderboard *)

Record leaderboard_entry : Type := mk_entry {
  username : string;
  total_usage : Q
}.

Section Leaderboard.
Context {FT : FloatText}.

(** The loop over the lines of one user's file: the sum of the
    [saved_units] fields of its summary block. *)
Fixpoint total_usage_from_file (in_devices_section : bool) (total : Q)
    (lines : list string) : Q :=
  match lines with
  | [] => total
  | line :: rest =>
      let stripped := PyStr.strip line in
      if String.eqb stripped EmptyString
      then total_usage_from_file in_devices_section total rest
      else if String.eqb stripped DEVICES_MARK
      then total_usage_from_file true total rest
      else if String.eqb stripped LOGS_MARK then total
      else if in_devices_section then
        match PyStr.split " | " stripped with
        | [_; usage_part] =>
            match float_parse usage_part with
            | Some saved_usage =>
                total_usage_from_file in_devices_section (total + saved_usage)%Q rest
            | None => total_usage_from_file in_devices_section total rest
            end
        | _ => total_usage_from_file in_devices_section total rest
        end
      else total_usage_from_file in_devices_section total rest
  end.

(** [current_user_total_usage] *)
Definition current_user_total_usage (devices : list Device) : Q :=
  fold_left (fun acc d => (acc + get_total_units d)%Q) devices 0%Q.

(** The loop over [os.listdir('.')]. *)
Fixpoint leaderboard_data (active : string) (devices : list Device)
    (dir : directory) : list leaderboard_entry :=
  match dir with
  | [] => []
  | (filename, content) :: rest =>
      if PyStr.endswith filename "_data.txt" then
        match content with
        | Some text =>
            let username_from_file := PyStr.remove_all "_data.txt" filename in
            let from_file := total_usage_from_file false 0%Q (PyStr.readlines text) in
            let final_user_usage :=
              if String.eqb username_from_file active
              then current_user_total_usage devices
              else from_file in
            mk_entry username_from_file final_user_usage
              :: leaderboard_data active devices rest
        | None => leaderboard_data active devices rest
        end
      else leaderboard_data active devices rest
  end.

(** The order [list.sort] uses on the totals, all of them numbers. *)
Definition entry_leb (a b : leaderboard_entry) : bool :=
  Qle_bool (total_usage a) (total_usage b).

(** [App.show_leaderboard]: the rows of the table, best rank first (the
    empty list stands for the "No users found" label). *)
Definition show_leaderboard (active : string) (devices : list Device)
    (dir : directory) : list leaderboard_entry :=
  sort_by entry_leb (leaderboard_data active devices dir).

End Leaderboard.

(** Every key of the per-day usage names a current device. *)
Definition keys_name_devices (devices : list Device) (daily : daily_usage) : Prop :=
  forall d n q, daily !! (d, n) = Some q -> In n (map name devices).


(** ** Adding devices, refreshing, saving *)

(** What [add_device] tells the user. *)
Inductive add_outcome : Type :=
| Added
| InvalidNumber
| InvalidInput
| DuplicateDevice.

(** [App.add_device]: [name_entry] and [power_entry] are the texts of the two
    entry fields; the result is the new [self.devices]. *)
Definition add_device {FT : FloatText} (name_entry power_entry : string)
    (devices : list Device) : list Device * add_outcome :=
  let n := PyStr.strip name_entry in
  match float_parse power_entry with
  | None => (devices, InvalidNumber)
  | Some p =>
      if negb (String.eqb n EmptyString) && negb (Qle_bool p 0) then
        if existsb (fun d => String.eqb (name d) n) devices
        then (devices, DuplicateDevice)
        else (devices ++ [new_device n p], Added)
      else (devices, InvalidInput)
  end.

(** Several [add_device] calls in a row. *)
Definition add_devices {FT : FloatText} (entries : list (string * string))
    (devices : list Device) : list Device :=
  fold_left (fun ds e => fst (add_device (fst e) (snd e) ds)) entries devices.

(** What [add_device] keeps true of the device list. *)
Definition device_list_ok (devices : list Device) : Prop :=
  NoDup (map name devices)
  /\ Forall (fun d => name d <> EmptyString
                      /\ PyStr.strip (name d) = name d
                      /\ (0 < power d)%Q) devices.

(** [App.save_usage] and, but for the window, [App.on_closing]: consolidate,
    then save.  The result is the device list and the new file content. *)
Definition save_usage {FT : FloatText} (clock : nat -> datetime * datetime)
    (devices : list Device) (file : option string) : list Device * string :=
  let devices' := consolidate_session_usage clock devices in
  (devices', save_state devices' file).

(** The line that [toggle_device] appends for a device of the given name
    that is on ([true]) or off after the toggle. *)
Definition log_message (now : datetime) (device_name : string) (on : bool) : string :=
  "[" +:+ strftime now +:+ "] " +:+ device_name +:+ " turned "
  +:+ (if on then "ON" else "OFF") +:+ "
".


(** A number that [float] reads back from its own text with the same
    value. *)
Definition reads_back {FT : FloatText} (q : Q) : Prop :=
  exists q', float_parse (float_repr q) = Some q' /\ (q' == q)%Q.

Definition restorable {FT : FloatText} (d : Device) : Prop :=
  good_name (name d) = true
  /\ reads_back (power d)
  /\ reads_back (saved_usage_units d).

(** Same name and, as numbers, same power and same [total_units]; the first
    device is off. *)
Definition same_after_restart (loaded d : Device) : Prop :=
  name loaded = name d
  /\ (power loaded == power d)%Q
  /\ is_on loaded = false
  /\ (get_total_units loaded == get_total_units d)%Q.

(** ** Quantities of the daily aggregator *)

(** The signed length, in seconds, of the part of the interval from
    [start_time] to [end_time] that lies between 00:00:00 and
    23:59:59.999999 of day [d]: [duration] in the loop of [show_stats]. *)
Definition day_slice (start_time end_time : Z) (d : date) : Q :=
  total_seconds (Z.min end_time (day_end d) - Z.max start_time (day_start d)).

(** The fields of the time of day are in range. *)
Definition valid_time (dt : datetime) : bool :=
  (0 <=? hour dt) && (hour dt <=? 23)
  && (0 <=? minute dt) && (minute dt <=? 59)
  && (0 <=? second dt) && (second dt <=? 59)
  && (0 <=? microsecond dt) && (microsecond dt <=? 999999).

(** The fields of the date are those of a day of the calendar. *)
Definition valid_date (dt : datetime) : bool :=
  (1 <=? year dt) && (year dt <=? 9999)
  && (1 <=? month dt) && (month dt <=? 12)
  && (1 <=? day dt) && (day dt <=? days_in_month (year dt) (month dt)).

(** The seconds that the per-day usage holds for a device on a date, 0
    without an entry. *)
Definition seconds_on (daily : daily_usage) (d : date) (device_name : string) : Q :=
  default 0%Q (daily !! (d, device_name)).

(** The [n] dates from [d] on. *)
Fixpoint dates_from (n : nat) (d : date) : list date :=
  match n with
  | O => []
  | S k => d :: dates_from k (d + 1)
  end.

Definition sum_Q (l : list Q) : Q := fold_right Qplus 0%Q l.

(** A log entry that the replay acts on: its device is in the power map and
    its status is ON or OFF. *)
Definition acted_on (power_map : gmap string Q) (log : log_entry) : bool :=
  match power_map !! device log with
  | Some _ => String.eqb (status log) "ON" || String.eqb (status log) "OFF"
  | None => false
  end.

(** An entry of the directory that the leaderboard makes a row of. *)
Definition readable_data_file (e : string * option string) : bool :=
  PyStr.endswith (fst e) "_data.txt"
  && match snd e with Some _ => true | None => false end.

(** A datetime without its microseconds: what the log line keeps of it. *)
Definition to_the_second (dt : datetime) : datetime :=
  mk_datetime (year dt) (month dt) (day dt) (hour dt) (minute dt) (second dt) 0.

(** The line that [remove_device] appends for a device that was on. *)
Definition removal_message (now : datetime) (device_name : string) : string :=
  "[" +:+ strftime now +:+ "] " +:+ device_name +:+ " turned OFF (Removed)
".

(** A device name that the log line can carry: on one line, no white space
    at its ends, and the words [" turned "] neither in it nor across its
    end. *)
Definition loggable_name (n : string) : bool :=
  PyStr.no_LF n
  && String.eqb (PyStr.strip n) n
  && negb (PyStr.contains " turned " (n +:+ " turned")).

(** A reading of the system clock: a day of the calendar in a year of four
    digits, and a time of day. *)
Definition clock_reading (dt : datetime) : bool :=
  (1000 <=? year dt) && valid_date dt && valid_time dt.

(** [App.update_all_usages] while the window is open, without the labels:
    every device is refreshed, each with a clock reading of its own. *)
Definition update_all_usages (clock : nat -> datetime) (devices : list Device)
  : list Device :=
  imap (fun i d => update_session_usage (clock i) d) devices.

(** [open(file, "a")] and [f.write(text)] on a file that can be written. *)
Definition file_append (text : string) (file : option string) : string :=
  match file with
  | Some old => old +:+ text
  | None => text
  end.

(** [App.remove_device] for the device at index [i] of [self.devices], on a
    data file that can be written ([file] holds its characters, [None]
    when it does not exist): a device that is on gets its removal
    logged, the device leaves the list, the others are refreshed and the
    state is saved, [save_state] reading the file with the line just
    appended.  The result is the new device list and the data file.
    (The removed object is also switched off and has its session folded;
    nothing refers to it afterwards.) *)
Definition remove_device {FT : FloatText} (now_log : datetime)
    (clock : nat -> datetime) (i : nat) (devices : list Device)
    (file : option string) : list Device * option string :=
  match devices !! i with
  | None => (devices, file)
  | Some device_to_remove =>
      let file' :=
        if is_on device_to_remove
        then Some (file_append (removal_message now_log (name device_to_remove)) file)
        else file in
      let devices' := update_all_usages clock (delete i devices) in
      (devices', Some (save_state devices' (read_text file')))
  end.

(** ** Worked inputs *)

(** A 100 W lamp switched on at 10:00 and consolidated at 11:00. *)
Definition lamp_on_at_10 : Device :=
  toggle (mk_datetime 2024 1 1 10 0 0 0) (new_device "Lamp" 100).

(** A 60 W fan that [add_device] accepts: the name is not empty, the power
    is positive. *)
Definition bedroom_fan : Device := new_device "Fan (bedroom)" 60.

(** A data file in which a second marker line sits inside the log block. *)
Definition file_with_two_markers : string :=
  "## DEVICES ##
Lamp (100.0W) | 0.0

## LOGS ##
[2024-01-01 10:00:00] Lamp turned ON
## LOGS ##
[2024-01-01 11:00:00] Lamp turned OFF
".


(** The data file of the midnight example: a 100 W lamp switched on at
    23:00 and off at 01:00 the next day. *)
Definition midnight_file : string :=
  "## DEVICES ##
Lamp (100.0W) | 0.0

## LOGS ##
[2024-01-01 23:00:00] Lamp turned ON
[2024-01-02 01:00:00] Lamp turned OFF
".

Definition midnight_devices : list Device := [new_device "Lamp" 100].

Definition midnight_daily : daily_usage :=
  daily_usage_seconds midnight_devices (Some midnight_file)
    (mk_datetime 2024 1 2 2 0 0 0).

(** The data file after the lamp was removed while it was on: the summary
    block lists the fan only, the log block still has the lamp's events. *)
Definition file_after_removal : string :=
  "## DEVICES ##
Fan (60.0W) | 0.0

## LOGS ##
[2024-01-01 23:00:00] Lamp turned ON
[2024-01-02 01:00:00] Lamp turned OFF (Removed)
".

Definition table_after_removal : option stats_table :=
  show_stats [new_device "Fan" 60] (Some file_after_removal)
    (mk_datetime 2024 1 2 2 0 0 0) (mk_datetime 2024 1 2 2 0 0 0).

(** A data file whose log block has an OFF event with no ON before it,
    followed by a full hour of use. *)
Definition file_with_stray_off : string :=
  "## DEVICES ##
Lamp (100.0W) | 0.0

## LOGS ##
[2024-01-01 09:00:00] Lamp turned OFF
[2024-01-01 10:00:00] Lamp turned ON
[2024-01-01 11:00:00] Lamp turned OFF
".

(** The user [x_data.txt], whose data file is [x_data.txt_data.txt]. *)
Definition odd_user : string := "x_data.txt".

Definition odd_user_file : string :=
  "## DEVICES ##
Lamp (100.0W) | 1.0

## LOGS ##
".

Definition odd_user_dir : directory := [(data_file odd_user, Some odd_user_file)].



(** Three users; B is the active one, with a lamp in memory. *)
Definition three_users_dir : directory :=
  [("A_data.txt", Some "## DEVICES ##
Heater (2000.0W) | 5.0

## LOGS ##
");
   ("B_data.txt", Some "## DEVICES ##
Lamp (100.0W) | 9.0

## LOGS ##
");
   ("C_data.txt", Some "## DEVICES ##
Fan (60.0W) | 1.5
Radio (10.0W) | 0.5

## LOGS ##
")].

Definition three_users_lamp : Device :=
  set_saved_usage_units 2 (new_device "Lamp" 100).

(** * Properties *)

Example strptime_ex :
  strptime "2024-01-01 23:00:00" = Some (mk_datetime 2024 1 1 23 0 0 0).
Proof. reflexivity. Qed.

Example strftime_ex :
  strftime (mk_datetime 2024 1 2 1 0 0 0) = "2024-01-02 01:00:00".
Proof. reflexivity. Qed.

Example strptime_bad : strptime "2024-02-30 23:00:00" = None.
Proof. reflexivity. Qed.
Example strip_ex : PyStr.strip "  ## LOGS ##
" = "## LOGS ##".
Proof. reflexivity. Qed.

Example split_ex1 : PyStr.split " | " "Lamp (60.0W) | 1.5" = ["Lamp (60.0W)"; "1.5"].
Proof. reflexivity. Qed.

Example split_ex2 : PyStr.split "ab" "ab" = [""; ""].
Proof. reflexivity. Qed.

Example split_ex3 : PyStr.split "aa" "aaa" = [""; "a"].
Proof. reflexivity. Qed.

Example remove_ex : PyStr.remove_all "_data.txt" "x_data.txt_data.txt" = "x".
Proof. reflexivity. Qed.

Example readlines_ex : PyStr.readlines "a
b
c" = ["a
"; "b
"; "c"].
Proof. reflexivity. Qed.

Example ord_2024_01_01 : ymd2ord 2024 1 1 = 738886.
Proof. reflexivity. Qed.

(** ** Session accounting *)

Section Accounting.
Local Open Scope Q_scope.

Lemma kwh_zero (p : Q) : kwh p 0 == 0.
Proof. unfold kwh. field. Qed.

Lemma kwh_plus (p a b : Q) : kwh p (a + b) == kwh p a + kwh p b.
Proof. unfold kwh. field. Qed.

(** The fold alone: moving the session's energy into [saved_usage_units] and
    zeroing the session keeps the total. *)
Lemma fold_keeps_total (d : Device) :
  is_on d = false ->
  forall now1 now2,
    get_total_units (consolidate_device now1 now2 d) == get_total_units d.
Proof.
  intros Hoff now1 now2.
  unfold consolidate_device. rewrite Hoff.
  unfold get_total_units, get_session_units. simpl. field.
Qed.

Lemma consolidate_is_refresh_then_fold (now1 now2 : datetime) (d : Device) :
  get_total_units (consolidate_device now1 now2 d)
  == get_total_units (update_session_usage now1 d).
Proof.
  unfold consolidate_device, update_session_usage.
  destruct (is_on d), (last_on_time d);
    unfold get_total_units, get_session_units; simpl; field.
Qed.

(** C2 (amended): consolidation leaves [total_units] equal to the value a
    refresh at the same clock reading gives, so the fold itself gains or
    loses nothing; when no time has elapsed on an open interval (the device
    is off, or the clock still shows [last_on_time]) that value is the
    total before the consolidation; the session counter and the session's
    units end at 0. *)
Theorem consolidate_total_units (now1 now2 : datetime) (d : Device) :
  get_total_units (consolidate_device now1 now2 d)
    == get_total_units (update_session_usage now1 d)
  /\ (elapsed_on now1 d == 0 ->
      get_total_units (consolidate_device now1 now2 d) == get_total_units d)
  /\ session_usage_seconds (consolidate_device now1 now2 d) == 0
  /\ get_session_units (consolidate_device now1 now2 d) == 0.
Proof.
  split; [apply consolidate_is_refresh_then_fold|split; [|split]].
  - unfold consolidate_device, elapsed_on.
    destruct (is_on d), (last_on_time d); intros He;
      unfold get_total_units, get_session_units; simpl;
      try rewrite He; field.
  - unfold consolidate_device. destruct (is_on d), (last_on_time d); reflexivity.
  - unfold consolidate_device, get_session_units.
    destruct (is_on d), (last_on_time d); simpl; field.
Qed.

(** C2 as stated fails: the lamp's [total_units] is 0 before the
    consolidation at 11:00 and 1/10 after it. *)
Lemma consolidate_changes_total_units :
  let now := mk_datetime 2024 1 1 11 0 0 0 in
  get_total_units lamp_on_at_10 == 0
  /\ get_total_units (consolidate_device now now lamp_on_at_10) == 1 # 10
  /\ ~ get_total_units (consolidate_device now now lamp_on_at_10)
       == get_total_units lamp_on_at_10.
Proof.
  vm_compute. split; [reflexivity|split; [reflexivity|discriminate]].
Qed.

(** A lamp that is off keeps its total. *)
Lemma consolidate_total_units_witness :
  let now := mk_datetime 2024 1 1 11 0 0 0 in
  let lamp := set_saved_usage_units (3 # 2) (new_device "Lamp" 100) in
  get_total_units (consolidate_device now now lamp) == get_total_units lamp.
Proof.
  apply (proj1 (proj2 (consolidate_total_units
                         (mk_datetime 2024 1 1 11 0 0 0)
                         (mk_datetime 2024 1 1 11 0 0 0)
                         (set_saved_usage_units (3 # 2) (new_device "Lamp" 100))))).
  reflexivity.
Defined.

End Accounting.

(** ** The ledger invariant *)

Lemma new_device_inv (n : string) (p : Q) : on_since_iff_on (new_device n p).
Proof.
  unfold on_since_iff_on. simpl. split; [intros [x Hx]|]; discriminate.
Qed.

Lemma set_saved_inv (u : Q) (d : Device) :
  on_since_iff_on d -> on_since_iff_on (set_saved_usage_units u d).
Proof. intros H. exact H. Qed.

Lemma toggle_inv (now : datetime) (d : Device) : on_since_iff_on (toggle now d).
Proof.
  unfold on_since_iff_on, toggle.
  destruct (is_on d); [destruct (last_on_time d)|]; simpl;
    (split; [intros [x Hx]; try discriminate; reflexivity
            | intros H; try discriminate; eexists; reflexivity]).
Qed.

Lemma refresh_inv (now : datetime) (d : Device) :
  on_since_iff_on d -> on_since_iff_on (update_session_usage now d).
Proof.
  unfold on_since_iff_on, update_session_usage. intros H.
  destruct (is_on d) eqn:Hon; [destruct (last_on_time d) eqn:Ht|]; simpl;
    rewrite ?Hon, ?Ht; try exact H.
  split; [reflexivity|intros _; eexists; reflexivity].
Qed.

Lemma consolidate_inv (now1 now2 : datetime) (d : Device) :
  on_since_iff_on d -> on_since_iff_on (consolidate_device now1 now2 d).
Proof.
  unfold on_since_iff_on, consolidate_device. intros H.
  destruct (is_on d) eqn:Hon; [destruct (last_on_time d) eqn:Ht|]; simpl;
    rewrite ?Hon, ?Ht; try exact H.
  split; [reflexivity|intros _; eexists; reflexivity].
Qed.

Lemma apply_op_inv (o : ledger_op) (d : Device) :
  on_since_iff_on d -> on_since_iff_on (apply_op d o).
Proof.
  destruct o; simpl; intros H.
  - apply toggle_inv.
  - apply refresh_inv, H.
  - apply consolidate_inv, H.
Qed.

Lemma run_ops_inv (ops : list ledger_op) :
  forall d, on_since_iff_on d -> on_since_iff_on (run_ops ops d).
Proof.
  unfold run_ops. induction ops as [|o ops IH]; intros d H; simpl.
  - exact H.
  - apply IH, apply_op_inv, H.
Qed.

(** C7: whether a device was created by the user or loaded from the summary
    block, after any sequence of toggles, refreshes and consolidations, at
    any clock readings, [last_on_time] is set if and only if [is_on] holds. *)
Theorem on_since_set_iff_on (n : string) (p saved : Q) (ops : list ledger_op) :
  on_since_iff_on (run_ops ops (new_device n p))
  /\ on_since_iff_on (run_ops ops (set_saved_usage_units saved (new_device n p))).
Proof.
  split; apply run_ops_inv.
  - apply new_device_inv.
  - apply set_saved_inv, new_device_inv.
Qed.

(** ** Facts about the string operations *)

Section StringFacts.
Import PyStr.

Lemma app_cons (c : ascii) (a b : string) : String c a +:+ b = String c (a +:+ b).
Proof. reflexivity. Qed.

Lemma app_nil_l (a : string) : EmptyString +:+ a = a.
Proof. reflexivity. Qed.

Lemma app_nil_r (a : string) : a +:+ EmptyString = a.
Proof. induction a as [|c a IH]; [reflexivity|]. rewrite app_cons, IH. reflexivity. Qed.

Lemma app_assoc_str (a b c : string) : (a +:+ b) +:+ c = a +:+ (b +:+ c).
Proof.
  induction a as [|x a IH]; [reflexivity|].
  rewrite !app_cons, IH. reflexivity.
Qed.

Lemma join_app (l1 l2 : list string) : join (l1 ++ l2) = join l1 +:+ join l2.
Proof.
  induction l1 as [|l l1 IH]; simpl; [reflexivity|].
  rewrite IH, app_assoc_str. reflexivity.
Qed.

Lemma prefix_cons (a b : ascii) (s t : string) :
  String.prefix (String a s) (String b t) = true <-> a = b /\ String.prefix s t = true.
Proof.
  simpl. destruct (ascii_dec a b) as [->|Hne]; split.
  - intros H. split; [reflexivity|exact H].
  - intros [_ H]. exact H.
  - discriminate.
  - intros [H _]. contradiction.
Qed.

Lemma prefix_nil (s : string) : String.prefix EmptyString s = true.
Proof. destruct s; reflexivity. Qed.

Lemma prefix_of_nil (s : string) : String.prefix s EmptyString = true -> s = EmptyString.
Proof. destruct s; [reflexivity|discriminate]. Qed.

Lemma prefix_trans (a : string) :
  forall b c, String.prefix a b = true -> String.prefix b c = true ->
              String.prefix a c = true.
Proof.
  induction a as [|x a IH]; intros b c Hab Hbc.
  - apply prefix_nil.
  - destruct b as [|y b]; [discriminate|].
    destruct c as [|z c]; [discriminate|].
    apply prefix_cons in Hab as [-> Hab]. apply prefix_cons in Hbc as [-> Hbc].
    apply prefix_cons. split; [reflexivity|]. eapply IH; eassumption.
Qed.

Lemma prefix_refl (a : string) : String.prefix a a = true.
Proof.
  induction a as [|x a IH]; [reflexivity|].
  apply prefix_cons. split; [reflexivity|exact IH].
Qed.

Lemma contains_nil (sub : string) :
  sub <> EmptyString -> contains sub EmptyString = false.
Proof. intros H. destruct sub; [contradiction|reflexivity]. Qed.

Lemma contains_cons (sub : string) (c : ascii) (s : string) :
  contains sub (String c s) = String.prefix sub (String c s) || contains sub s.
Proof. reflexivity. Qed.

(** *** [strip] only removes characters at the two ends *)

Lemma rstrip_prefix (s : string) : String.prefix (rstrip s) s = true.
Proof.
  induction s as [|c s IH]; [reflexivity|].
  simpl rstrip. destruct (rstrip s) as [|r0 r] eqn:Hr.
  - destruct (is_space c); [apply prefix_nil|].
    apply prefix_cons. split; [reflexivity|apply prefix_nil].
  - apply prefix_cons. split; [reflexivity|exact IH].
Qed.

Lemma contains_prefix_mono (sub : string) :
  forall p s, String.prefix p s = true -> contains sub p = true -> contains sub s = true.
Proof.
  intros p. induction p as [|c p IH]; intros s Hp Hc.
  - destruct sub as [|x sub]; [|discriminate Hc].
    destruct s; reflexivity.
  - destruct s as [|c' s]; [discriminate|].
    apply prefix_cons in Hp as [<- Hp].
    rewrite contains_cons in Hc |- *.
    apply orb_true_iff in Hc as [Hc|Hc]; apply orb_true_iff.
    + left. eapply prefix_trans; [exact Hc|].
      apply prefix_cons. split; [reflexivity|exact Hp].
    + right. eapply IH; eassumption.
Qed.

Lemma contains_lstrip (sub s : string) :
  contains sub (lstrip s) = true -> contains sub s = true.
Proof.
  induction s as [|c s IH]; [trivial|].
  simpl lstrip. destruct (is_space c); [|trivial].
  intros H. rewrite contains_cons. apply orb_true_iff. right. apply IH, H.
Qed.

Lemma contains_strip (sub s : string) :
  contains sub (strip s) = true -> contains sub s = true.
Proof.
  unfold strip. intros H. apply contains_lstrip.
  eapply contains_prefix_mono; [apply rstrip_prefix|exact H].
Qed.

(** *** The first piece of a split *)

Lemma split_head (sep : string) :
  sep <> EmptyString ->
  forall s, exists p ps,
    split sep s = p :: ps /\ String.prefix p s = true /\ contains sep p = false.
Proof.
  intros Hsep. unfold split. induction s as [|c s (p & ps & Hs & Hp & Hc)].
  - exists EmptyString, []. repeat split. apply contains_nil, Hsep.
  - change (split_from sep 0 (String c s)) with
      (if String.prefix sep (String c s)
       then EmptyString :: split_from sep (Nat.pred (String.length sep)) s
       else match split_from sep 0 s with
            | p :: ps => String c p :: ps
            | [] => [String c EmptyString]
            end).
    destruct (String.prefix sep (String c s)) eqn:Hpre.
    + eexists _, _. repeat split. apply contains_nil, Hsep.
    + rewrite Hs. exists (String c p), ps. repeat split.
      * apply prefix_cons. split; [reflexivity|exact Hp].
      * rewrite contains_cons, Hc, orb_false_r.
        destruct (String.prefix sep (String c p)) eqn:Hpre'; [|reflexivity].
        rewrite <- Hpre. symmetry. eapply prefix_trans; [exact Hpre'|].
        apply prefix_cons. split; [reflexivity|exact Hp].
Qed.

Lemma split_two_first (sep s a b : string) :
  sep <> EmptyString -> split sep s = [a; b] ->
  String.prefix a s = true /\ contains sep a = false.
Proof.
  intros Hsep Hs. destruct (split_head sep Hsep s) as (p & ps & Hs' & Hp & Hc).
  rewrite Hs in Hs'. injection Hs' as <- _. split; assumption.
Qed.

End StringFacts.

(** ** Splitting at a separator that occurs once *)

Section SplitFacts.
Import PyStr.

Lemma length_app_str (a b : string) :
  String.length (a +:+ b) = (String.length a + String.length b)%nat.
Proof.
  induction a as [|x a IH]; [reflexivity|].
  rewrite app_cons. simpl. rewrite IH. reflexivity.
Qed.

Lemma prefix_app_self (s b : string) : String.prefix s (s +:+ b) = true.
Proof.
  induction s as [|x s IH]; [apply prefix_nil|].
  rewrite app_cons. apply prefix_cons. split; [reflexivity|exact IH].
Qed.

Lemma index_of_app_absent (c : ascii) (u v : string) :
  has_char c u = false ->
  index_of c (u +:+ v) = (String.length u + index_of c v)%nat.
Proof.
  induction u as [|x u IH]; [reflexivity|].
  rewrite app_cons. simpl. intros [Hx Hu]%orb_false_iff.
  rewrite Hx, IH by exact Hu. reflexivity.
Qed.

Lemma index_of_app_present (c : ascii) (s v : string) :
  has_char c s = true -> index_of c (s +:+ v) = index_of c s.
Proof.
  induction s as [|x s IH]; [discriminate|].
  rewrite app_cons. simpl. destruct (Ascii.eqb c x); [reflexivity|].
  simpl. intros H. rewrite IH by exact H. reflexivity.
Qed.

Lemma index_of_prefix (c : ascii) (s : string) :
  forall t, String.prefix s t = true -> has_char c s = true ->
            index_of c t = index_of c s.
Proof.
  induction s as [|x s IH]; intros t Hp Hc; [discriminate|].
  destruct t as [|y t]; [discriminate|].
  apply prefix_cons in Hp as [<- Hp]. simpl in *.
  destruct (Ascii.eqb c x); [reflexivity|]. simpl in Hc.
  rewrite (IH t Hp Hc). reflexivity.
Qed.

Lemma prefix_has_char (c : ascii) (s t : string) :
  String.prefix s t = true -> has_char c s = true -> has_char c t = true.
Proof.
  revert t. induction s as [|x s IH]; intros t Hp Hc; [discriminate|].
  destruct t as [|y t]; [discriminate|].
  apply prefix_cons in Hp as [<- Hp]. simpl in *.
  destruct (Ascii.eqb c x); [reflexivity|]. simpl in *. eapply IH; eassumption.
Qed.

(** A separator cannot start inside a text that lacks one of its characters,
    even when a copy of the separator follows the text. *)
Lemma no_match_inside (c : ascii) (sep : string) (x : ascii) (u b : string) :
  has_char c sep = true ->
  has_char c (String x u) = false ->
  String.prefix sep (String x u +:+ (sep +:+ b)) = false.
Proof.
  intros Hsep Hu.
  destruct (String.prefix sep (String x u +:+ (sep +:+ b))) eqn:Hp; [|reflexivity].
  pose proof (index_of_prefix c sep _ Hp Hsep) as H1.
  rewrite index_of_app_absent in H1 by exact Hu.
  rewrite index_of_app_present in H1 by exact Hsep.
  simpl in H1. lia.
Qed.

Lemma split_from_skip (sep : string) (u : string) :
  forall b, split_from sep (String.length u) (u +:+ b) = split_from sep 0 b.
Proof.
  induction u as [|x u IH]; intros b; [reflexivity|].
  rewrite app_cons. simpl. apply IH.
Qed.

Lemma split_from_0_cons (sep : string) (x : ascii) (s : string) :
  split_from sep 0 (String x s)
  = if String.prefix sep (String x s)
    then EmptyString :: split_from sep (Nat.pred (String.length sep)) s
    else match split_from sep 0 s with
         | p :: ps => String x p :: ps
         | [] => [String x EmptyString]
         end.
Proof. reflexivity. Qed.

Lemma split_app_sep (c : ascii) (sep a b : string) :
  has_char c sep = true ->
  has_char c a = false ->
  split sep (a +:+ (sep +:+ b)) = a :: split sep b.
Proof.
  intros Hsep. unfold split. induction a as [|x a IH]; intros Ha.
  - rewrite app_nil_l. destruct sep as [|c0 sep']; [discriminate|].
    rewrite app_cons, split_from_0_cons.
    rewrite <- (app_cons c0 sep' b), prefix_app_self.
    simpl Nat.pred. rewrite split_from_skip. reflexivity.
  - rewrite app_cons, split_from_0_cons.
    rewrite <- (app_cons x a (sep +:+ b)).
    rewrite (no_match_inside c) by assumption.
    rewrite IH; [reflexivity|].
    simpl in Ha. apply orb_false_iff in Ha as [_ Ha]. exact Ha.
Qed.

Lemma split_no_sep (sep b : string) :
  contains sep b = false -> split sep b = [b].
Proof.
  unfold split. induction b as [|x b IH]; [reflexivity|].
  rewrite contains_cons. intros [Hp Hc]%orb_false_iff.
  rewrite split_from_0_cons, Hp, IH by exact Hc. reflexivity.
Qed.

Lemma contains_absent_char (c : ascii) (sep b : string) :
  has_char c sep = true -> has_char c b = false -> contains sep b = false.
Proof.
  intros Hsep. induction b as [|x b IH]; intros Hb.
  - destruct sep; [discriminate|reflexivity].
  - rewrite contains_cons. apply orb_false_iff. split.
    + destruct (String.prefix sep (String x b)) eqn:Hp; [|reflexivity].
      pose proof (prefix_has_char c _ _ Hp Hsep). congruence.
    + apply IH. simpl in Hb. apply orb_false_iff in Hb as [_ Hb]. exact Hb.
Qed.

(** The two pieces around the only occurrence of the separator. *)
Lemma split_once (c : ascii) (sep a b : string) :
  has_char c sep = true -> has_char c a = false -> has_char c b = false ->
  split sep (a +:+ (sep +:+ b)) = [a; b].
Proof.
  intros Hsep Ha Hb. rewrite (split_app_sep c) by assumption.
  rewrite split_no_sep; [reflexivity|].
  eapply contains_absent_char; eassumption.
Qed.

(** *** [strip] on a text with nothing to remove *)

Lemma rstrip_app_nonempty (a b : string) :
  rstrip b <> EmptyString -> rstrip (a +:+ b) = a +:+ rstrip b.
Proof.
  intros Hb. induction a as [|x a IH]; [reflexivity|].
  rewrite !app_cons. simpl. rewrite IH.
  destruct (a +:+ rstrip b) as [|y r] eqn:E; [|reflexivity].
  destruct a; [|discriminate E]. rewrite app_nil_l in E. contradiction.
Qed.

Lemma rstrip_all_nonspace (s : string) :
  all_chars (fun c => negb (is_space c)) s = true -> rstrip s = s.
Proof.
  induction s as [|x s IH]; [reflexivity|].
  simpl. intros [Hx Hs]%andb_true_iff. rewrite IH by exact Hs.
  apply negb_true_iff in Hx. rewrite Hx. destruct s; reflexivity.
Qed.

Lemma rstrip_cons (c : ascii) (s : string) :
  rstrip (String c s)
  = match rstrip s with
    | EmptyString => if is_space c then EmptyString else String c EmptyString
    | r => String c r
    end.
Proof. reflexivity. Qed.

Lemma rstrip_spaces (b : string) :
  all_chars is_space b = true -> rstrip b = EmptyString.
Proof.
  induction b as [|x b IH]; [reflexivity|].
  intros [Hx Hb]%andb_true_iff. rewrite rstrip_cons, IH, Hx by exact Hb.
  reflexivity.
Qed.

Lemma rstrip_app_spaces (a b : string) :
  all_chars is_space b = true -> rstrip (a +:+ b) = rstrip a.
Proof.
  intros Hb. induction a as [|x a IH].
  - rewrite app_nil_l. apply rstrip_spaces, Hb.
  - rewrite app_cons, !rstrip_cons, IH. reflexivity.
Qed.

Lemma all_chars_weaken (p q : ascii -> bool) (s : string) :
  (forall c, p c = true -> q c = true) ->
  all_chars p s = true -> all_chars q s = true.
Proof.
  intros Hpq. induction s as [|x s IH]; [reflexivity|].
  simpl. intros [Hx Hs]%andb_true_iff. rewrite (Hpq _ Hx), IH by exact Hs.
  reflexivity.
Qed.

Lemma all_chars_has_char (p : ascii -> bool) (c : ascii) (s : string) :
  p c = false -> all_chars p s = true -> has_char c s = false.
Proof.
  intros Hc. induction s as [|x s IH]; [reflexivity|].
  simpl. intros [Hx Hs]%andb_true_iff. rewrite IH by exact Hs.
  destruct (Ascii.eqb c x) eqn:E; [|reflexivity].
  apply Ascii.eqb_eq in E. subst. congruence.
Qed.

End SplitFacts.

(** ** Lines of a file *)

Section LineFacts.
Import PyStr.

Lemma has_char_app (c : ascii) (a b : string) :
  has_char c (a +:+ b) = has_char c a || has_char c b.
Proof.
  induction a as [|x a IH]; [reflexivity|].
  rewrite app_cons. simpl. rewrite IH, orb_assoc. reflexivity.
Qed.

Lemma no_LF_app (a b : string) : no_LF (a +:+ b) = no_LF a && no_LF b.
Proof. unfold no_LF. rewrite has_char_app, negb_orb. reflexivity. Qed.

Lemma no_LF_cons (c : ascii) (s : string) :
  no_LF (String c s) = negb (Ascii.eqb LF c) && no_LF s.
Proof. unfold no_LF. simpl. rewrite negb_orb. reflexivity. Qed.

Lemma complete_line_intro (a : string) :
  no_LF a = true -> is_complete_line (a +:+ String LF EmptyString) = true.
Proof.
  induction a as [|c a IH]; [reflexivity|].
  rewrite no_LF_cons, app_cons. intros [Hc Ha]%andb_true_iff. simpl.
  rewrite Ascii.eqb_sym. apply negb_true_iff in Hc. rewrite Hc. apply IH, Ha.
Qed.

Lemma readlines_complete_app (l s : string) :
  is_complete_line l = true -> readlines (l +:+ s) = l :: readlines s.
Proof.
  induction l as [|c l IH]; [discriminate|].
  rewrite app_cons. simpl. destruct (Ascii.eqb c LF) eqn:Hc.
  - intros ->%String.eqb_eq. reflexivity.
  - intros Hl. rewrite (IH Hl). reflexivity.
Qed.

Lemma readlines_partial (l : string) :
  l <> EmptyString -> no_LF l = true -> readlines l = [l].
Proof.
  induction l as [|c l IH]; [congruence|].
  intros _. rewrite no_LF_cons. intros [Hc Hl]%andb_true_iff.
  apply negb_true_iff in Hc. rewrite Ascii.eqb_sym in Hc.
  simpl. rewrite Hc. destruct l as [|c' l]; [reflexivity|].
  rewrite IH; [reflexivity|discriminate|exact Hl].
Qed.

Lemma readlines_ok (s : string) : lines_ok (readlines s).
Proof.
  induction s as [|c s IH]; simpl; [constructor|].
  destruct (Ascii.eqb c LF) eqn:Hc.
  - apply lines_ok_cons; [|exact IH]. simpl. rewrite Hc. reflexivity.
  - destruct (readlines s) as [|l ls].
    + apply lines_ok_last; [discriminate|].
      rewrite no_LF_cons, Ascii.eqb_sym, Hc. reflexivity.
    + inversion IH as [|l' Hne Hl|l' ls' Hl Hls]; subst.
      * apply lines_ok_last; [discriminate|].
        rewrite no_LF_cons, Ascii.eqb_sym, Hc. exact Hl.
      * apply lines_ok_cons; [|exact Hls]. simpl. rewrite Hc. exact Hl.
Qed.

Lemma readlines_join (ls : list string) :
  lines_ok ls -> readlines (join ls) = ls.
Proof.
  induction 1 as [|l Hne Hl|l ls Hl Hls IH]; simpl.
  - reflexivity.
  - rewrite app_nil_r. apply readlines_partial; assumption.
  - rewrite readlines_complete_app, IH; [reflexivity|exact Hl].
Qed.

Lemma lines_ok_tail (l : string) (ls : list string) :
  lines_ok (l :: ls) -> lines_ok ls.
Proof. inversion 1; subst; [constructor|assumption]. Qed.

Lemma lines_ok_filter (p : string -> bool) (ls : list string) :
  lines_ok ls -> lines_ok (List.filter p ls).
Proof.
  induction 1 as [|l Hne Hl|l ls Hl Hls IH]; simpl.
  - constructor.
  - destruct (p l); constructor; assumption.
  - destruct (p l); [apply lines_ok_cons|]; assumption.
Qed.

Lemma lines_ok_log_block (ls : list string) :
  lines_ok ls -> lines_ok (log_block ls).
Proof.
  induction ls as [|l ls IH]; intros H; simpl; [constructor|].
  pose proof (lines_ok_tail _ _ H) as Ht.
  destruct (String.eqb (strip l) LOGS_MARK); [exact Ht|apply IH, Ht].
Qed.

(** *** [strip] keeps every character that is not white space *)

Lemma eqb_space_false (c x : ascii) :
  is_space c = false -> is_space x = true -> Ascii.eqb c x = false.
Proof.
  intros Hc Hx. destruct (Ascii.eqb c x) eqn:E; [|reflexivity].
  apply Ascii.eqb_eq in E. subst. congruence.
Qed.

Lemma has_char_lstrip (c : ascii) (s : string) :
  is_space c = false -> has_char c (lstrip s) = has_char c s.
Proof.
  intros Hc. induction s as [|x s IH]; [reflexivity|].
  simpl. destruct (is_space x) eqn:Hx; [|reflexivity].
  rewrite IH, (eqb_space_false _ _ Hc Hx). reflexivity.
Qed.

Lemma has_char_rstrip (c : ascii) (s : string) :
  is_space c = false -> has_char c (rstrip s) = has_char c s.
Proof.
  intros Hc. induction s as [|x s IH]; [reflexivity|].
  simpl. destruct (rstrip s) as [|r0 r] eqn:Hr.
  - simpl in IH. rewrite <- IH. destruct (is_space x) eqn:Hx; simpl.
    + rewrite (eqb_space_false _ _ Hc Hx). reflexivity.
    + reflexivity.
  - change (has_char c (String x (String r0 r)))
      with (Ascii.eqb c x || has_char c (String r0 r)).
    rewrite IH. reflexivity.
Qed.

Lemma has_char_strip (c : ascii) (s : string) :
  is_space c = false -> has_char c (strip s) = has_char c s.
Proof.
  intros Hc. unfold strip. rewrite has_char_rstrip, has_char_lstrip by exact Hc.
  reflexivity.
Qed.

(** *** The log block that [save_state] re-reads *)

Lemma collect_logs_true (lines : list string) :
  collect_logs true lines = List.filter not_marker lines.
Proof.
  induction lines as [|l ls IH]; simpl; [reflexivity|].
  unfold not_marker, is_marker_line at 1.
  destruct (String.eqb (strip l) LOGS_MARK); simpl; rewrite IH; reflexivity.
Qed.

Lemma collect_logs_false (lines : list string) :
  collect_logs false lines = List.filter not_marker (log_block lines).
Proof.
  induction lines as [|l ls IH]; simpl; [reflexivity|].
  destruct (String.eqb (strip l) LOGS_MARK); [apply collect_logs_true|exact IH].
Qed.

Lemma log_block_skip (pre : list string) (m : string) (rest : list string) :
  forallb not_marker pre = true -> is_marker_line m = true ->
  log_block (pre ++ m :: rest) = rest.
Proof.
  intros Hpre Hm. induction pre as [|l pre IH]; simpl.
  - unfold is_marker_line in Hm. rewrite Hm. reflexivity.
  - simpl in Hpre. apply andb_true_iff in Hpre as [Hl Hpre].
    unfold not_marker, is_marker_line in Hl. apply negb_true_iff in Hl.
    rewrite Hl. apply IH, Hpre.
Qed.

Lemma filter_not_marker_idem (ls : list string) :
  List.filter not_marker (List.filter not_marker ls) = List.filter not_marker ls.
Proof.
  induction ls as [|l ls IH]; simpl; [reflexivity|].
  destruct (not_marker l) eqn:E; simpl; rewrite ?E, IH; reflexivity.
Qed.

Lemma filter_not_marker_id (ls : list string) :
  forallb not_marker ls = true -> List.filter not_marker ls = ls.
Proof.
  induction ls as [|l ls IH]; simpl; [reflexivity|].
  intros [Hl Hls]%andb_true_iff. rewrite Hl, IH; [reflexivity|exact Hls].
Qed.


End LineFacts.

(** ** The log block across saves *)

Section StoreFacts.
Import PyStr.
Context {FT : FloatText}.

(** The text written for a float has no line feed. *)
Hypothesis float_repr_one_line : forall q, no_LF (float_repr q) = true.

Lemma complete_line_app (a b : string) :
  no_LF a = true -> is_complete_line (a +:+ b) = is_complete_line b.
Proof.
  induction a as [|c a IH]; [reflexivity|].
  rewrite no_LF_cons, app_cons. intros [Hc Ha]%andb_true_iff. simpl.
  apply negb_true_iff in Hc. rewrite Ascii.eqb_sym in Hc. rewrite Hc.
  apply IH, Ha.
Qed.

Lemma device_line_complete (d : Device) :
  no_LF (name d) = true -> is_complete_line (device_line d) = true.
Proof.
  intros Hn. unfold device_line.
  rewrite complete_line_app by exact Hn.
  rewrite complete_line_app by reflexivity.
  rewrite complete_line_app by apply float_repr_one_line.
  rewrite complete_line_app by reflexivity.
  rewrite complete_line_app by apply float_repr_one_line.
  reflexivity.
Qed.

Lemma device_line_not_marker (d : Device) : not_marker (device_line d) = true.
Proof.
  unfold not_marker, is_marker_line. apply negb_true_iff.
  apply String.eqb_neq. intros Heq.
  assert (has_char "|" (strip (device_line d)) = true) as Hbar.
  { rewrite has_char_strip by reflexivity. unfold device_line.
    rewrite !has_char_app. simpl. rewrite !orb_true_r. reflexivity. }
  rewrite Heq in Hbar. discriminate Hbar.
Qed.

Lemma readlines_join_app (ls : list string) (s : string) :
  forallb is_complete_line ls = true ->
  readlines (join ls +:+ s) = ls ++ readlines s.
Proof.
  induction ls as [|l ls IH]; simpl; [reflexivity|].
  intros [Hl Hls]%andb_true_iff.
  rewrite app_assoc_str, readlines_complete_app, IH by assumption.
  reflexivity.
Qed.

Lemma device_lines_complete (devices : list Device) :
  single_line_names devices = true ->
  forallb is_complete_line (map device_line devices) = true.
Proof.
  unfold single_line_names. induction devices as [|d ds IH]; simpl; [reflexivity|].
  intros [Hd Hds]%andb_true_iff.
  rewrite device_line_complete, IH by assumption. reflexivity.
Qed.

Lemma device_lines_not_marker (devices : list Device) :
  forallb not_marker (map device_line devices) = true.
Proof.
  induction devices as [|d ds IH]; simpl; [reflexivity|].
  rewrite device_line_not_marker, IH. reflexivity.
Qed.

Lemma readlines_summary (devices : list Device) (rest : string) :
  single_line_names devices = true ->
  readlines (summary_block devices +:+ rest)
  = ("## DEVICES ##
" :: map device_line devices ++ ["
"]) ++ "## LOGS ##
" :: readlines rest.
Proof.
  intros Hn. unfold summary_block.
  rewrite !app_assoc_str.
  rewrite readlines_complete_app by reflexivity.
  rewrite readlines_join_app by (apply device_lines_complete, Hn).
  change ("
## LOGS ##
" +:+ rest) with ("
" +:+ ("## LOGS ##
" +:+ rest)).
  rewrite (readlines_complete_app "
") by reflexivity.
  rewrite (readlines_complete_app "## LOGS ##
") by reflexivity.
  simpl. rewrite <- app_assoc. reflexivity.
Qed.

Lemma log_lines_of_written (devices : list Device) (logs : list string) :
  single_line_names devices = true -> lines_ok logs ->
  log_lines_of (summary_block devices +:+ join logs) = logs.
Proof.
  intros Hn Hok. unfold log_lines_of.
  rewrite readlines_summary by exact Hn.
  rewrite log_block_skip; [apply readlines_join, Hok| |reflexivity].
  simpl. rewrite forallb_app, device_lines_not_marker. reflexivity.
Qed.

(** One save: the file's new log block is the old one without its marker
    lines. *)
Lemma log_lines_of_save (devices : list Device) (content : string) :
  single_line_names devices = true ->
  log_lines_of (save_state devices (Some content))
  = List.filter not_marker (log_lines_of content).
Proof.
  intros Hn. unfold save_state. rewrite collect_logs_false.
  apply log_lines_of_written; [exact Hn|].
  apply lines_ok_filter, lines_ok_log_block, readlines_ok.
Qed.


End StoreFacts.

(** *** The plain decimal text satisfies the assumption *)

Lemma digit_char_not_LF (k : Z) : Ascii.eqb PyStr.LF (digit_char k) = false.
Proof.
  unfold digit_char.
  assert (Z.to_nat (k mod 10) < 10)%nat as Hlt.
  { pose proof (Z.mod_pos_bound k 10 ltac:(lia)). lia. }
  destruct (Z.to_nat (k mod 10)) as [|n]; [reflexivity|].
  do 9 (destruct n as [|n]; [reflexivity|]). lia.
Qed.

Lemma nat_digits_no_LF (fuel : nat) :
  forall n acc, PyStr.no_LF acc = true -> PyStr.no_LF (nat_digits fuel n acc) = true.
Proof.
  induction fuel as [|f IH]; intros n acc Hacc; simpl; [exact Hacc|].
  assert (PyStr.no_LF (String (digit_char n) acc) = true) as H.
  { rewrite no_LF_cons, digit_char_not_LF, Hacc. reflexivity. }
  destruct (n <? 10); [exact H|apply IH, H].
Qed.

Lemma frac_digits_no_LF (fuel : nat) :
  forall r den, PyStr.no_LF (frac_digits fuel r den) = true.
Proof.
  induction fuel as [|f IH]; intros r den; simpl; [reflexivity|].
  destruct (r =? 0); [reflexivity|].
  rewrite no_LF_cons, digit_char_not_LF, IH. reflexivity.
Qed.

Lemma decimal_repr_no_LF (q : Q) : PyStr.no_LF (decimal_repr q) = true.
Proof.
  unfold decimal_repr. rewrite !no_LF_app.
  assert (PyStr.no_LF (if Qnum q <? 0 then "-" else EmptyString) = true) as ->
    by (destruct (Qnum q <? 0); reflexivity).
  unfold int_text. rewrite nat_digits_no_LF by reflexivity.
  pose proof (frac_digits_no_LF 17 (Z.abs (Qnum q) mod Z.pos (Qden q)) (Z.pos (Qden q))) as H.
  destruct (frac_digits 17 _ _); [reflexivity|].
  rewrite H. reflexivity.
Qed.

(** C4 as stated fails: the file has a marker, and one save removes the
    second marker line from its log block. *)
Lemma second_marker_line_is_dropped :
  has_logs_marker file_with_two_markers = true
  /\ log_lines_of file_with_two_markers
     = ["[2024-01-01 10:00:00] Lamp turned ON
"; "## LOGS ##
"; "[2024-01-01 11:00:00] Lamp turned OFF
"]
  /\ log_lines_of (saves (FT := plain_decimal) [[new_device "Lamp" 100]]
                     file_with_two_markers)
     = ["[2024-01-01 10:00:00] Lamp turned ON
"; "[2024-01-01 11:00:00] Lamp turned OFF
"]
  /\ log_lines_of (saves (FT := plain_decimal) [[new_device "Lamp" 100]]
                     file_with_two_markers)
     <> log_lines_of file_with_two_markers.
Proof. vm_compute. repeat split; discriminate. Qed.


(** ** Reading the summary block back *)

Section SummaryRoundTrip.
Context {FT : FloatText}.

Lemma parse_device_line_name (stripped : string) (d : Device) :
  parse_device_line stripped = Some d ->
  PyStr.contains " (" (name d) = false.
Proof.
  unfold parse_device_line.
  destruct (PyStr.split " | " stripped) as [|info_part [|usage_part [|? ?]]];
    try discriminate.
  destruct (PyStr.split " (" info_part) as [|name_part [|power_part [|? ?]]] eqn:Hsplit;
    try discriminate.
  destruct (float_parse _); [|discriminate].
  destruct (float_parse usage_part); [|discriminate].
  intros [= <-]. simpl.
  apply split_two_first in Hsplit as [_ Hc]; [|discriminate].
  destruct (PyStr.contains " (" (PyStr.strip name_part)) eqn:Hs; [|reflexivity].
  apply contains_strip in Hs. congruence.
Qed.

(** No device that [load_state] creates has a name containing [" ("]: such
    a line never splits into exactly a name part and a power part. *)
Lemma load_lines_names (lines : list string) :
  forall in_devices_section,
    Forall (fun d => PyStr.contains " (" (name d) = false)
           (load_lines in_devices_section lines).
Proof.
  induction lines as [|line rest IH]; intros b; simpl; [constructor|].
  destruct (String.eqb (PyStr.strip line) EmptyString); [apply IH|].
  destruct (String.eqb (PyStr.strip line) DEVICES_MARK); [apply IH|].
  destruct (String.eqb (PyStr.strip line) LOGS_MARK); [constructor|].
  destruct b; [|apply IH].
  destruct (parse_device_line (PyStr.strip line)) as [d|] eqn:Hp; [|apply IH].
  constructor; [|apply IH]. eapply parse_device_line_name, Hp.
Qed.

Lemma load_state_names (file : option string) :
  Forall (fun d => PyStr.contains " (" (name d) = false) (load_state file).
Proof.
  destruct file as [content|]; simpl; [apply load_lines_names|constructor].
Qed.

End SummaryRoundTrip.

(** C3 at the failing input: whatever [float()] and the float formatting do
    and whatever the file held before, the data file written by
    [save_state] for the device named [Fan (bedroom)] does not give that
    device back: no device that [load_state] reads from it has its name. *)
Theorem bedroom_fan_not_reloaded (FT : FloatText) (old : option string) :
  ~ In (name bedroom_fan)
       (map name (load_state (Some (save_state [bedroom_fan] old)))).
Proof.
  intros Hin. apply in_map_iff in Hin as (d & Hname & Hd).
  pose proof (load_state_names (Some (save_state [bedroom_fan] old))) as Hall.
  rewrite Forall_forall in Hall. apply list_elem_of_In in Hd.
  specialize (Hall d Hd). rewrite Hname in Hall. discriminate Hall.
Qed.

Example decimal_repr_ex :
  map decimal_repr [100%Q; 0%Q; (3 # 2)%Q; (1 # 10)%Q; (-5 # 4)%Q; (1 # 3)%Q]
  = ["100.0"; "0.0"; "1.5"; "0.1"; "-1.25"; "0.33333333333333333"].
Proof. reflexivity. Qed.

Example decimal_parse_ex :
  map decimal_parse ["100.0"; "0.0"; " 1.5 "; "-1.25"; "abc"; "7"; ""]
  = [Some 100%Q; Some 0%Q; Some (3 # 2)%Q; Some (-5 # 4)%Q; None; Some 7%Q; None].
Proof. reflexivity. Qed.

(** ** The summary block read back, for devices it can hold *)

Section RoundTrip.
Import PyStr.
Context {FT : FloatText}.

(** The text written for a float is a number text. *)
Hypothesis float_text : forall q, number_text (float_repr q) = true.

Lemma float_repr_chars (q : Q) (c : ascii) :
  num_char c = false -> has_char c (float_repr q) = false.
Proof.
  intros Hc. pose proof (float_text q) as H. unfold number_text in H.
  apply andb_true_iff in H as [_ H]. eapply all_chars_has_char; eassumption.
Qed.

Lemma float_repr_no_LF (q : Q) : no_LF (float_repr q) = true.
Proof. unfold no_LF. rewrite float_repr_chars; reflexivity. Qed.

Lemma float_repr_rstrip (q : Q) :
  rstrip (float_repr q) = float_repr q /\ float_repr q <> EmptyString.
Proof.
  pose proof (float_text q) as H. unfold number_text in H.
  apply andb_true_iff in H as [Hne H]. split.
  - apply rstrip_all_nonspace. eapply all_chars_weaken; [|exact H].
    intros c Hc. destruct (is_space c) eqn:E; [|reflexivity].
    destruct c as [[] [] [] [] [] [] [] []]; discriminate.
  - apply negb_true_iff, String.eqb_neq in Hne. exact Hne.
Qed.

Lemma good_name_parts (n : string) :
  good_name n = true ->
  lstrip n = n /\ rstrip n = n /\ has_char "|" n = false
  /\ has_char "(" n = false /\ no_LF n = true /\ no_CR n = true.
Proof.
  unfold good_name. intros H.
  apply andb_true_iff in H as [H Hcr].
  apply andb_true_iff in H as [H Hlf].
  apply andb_true_iff in H as [H Hpar].
  apply andb_true_iff in H as [H Hbar].
  apply andb_true_iff in H as [Hfirst Hr].
  apply String.eqb_eq in Hr. apply negb_true_iff in Hbar, Hpar.
  repeat split; try assumption.
  destruct n as [|x n]; [discriminate|]. simpl.
  apply negb_true_iff in Hfirst. rewrite Hfirst. reflexivity.
Qed.

Lemma lstrip_length (s : string) :
  (String.length (lstrip s) <= String.length s)%nat.
Proof.
  induction s as [|y s IH]; simpl; [lia|]. destruct (is_space y); simpl; lia.
Qed.

Lemma lstrip_app_first (n rest : string) :
  n <> EmptyString -> lstrip n = n -> lstrip (n +:+ rest) = n +:+ rest.
Proof.
  destruct n as [|x n]; [congruence|]. intros _ Hl.
  rewrite app_cons. simpl in Hl |- *.
  destruct (is_space x); [|reflexivity].
  pose proof (lstrip_length n) as H. rewrite Hl in H. simpl in H. lia.
Qed.

Lemma strip_device_line (d : Device) :
  good_name (name d) = true -> strip (device_line d) = device_text d.
Proof.
  intros Hn. destruct (good_name_parts _ Hn) as (Hl & _ & _ & _ & _).
  assert (name d <> EmptyString) as Hne0.
  { unfold good_name in Hn. destruct (name d); [discriminate|discriminate]. }
  unfold strip, device_line, device_text.
  rewrite lstrip_app_first by assumption.
  destruct (float_repr_rstrip (saved_usage_units d)) as [Hr Hne].
  rewrite <- !app_assoc_str.
  rewrite (app_assoc_str _ (float_repr (saved_usage_units d))).
  rewrite rstrip_app_nonempty; rewrite rstrip_app_spaces by reflexivity.
  - rewrite Hr, !app_assoc_str. reflexivity.
  - rewrite Hr. exact Hne.
Qed.

Lemma parse_device_text (d : Device) :
  storable d ->
  parse_device_line (device_text d)
  = Some (set_saved_usage_units (saved_usage_units d)
            (new_device (name d) (power d))).
Proof.
  intros (Hn & Hp & Hu).
  destruct (good_name_parts _ Hn) as (Hl & Hr & Hbar & Hpar & _).
  unfold parse_device_line, device_text.
  change ("W) | " +:+ float_repr (saved_usage_units d))
    with ("W)" +:+ (" | " +:+ float_repr (saved_usage_units d))).
  rewrite <- (app_assoc_str (float_repr (power d)) "W)").
  rewrite <- (app_assoc_str " (").
  rewrite <- (app_assoc_str (name d)).
  rewrite (split_once "|").
  - rewrite (split_once "(").
    + change (float_repr (power d) +:+ "W)")
        with (float_repr (power d) +:+ ("W)" +:+ EmptyString)).
      rewrite (split_app_sep "W"); [|reflexivity|apply float_repr_chars; reflexivity].
      simpl hd. unfold text_round_trips in Hp, Hu. rewrite Hp, Hu.
      unfold strip. rewrite Hl, Hr. reflexivity.
    + reflexivity.
    + exact Hpar.
    + rewrite has_char_app, float_repr_chars by reflexivity. reflexivity.
  - reflexivity.
  - rewrite !has_char_app, Hbar, float_repr_chars by reflexivity. reflexivity.
  - apply float_repr_chars. reflexivity.
Qed.

Lemma device_text_has_bar (d : Device) : has_char "|" (device_text d) = true.
Proof.
  unfold device_text. rewrite !has_char_app. simpl. rewrite !orb_true_r.
  reflexivity.
Qed.

Lemma eqb_has_char (c : ascii) (s t : string) :
  has_char c s = true -> has_char c t = false -> String.eqb s t = false.
Proof.
  intros Hs Ht. apply String.eqb_neq. intros ->. congruence.
Qed.

Lemma load_device_lines (devices : list Device) (rest : list string) :
  Forall storable devices ->
  load_lines true (map device_line devices ++ String LF EmptyString
                     :: "## LOGS ##
" :: rest)
  = map (fun d => set_saved_usage_units (saved_usage_units d)
                    (new_device (name d) (power d))) devices.
Proof.
  induction 1 as [|d ds Hd Hds IH]; [reflexivity|].
  cbn [map app load_lines].
  rewrite strip_device_line by apply Hd.
  rewrite !(eqb_has_char "|") by (apply device_text_has_bar || reflexivity).
  rewrite parse_device_text by exact Hd. rewrite IH. reflexivity.
Qed.

Lemma storable_single_line (devices : list Device) :
  Forall storable devices -> single_line_names devices = true.
Proof.
  unfold single_line_names. induction 1 as [|d ds Hd Hds IH]; [reflexivity|].
  simpl. rewrite IH, andb_true_r.
  destruct Hd as [Hn _]. apply good_name_parts in Hn. apply Hn.
Qed.

(** For devices whose names carry no separator character and whose numbers
    are read back from their text, the file that [save_state] writes gives
    [load_state] the same [(name, power, saved_units)] for every device, in
    the same order. *)
Theorem summary_round_trip (devices : list Device) (old : option string) :
  Forall storable devices ->
  map summary_of (load_state (Some (save_state devices old)))
  = map summary_of devices.
Proof.
  intros Hs. unfold load_state, save_state.
  rewrite (readlines_summary float_repr_no_LF) by apply storable_single_line, Hs.
  cbn [app load_lines]. change (strip "## DEVICES ##
") with DEVICES_MARK.
  cbn [String.eqb]. simpl (String.eqb DEVICES_MARK _).
  rewrite <- app_assoc. cbn [app].
  rewrite load_device_lines by exact Hs.
  rewrite map_map. reflexivity.
Qed.

End RoundTrip.

(** *** The plain decimal text is a number text *)

Lemma all_chars_app (p : ascii -> bool) (a b : string) :
  PyStr.all_chars p (a +:+ b) = PyStr.all_chars p a && PyStr.all_chars p b.
Proof.
  induction a as [|x a IH]; [reflexivity|].
  rewrite app_cons. simpl. rewrite IH, andb_assoc. reflexivity.
Qed.

Lemma digit_char_num (k : Z) : num_char (digit_char k) = true.
Proof.
  unfold digit_char.
  assert (Z.to_nat (k mod 10) < 10)%nat as Hlt.
  { pose proof (Z.mod_pos_bound k 10 ltac:(lia)). lia. }
  destruct (Z.to_nat (k mod 10)) as [|n]; [reflexivity|].
  do 9 (destruct n as [|n]; [reflexivity|]). lia.
Qed.

Lemma all_chars_cons (p : ascii -> bool) (x : ascii) (s : string) :
  PyStr.all_chars p (String x s) = p x && PyStr.all_chars p s.
Proof. reflexivity. Qed.

Lemma nat_digits_num (fuel : nat) :
  forall n acc, PyStr.all_chars num_char acc = true ->
                PyStr.all_chars num_char (nat_digits fuel n acc) = true.
Proof.
  induction fuel as [|f IH]; intros n acc Hacc; cbn [nat_digits]; [exact Hacc|].
  assert (PyStr.all_chars num_char (String (digit_char n) acc) = true) as H.
  { rewrite all_chars_cons, digit_char_num, Hacc. reflexivity. }
  destruct (n <? 10); [exact H|apply IH, H].
Qed.

Lemma frac_digits_num (fuel : nat) :
  forall r den, PyStr.all_chars num_char (frac_digits fuel r den) = true.
Proof.
  induction fuel as [|f IH]; intros r den; cbn [frac_digits]; [reflexivity|].
  destruct (r =? 0); [reflexivity|].
  rewrite all_chars_cons, digit_char_num, IH. reflexivity.
Qed.

Lemma decimal_repr_number_text (q : Q) : number_text (decimal_repr q) = true.
Proof.
  unfold number_text. apply andb_true_iff. split.
  - apply negb_true_iff, String.eqb_neq. intros H.
    assert (PyStr.has_char "." (decimal_repr q) = true) as Hdot.
    { unfold decimal_repr. rewrite !has_char_app.
      change (PyStr.has_char "." ".") with true.
      rewrite !orb_true_r. reflexivity. }
    rewrite H in Hdot. discriminate Hdot.
  - unfold decimal_repr. rewrite !all_chars_app.
    assert (PyStr.all_chars num_char (if Qnum q <? 0 then "-" else EmptyString) = true)
      as -> by (destruct (Qnum q <? 0); reflexivity).
    unfold int_text. rewrite nat_digits_num by reflexivity.
    pose proof (frac_digits_num 17 (Z.abs (Qnum q) mod Z.pos (Qden q)) (Z.pos (Qden q))) as H.
    destruct (frac_digits 17 _ _); [reflexivity|].
    rewrite H. change (PyStr.all_chars num_char ".") with true. reflexivity.
Qed.

(** Two devices with plain names and decimal numbers come back as saved. *)
Example summary_round_trip_example :
  let devices :=
    [set_saved_usage_units (3 # 2) (new_device "Desk lamp" 60);
     new_device "Fan" (25 # 2)] in
  map summary_of (load_state (FT := plain_decimal)
                    (Some (save_state (FT := plain_decimal) devices None)))
  = map summary_of devices.
Proof.
  apply (summary_round_trip (FT := plain_decimal) decimal_repr_number_text).
  repeat constructor.
Qed.

(** ** The daily aggregator *)

Example midnight_logs :
  processed_logs false (PyStr.readlines midnight_file)
  = [mk_log (mk_datetime 2024 1 1 23 0 0 0) "Lamp" "ON";
     mk_log (mk_datetime 2024 1 2 1 0 0 0) "Lamp" "OFF"].
Proof. vm_compute. reflexivity. Qed.

(** C1 (amended): for the 100 W lamp switched on at 2024-01-01 23:00:00 and
    off at 2024-01-02 01:00:00 the aggregator attributes 3599.999999
    seconds, that is 3599999999/36000000000 units, to 2024-01-01, and
    3600 seconds, that is exactly 1/10 of a unit, to 2024-01-02: the first
    day is clipped at 23:59:59.999999. *)
Theorem midnight_session_split :
  midnight_daily !! (ymd2ord 2024 1 1, "Lamp") = Some (3599999999 # 1000000)%Q
  /\ midnight_daily !! (ymd2ord 2024 1 2, "Lamp") = Some (3600000000 # 1000000)%Q
  /\ (attributed_units midnight_devices midnight_daily (ymd2ord 2024 1 1) "Lamp"
      == 3599999999 # 36000000000)%Q
  /\ (attributed_units midnight_devices midnight_daily (ymd2ord 2024 1 2) "Lamp"
      == 1 # 10)%Q.
Proof. vm_compute. repeat split. Qed.

(** C1 as stated fails: the units attributed to 2024-01-01 are not 0.1. *)
Lemma midnight_first_day_not_a_tenth :
  ~ (attributed_units midnight_devices midnight_daily (ymd2ord 2024 1 1) "Lamp"
     == 1 # 10)%Q.
Proof. vm_compute. discriminate. Qed.

(** *** Unmatched OFF entries *)

Lemma replay_step_unmatched_off (power_map : gmap string Q)
    (open_sessions : gmap string datetime) (daily : daily_usage) (e : log_entry) :
  status e = "OFF" ->
  open_sessions !! device e = None ->
  replay_step power_map (open_sessions, daily) e = (open_sessions, daily).
Proof.
  intros Hs Ho. unfold replay_step. rewrite Hs, Ho.
  destruct (power_map !! device e); reflexivity.
Qed.

(** C8: in the replay of the sorted log, an OFF entry met while its device
    has no open session leaves the open sessions and the usage of every day
    as they are: the replay goes on as if the entry were absent, and being a
    total function it always returns. *)
Theorem unmatched_off_contributes_nothing (power_map : gmap string Q)
    (before : list log_entry) (e : log_entry) (after : list log_entry)
    (st : gmap string datetime * daily_usage) :
  status e = "OFF" ->
  fst (fold_left (replay_step power_map) before st) !! device e = None ->
  fold_left (replay_step power_map) (before ++ e :: after) st
  = fold_left (replay_step power_map) (before ++ after) st.
Proof.
  intros Hs Ho. rewrite !fold_left_app. simpl.
  destruct (fold_left (replay_step power_map) before st) as [open_sessions daily].
  rewrite replay_step_unmatched_off by assumption. reflexivity.
Qed.

Lemma unmatched_off_witness :
  fold_left (replay_step {["Lamp" := 100%Q]})
    ([] ++ mk_log (mk_datetime 2024 1 1 9 0 0 0) "Lamp" "OFF"
        :: [mk_log (mk_datetime 2024 1 1 10 0 0 0) "Lamp" "ON";
            mk_log (mk_datetime 2024 1 1 11 0 0 0) "Lamp" "OFF"])
    (∅, ∅)
  = fold_left (replay_step {["Lamp" := 100%Q]})
      ([] ++ [mk_log (mk_datetime 2024 1 1 10 0 0 0) "Lamp" "ON";
              mk_log (mk_datetime 2024 1 1 11 0 0 0) "Lamp" "OFF"])
      (∅, ∅).
Proof.
  apply unmatched_off_contributes_nothing.
  - reflexivity.
  - vm_compute. reflexivity.
Defined.

(** The stray OFF at 09:00 adds nothing: the day holds the 3600 seconds of
    the session from 10:00 to 11:00 and no other entry. *)
Example stray_off_in_file :
  map_to_list (daily_usage_seconds midnight_devices (Some file_with_stray_off)
                 (mk_datetime 2024 1 1 12 0 0 0))
  = [((ymd2ord 2024 1 1, "Lamp"), (3600000000 # 1000000)%Q)].
Proof. vm_compute. reflexivity. Qed.

(** *** The rows of the statistics table *)

Section TableFacts.
Variable devices : list Device.

Lemma keys_empty : keys_name_devices devices ∅.
Proof. intros d n q H. rewrite lookup_empty in H. discriminate. Qed.

Lemma attribute_days_keys (n : nat) (device_name : string) :
  In device_name (map name devices) ->
  forall cur s e daily,
    keys_name_devices devices daily ->
    keys_name_devices devices (attribute_days n cur s e device_name daily).
Proof.
  intros Hin. induction n as [|k IH]; intros cur s e daily Hk; simpl; [exact Hk|].
  apply IH. destruct (negb (Qle_bool _ 0)); [|exact Hk].
  intros d m q. destruct (decide ((cur, device_name) = (d, m))) as [[= <- <-]|Hne].
  - intros _. exact Hin.
  - rewrite lookup_insert_ne by exact Hne. apply Hk.
Qed.

Lemma attribute_session_keys (device_name : string) (s e : datetime)
    (daily : daily_usage) :
  In device_name (map name devices) ->
  keys_name_devices devices daily ->
  keys_name_devices devices (attribute_session device_name s e daily).
Proof. intros Hin Hk. apply attribute_days_keys; assumption. Qed.

Lemma power_map_lookup (ds : list Device) :
  forall (m : gmap string Q) n p,
    fold_left (fun m d => <[name d := power d]> m) ds m !! n = Some p ->
    m !! n = Some p \/ In n (map name ds).
Proof.
  induction ds as [|d ds IH]; intros m n p H; simpl in *; [left; exact H|].
  apply IH in H as [H|H]; [|right; right; exact H].
  destruct (decide (name d = n)) as [<-|Hne].
  - right. left. reflexivity.
  - rewrite lookup_insert_ne in H by exact Hne. left. exact H.
Qed.

Lemma device_power_map_names (n : string) (p : Q) :
  device_power_map devices !! n = Some p -> In n (map name devices).
Proof.
  intros H. apply power_map_lookup in H as [H|H]; [|exact H].
  rewrite lookup_empty in H. discriminate.
Qed.

Lemma replay_step_keys (st : gmap string datetime * daily_usage) (e : log_entry) :
  keys_name_devices devices (snd st) ->
  keys_name_devices devices (snd (replay_step (device_power_map devices) st e)).
Proof.
  destruct st as [open_sessions daily]. simpl. intros Hk.
  destruct (device_power_map devices !! device e) as [p|] eqn:Hp; [|exact Hk].
  destruct (String.eqb (status e) "ON"); [exact Hk|].
  destruct (String.eqb (status e) "OFF"); [|exact Hk].
  destruct (open_sessions !! device e); [|exact Hk].
  simpl. apply attribute_session_keys; [|exact Hk].
  eapply device_power_map_names, Hp.
Qed.

Lemma replay_fold_keys (logs : list log_entry) :
  forall st, keys_name_devices devices (snd st) ->
    keys_name_devices devices (snd (fold_left (replay_step (device_power_map devices)) logs st)).
Proof.
  induction logs as [|e logs IH]; intros st Hk; simpl; [exact Hk|].
  apply IH, replay_step_keys, Hk.
Qed.

Lemma live_sessions_keys (now : datetime) (ds : list Device) :
  (forall d, In d ds -> In (name d) (map name devices)) ->
  forall daily, keys_name_devices devices daily ->
    keys_name_devices devices
      (fold_left
         (fun acc d =>
            match is_on d, last_on_time d with
            | true, Some start_time => attribute_session (name d) start_time now acc
            | _, _ => acc
            end) ds daily).
Proof.
  induction ds as [|d ds IH]; intros Hds daily Hk; simpl; [exact Hk|].
  apply IH; [intros d' Hd'; apply Hds; right; exact Hd'|].
  destruct (is_on d); [|exact Hk].
  destruct (last_on_time d); [|exact Hk].
  apply attribute_session_keys; [|exact Hk]. apply Hds. left. reflexivity.
Qed.

Lemma daily_usage_seconds_keys (file : option string) (now : datetime) :
  keys_name_devices devices (daily_usage_seconds devices file now).
Proof.
  unfold daily_usage_seconds, add_live_sessions.
  apply live_sessions_keys; [intros d Hd; apply in_map, Hd|].
  destruct file as [content|]; [|apply keys_empty].
  unfold replay. apply replay_fold_keys, keys_empty.
Qed.

Lemma all_device_names_spec (daily : daily_usage) (n : string) :
  keys_name_devices devices daily ->
  In n (all_device_names devices daily) <-> In n (map name devices).
Proof.
  intros Hk. unfold all_device_names.
  rewrite <- !list_elem_of_In.
  rewrite merge_sort_Permutation, elem_of_remove_dups, !list_elem_of_In.
  rewrite in_app_iff. split; [|intros H; left; exact H].
  intros [H|H]; [exact H|].
  apply in_map_iff in H as (k & <- & H).
  apply in_map_iff in H as ([k' q] & <- & H). simpl.
  apply list_elem_of_In, elem_of_map_to_list in H.
  destruct k' as [d m]. eapply Hk, H.
Qed.

Lemma all_device_names_sorted (daily : daily_usage) :
  Sorted String.le (all_device_names devices daily)
  /\ NoDup (all_device_names devices daily).
Proof.
  unfold all_device_names. split.
  - apply Sorted_merge_sort. apply _.
  - rewrite merge_sort_Permutation. apply NoDup_remove_dups.
Qed.

End TableFacts.

Lemma live_total_spec (ds : list Device) (n : string) :
  forall acc,
    fold_left
      (fun acc d => if String.eqb (name d) n then Some (get_total_units d) else acc)
      ds acc = acc
    \/ exists d, In d ds /\ name d = n
         /\ fold_left
              (fun acc d => if String.eqb (name d) n then Some (get_total_units d) else acc)
              ds acc = Some (get_total_units d).
Proof.
  induction ds as [|d ds IH]; intros acc; simpl; [left; reflexivity|].
  destruct (IH (if String.eqb (name d) n then Some (get_total_units d) else acc))
    as [H|(d' & Hin & Hn & H)].
  - rewrite H. destruct (String.eqb (name d) n) eqn:E; [|left; reflexivity].
    right. exists d. apply String.eqb_eq in E. auto.
  - right. exists d'. auto.
Qed.

Lemma live_total_of_device (ds : list Device) (n : string) :
  In n (map name ds) ->
  exists d, In d ds /\ name d = n /\ live_total ds n = Some (get_total_units d).
Proof.
  unfold live_total. intros Hin.
  assert (forall acc,
    exists d, In d ds /\ name d = n
      /\ fold_left
           (fun acc d => if String.eqb (name d) n then Some (get_total_units d) else acc)
           ds acc = Some (get_total_units d)) as H; [|apply H].
  induction ds as [|d ds IH]; [destruct Hin|]. intros acc. simpl.
  destruct (live_total_spec ds n
              (if String.eqb (name d) n then Some (get_total_units d) else acc))
    as [H|(d' & Hd' & Hn & H)].
  - destruct (String.eqb (name d) n) eqn:E.
    + exists d. apply String.eqb_eq in E. rewrite H. auto.
    + destruct Hin as [Hin|Hin]; [apply String.eqb_neq in E; contradiction|].
      destruct (IH Hin acc) as (d' & Hd' & Hn & H').
      exists d'. auto.
  - exists d'. auto.
Qed.

Lemma map_fst_pair {A B : Type} (f : A -> B) (l : list A) :
  map fst (map (fun n => (n, f n)) l) = l.
Proof. rewrite map_map. simpl. apply map_id. Qed.

(** C5 (amended): when [show_stats] builds its table, the table has one row
    for every device of the current device list and for no other name (a
    device that occurs only in the log block gets no row), the rows sorted
    by name without repetition; its columns are the last 7 calendar days,
    oldest first; every cell is the [cell] of its device and date, which for
    a date other than today is 0 when no usage is attributed to the pair,
    and which for today is the live [total_units] of the device. *)
Theorem stats_table_shape (devices : list Device) (file : option string)
    (now now_table : datetime) (t : stats_table) :
  show_stats devices file now now_table = Some t ->
  let today := date_of now_table in
  let daily := daily_usage_seconds devices file now in
  columns t = [today - 6; today - 5; today - 4; today - 3; today - 2; today - 1; today - 0]
  /\ (forall n, In n (map fst (rows t)) <-> In n (map name devices))
  /\ Sorted String.le (map fst (rows t))
  /\ NoDup (map fst (rows t))
  /\ (forall n vals, In (n, vals) (rows t) ->
        vals = map (cell devices daily today n) (columns t))
  /\ (forall n d, d <> today -> daily !! (d, n) = None ->
        cell devices daily today n d = 0%Q)
  /\ (forall n, In n (map name devices) ->
        exists d, In d devices /\ name d = n
          /\ cell devices daily today n today = get_total_units d).
Proof.
  intros Ht today daily. unfold show_stats in Ht. fold daily in Ht. fold today in Ht.
  destruct (bool_decide (daily = ∅) && bool_decide (devices = [])); [discriminate|].
  injection Ht as <-. cbv zeta. cbn [columns rows]. rewrite !map_fst_pair.
  split; [reflexivity|]. split.
  { intros n. apply all_device_names_spec, daily_usage_seconds_keys. }
  split; [apply all_device_names_sorted|].
  split; [apply all_device_names_sorted|].
  split.
  { intros n vals Hin. apply in_map_iff in Hin as (m & [= <- <-] & _). reflexivity. }
  split.
  { intros n d Hd Hnone. unfold cell, attributed_units.
    apply Z.eqb_neq in Hd. rewrite Hd, Hnone. reflexivity. }
  intros n Hn. destruct (live_total_of_device devices n Hn) as (d & Hd & Hdn & Hl).
  exists d. split; [exact Hd|]. split; [exact Hdn|].
  unfold cell. rewrite Z.eqb_refl, Hl. reflexivity.
Qed.

(** C5 as stated fails: the lamp occurs in the log block, and the table has
    a row for the fan only. *)
Lemma removed_device_has_no_row :
  map device (processed_logs false (PyStr.readlines file_after_removal))
  = ["Lamp"; "Lamp"]
  /\ exists t,
       table_after_removal = Some t
       /\ map fst (rows t) = ["Fan"]
       /\ ~ In "Lamp" (map fst (rows t)).
Proof.
  split; [vm_compute; reflexivity|].
  eexists. split; [vm_compute; reflexivity|].
  split; [reflexivity|].
  simpl. intros [H|[]]. discriminate H.
Qed.

Lemma stats_table_shape_witness :
  exists t,
    show_stats midnight_devices (Some midnight_file)
      (mk_datetime 2024 1 2 2 0 0 0) (mk_datetime 2024 1 2 2 0 0 0) = Some t
    /\ columns t = [738881; 738882; 738883; 738884; 738885; 738886; 738887]
    /\ map fst (rows t) = ["Lamp"].
Proof.
  eexists. split; [vm_compute; reflexivity|].
  split.
  - pose proof (stats_table_shape midnight_devices (Some midnight_file)
                  (mk_datetime 2024 1 2 2 0 0 0) (mk_datetime 2024 1 2 2 0 0 0)
                  _ ltac:(vm_compute; reflexivity)) as H.
    cbv zeta in H. destruct H as [H _]. rewrite H. vm_compute. reflexivity.
  - reflexivity.
Defined.

(** ** The leaderboard *)

Section SortFacts.
Context {A : Type} (leb : A -> A -> bool).



Hypothesis leb_total : forall a b, leb a b = true \/ leb b a = true.

Lemma insert_by_sorted (x : A) (l : list A) :
  Sorted (fun a b => leb a b = true) l ->
  Sorted (fun a b => leb a b = true) (insert_by leb x l).
Proof.
  induction 1 as [|z l Hs IH Hhd]; simpl.
  - repeat constructor.
  - destruct (leb x z) eqn:E.
    + constructor; [constructor; assumption|constructor; exact E].
    + constructor; [exact IH|].
      destruct l as [|w l]; simpl.
      * constructor. destruct (leb_total x z); congruence.
      * inversion Hhd; subst. destruct (leb x w); constructor;
          [destruct (leb_total x z); congruence|assumption].
Qed.

Lemma sort_by_sorted (l : list A) :
  Sorted (fun a b => leb a b = true) (sort_by leb l).
Proof.
  induction l as [|x l IH]; simpl; [constructor|].
  apply insert_by_sorted, IH.
Qed.

End SortFacts.

Section LeaderboardFacts.
Context {FT : FloatText}.





(** A user name that contains [_data.txt]: the row made from the user's own
    file bears the name [x] and the sum read from the file, whatever the
    devices in memory are. *)
Lemma odd_user_row (devices : list Device) :
  show_leaderboard odd_user devices odd_user_dir
  = [mk_entry "x" (total_usage_from_file false 0%Q (PyStr.readlines odd_user_file))].
Proof. reflexivity. Qed.

End LeaderboardFacts.

(** With totals A = 5.0, B = 2.0 and C = 2.0 the rows are B, C, A; here B
    is the active user, whose file still says 9.0 while the lamp in memory
    stands at 2.0. *)
Example leaderboard_ties :
  let board :=
    show_leaderboard (FT := plain_decimal) "B" [three_users_lamp] three_users_dir in
  map username board = ["B"; "C"; "A"]
  /\ Forall2 Qeq (map total_usage board) [2%Q; 2%Q; 5%Q].
Proof. vm_compute. split; [reflexivity|repeat constructor]. Qed.


(** ** Text that is written and read again *)

Section NewlineFacts.
Import PyStr.

Lemma ascii_eqb_sym (a b : ascii) : Ascii.eqb a b = Ascii.eqb b a.
Proof.
  destruct (Ascii.eqb a b) eqn:Hab, (Ascii.eqb b a) eqn:Hba; try reflexivity.
  - apply Ascii.eqb_eq in Hab. subst. rewrite Ascii.eqb_refl in Hba. discriminate Hba.
  - apply Ascii.eqb_eq in Hba. subst. rewrite Ascii.eqb_refl in Hab. discriminate Hab.
Qed.

Lemma no_CR_cons (c : ascii) (s : string) :
  no_CR (String c s) = negb (Ascii.eqb CR c) && no_CR s.
Proof. unfold no_CR. simpl. rewrite negb_orb. reflexivity. Qed.

Lemma no_CR_app (a b : string) : no_CR (a +:+ b) = no_CR a && no_CR b.
Proof. unfold no_CR. rewrite has_char_app, negb_orb. reflexivity. Qed.

(** Text without a carriage return is read as it was written. *)
Lemma universal_newlines_id (s : string) :
  no_CR s = true -> universal_newlines s = s.
Proof.
  induction s as [|c s IH]; [reflexivity|].
  rewrite no_CR_cons. intros [Hc Hs]%andb_true_iff.
  apply negb_true_iff in Hc. cbn [universal_newlines].
  rewrite (ascii_eqb_sym c CR), Hc, IH by exact Hs. reflexivity.
Qed.

Lemma universal_newlines_app (a b : string) :
  no_CR a = true -> universal_newlines (a +:+ b) = a +:+ universal_newlines b.
Proof.
  induction a as [|c a IH]; [intros _; rewrite !app_nil_l; reflexivity|].
  rewrite no_CR_cons. intros [Hc Ha]%andb_true_iff.
  apply negb_true_iff in Hc. rewrite !app_cons. cbn [universal_newlines].
  rewrite (ascii_eqb_sym c CR), Hc, IH by exact Ha. reflexivity.
Qed.

(** What is read in text mode has no carriage return. *)
Lemma no_CR_universal_newlines (s : string) : no_CR (universal_newlines s) = true.
Proof.
  induction s as [|c s IH]; [reflexivity|]. cbn [universal_newlines].
  destruct (Ascii.eqb c CR) eqn:Hc.
  - destruct s as [|c' s']; [reflexivity|].
    destruct (Ascii.eqb c' LF); [exact IH|]. rewrite no_CR_cons, IH. reflexivity.
  - rewrite no_CR_cons, IH, (ascii_eqb_sym CR c), Hc. reflexivity.
Qed.

Lemma readlines_no_CR (s : string) :
  no_CR s = true -> forallb no_CR (readlines s) = true.
Proof.
  induction s as [|c s IH]; [reflexivity|].
  rewrite no_CR_cons. intros [Hc Hs]%andb_true_iff. specialize (IH Hs).
  cbn [readlines]. destruct (Ascii.eqb c LF).
  - cbn [forallb]. rewrite IH, no_CR_cons, Hc. reflexivity.
  - destruct (readlines s) as [|l ls]; cbn [forallb] in *.
    + rewrite no_CR_cons, Hc. reflexivity.
    + apply andb_true_iff in IH as [Hl Hls].
      rewrite no_CR_cons, Hc, Hl, Hls. reflexivity.
Qed.

Lemma no_CR_join (ls : list string) :
  forallb no_CR ls = true -> no_CR (join ls) = true.
Proof.
  induction ls as [|l ls IH]; [reflexivity|]. cbn [forallb join].
  intros [Hl Hls]%andb_true_iff. rewrite no_CR_app, Hl, IH by exact Hls. reflexivity.
Qed.

Lemma collect_logs_no_CR (lines : list string) :
  forallb no_CR lines = true ->
  forall b, forallb no_CR (collect_logs b lines) = true.
Proof.
  induction lines as [|l ls IH]; [reflexivity|]. cbn [forallb collect_logs].
  intros [Hl Hls]%andb_true_iff b.
  destruct (String.eqb (strip l) LOGS_MARK); [apply IH, Hls|].
  destruct b; [|apply IH, Hls]. cbn [forallb]. rewrite Hl, IH by exact Hls. reflexivity.
Qed.

End NewlineFacts.

Section WrittenTextFacts.
Import PyStr.
Context {FT : FloatText}.

(** The text written for a float is a number text. *)
Hypothesis float_number_text : forall q, number_text (float_repr q) = true.

Lemma float_repr_no_CR (q : Q) : no_CR (float_repr q) = true.
Proof.
  unfold no_CR. rewrite (float_repr_chars float_number_text); reflexivity.
Qed.

Lemma no_newline_single_line (devices : list Device) :
  no_newline_names devices = true -> single_line_names devices = true.
Proof.
  unfold no_newline_names, single_line_names.
  induction devices as [|d ds IH]; [reflexivity|]. cbn [forallb].
  intros [[Hd _]%andb_true_iff Hds]%andb_true_iff. rewrite Hd, IH by exact Hds.
  reflexivity.
Qed.

Lemma restorable_no_newline (devices : list Device) :
  Forall restorable devices -> no_newline_names devices = true.
Proof.
  unfold no_newline_names. induction 1 as [|d ds Hd Hds IH]; [reflexivity|].
  cbn [forallb]. rewrite IH, andb_true_r.
  destruct Hd as [Hn _]. apply good_name_parts in Hn.
  destruct Hn as (_ & _ & _ & _ & Hlf & Hcr). rewrite Hlf, Hcr. reflexivity.
Qed.

Lemma summary_block_no_CR (devices : list Device) :
  no_newline_names devices = true -> no_CR (summary_block devices) = true.
Proof.
  intros Hn. unfold summary_block. rewrite !no_CR_app.
  assert (no_CR (join (map device_line devices)) = true) as ->; [|reflexivity].
  apply no_CR_join. unfold no_newline_names in Hn.
  induction devices as [|d ds IH]; [reflexivity|]. cbn [forallb map] in *.
  apply andb_true_iff in Hn as [[_ Hd]%andb_true_iff Hds].
  rewrite IH by exact Hds. unfold device_line.
  rewrite !no_CR_app, Hd, !float_repr_no_CR. reflexivity.
Qed.

(** The file that [save_state] writes, from names on one line and a file
    read in text mode, has no carriage return: the next reader gets it as
    it was written. *)
Lemma save_state_no_CR (devices : list Device) (file : option string) :
  no_newline_names devices = true ->
  no_CR (save_state devices (read_text file)) = true.
Proof.
  intros Hn. unfold save_state. rewrite no_CR_app, summary_block_no_CR by exact Hn.
  destruct file as [content|]; [|reflexivity]. cbn [read_text option_map andb].
  apply no_CR_join, collect_logs_no_CR, readlines_no_CR, no_CR_universal_newlines.
Qed.

Lemma reread_saved (devices : list Device) (file : option string) :
  no_newline_names devices = true ->
  read_text (Some (save_state devices (read_text file)))
  = Some (save_state devices (read_text file)).
Proof.
  intros Hn. cbn [read_text option_map].
  rewrite universal_newlines_id by apply save_state_no_CR, Hn. reflexivity.
Qed.

Lemma log_lines_of_saves
    (devices : list Device) (devicess : list (list Device)) (content : string) :
  forallb no_newline_names (devices :: devicess) = true ->
  log_lines_of (saves (devices :: devicess) content)
  = List.filter not_marker (log_lines_of (universal_newlines content)).
Proof.
  revert devices content.
  induction devicess as [|ds dss IH]; intros devices content Hn.
  - cbn [forallb] in Hn. rewrite andb_true_r in Hn.
    cbn [saves fold_left read_text option_map].
    apply (log_lines_of_save (float_repr_no_LF float_number_text)).
    apply no_newline_single_line, Hn.
  - change (saves (devices :: ds :: dss) content)
      with (saves (ds :: dss) (save_state devices (read_text (Some content)))).
    cbn [forallb] in Hn. apply andb_true_iff in Hn as [Hd Hn].
    rewrite IH by exact Hn.
    rewrite universal_newlines_id by apply save_state_no_CR, Hd.
    cbn [read_text option_map].
    rewrite (log_lines_of_save (float_repr_no_LF float_number_text))
      by apply no_newline_single_line, Hd.
    apply filter_not_marker_idem.
Qed.

(** C4 (amended): after one or more consecutive saves of devices whose names
    hold neither line feed nor carriage return, the log block of the file
    is the log block that text-mode reading gives of the file before the
    first save, without the lines that are themselves [## LOGS ##] markers;
    every other line is kept, in the same order, and as it was when the
    file had no carriage return. *)
Theorem log_block_across_saves
    (devices : list Device) (devicess : list (list Device)) (content : string) :
  forallb no_newline_names (devices :: devicess) = true ->
  log_lines_of (saves (devices :: devicess) content)
  = List.filter not_marker (log_lines_of (universal_newlines content))
  /\ (no_CR content = true ->
      log_lines_of (saves (devices :: devicess) content)
      = List.filter not_marker (log_lines_of content)).
Proof.
  intros Hn. split; [apply log_lines_of_saves, Hn|].
  intros Hc. rewrite log_lines_of_saves by exact Hn.
  rewrite universal_newlines_id by exact Hc. reflexivity.
Qed.

(** A log block without carriage return that holds no marker line is
    preserved as it is. *)
Corollary log_block_preserved
    (devices : list Device) (devicess : list (list Device)) (content : string) :
  forallb no_newline_names (devices :: devicess) = true ->
  no_CR content = true ->
  forallb not_marker (log_lines_of content) = true ->
  log_lines_of (saves (devices :: devicess) content) = log_lines_of content.
Proof.
  intros Hn Hc Hm. rewrite log_lines_of_saves by exact Hn.
  rewrite universal_newlines_id by exact Hc.
  apply filter_not_marker_id, Hm.
Qed.

End WrittenTextFacts.

Lemma log_block_across_saves_witness :
  log_lines_of (saves (FT := plain_decimal)
                  [[new_device "Lamp" 100]; [new_device "Lamp" 100; new_device "Fan" 60]]
                  file_with_two_markers)
  = List.filter not_marker
      (log_lines_of (PyStr.universal_newlines file_with_two_markers))
  /\ (PyStr.no_CR file_with_two_markers = true ->
      log_lines_of (saves (FT := plain_decimal)
                      [[new_device "Lamp" 100];
                       [new_device "Lamp" 100; new_device "Fan" 60]]
                      file_with_two_markers)
      = List.filter not_marker (log_lines_of file_with_two_markers)).
Proof.
  apply (log_block_across_saves (FT := plain_decimal) decimal_repr_number_text).
  vm_compute. reflexivity.
Defined.

(** * Further properties *)

(** ** Refreshing the ledger *)

Section LedgerFacts.
Local Open Scope Q_scope.

Lemma total_seconds_plus (a b : Z) :
  total_seconds (a + b) == total_seconds a + total_seconds b.
Proof. unfold total_seconds. rewrite inject_Z_plus. field. Qed.

Lemma total_seconds_nonneg (z : Z) : (0 <= z)%Z -> 0 <= total_seconds z.
Proof.
  intros Hz. unfold total_seconds, Qdiv.
  apply Qmult_le_0_compat; [|discriminate].
  change 0 with (inject_Z 0). rewrite <- Zle_Qle. exact Hz.
Qed.

(** X2: with a power that is not negative and a clock that has not gone
    back behind the start of the open interval, a refresh never lowers
    [total_units]. *)
Theorem refresh_never_lowers_total (now : datetime) (d : Device) :
  0 <= power d ->
  (forall t, last_on_time d = Some t -> (to_us t <= to_us now)%Z) ->
  get_total_units d <= get_total_units (update_session_usage now d).
Proof.
  intros Hp Hclock. unfold update_session_usage.
  destruct (is_on d); [|apply Qle_refl].
  destruct (last_on_time d) as [t|] eqn:Ht; [|apply Qle_refl].
  unfold get_total_units, get_session_units. cbn [saved_usage_units power session_usage_seconds].
  assert (0 <= seconds_between now t) as Hs.
  { apply total_seconds_nonneg. specialize (Hclock t eq_refl). lia. }
  apply Qplus_le_r. unfold Qdiv. apply Qmult_le_compat_r; [|discriminate].
  rewrite Qmult_plus_distr_r.
  rewrite <- (Qplus_0_r (power d * session_usage_seconds d)) at 1.
  apply Qplus_le_r. apply Qmult_le_0_compat; assumption.
Qed.

Lemma refresh_never_lowers_total_witness :
  get_total_units lamp_on_at_10
  <= get_total_units (update_session_usage (mk_datetime 2024 1 1 10 30 0 0) lamp_on_at_10).
Proof.
  apply refresh_never_lowers_total.
  - vm_compute. discriminate.
  - intros t Ht. injection Ht as <-. vm_compute. discriminate.
Defined.

End LedgerFacts.

(** ** Adding devices *)

Section AddFacts.
Import PyStr.
Context {FT : FloatText}.

Lemma rstrip_idem (s : string) : rstrip (rstrip s) = rstrip s.
Proof.
  induction s as [|x s IH]; [reflexivity|].
  rewrite rstrip_cons. destruct (rstrip s) as [|r0 r] eqn:Hr.
  - destruct (is_space x) eqn:Hx; [reflexivity|].
    rewrite rstrip_cons. simpl. rewrite Hx. reflexivity.
  - rewrite rstrip_cons, IH. reflexivity.
Qed.

Lemma lstrip_first (s : string) :
  lstrip s = EmptyString
  \/ exists x r, lstrip s = String x r /\ is_space x = false.
Proof.
  induction s as [|x s IH]; [left; reflexivity|].
  simpl. destruct (is_space x) eqn:Hx; [exact IH|].
  right. exists x, s. auto.
Qed.

Lemma strip_idem (s : string) : strip (strip s) = strip s.
Proof.
  unfold strip.
  destruct (lstrip_first s) as [->|(x & r & -> & Hx)]; [reflexivity|].
  assert (lstrip (rstrip (String x r)) = rstrip (String x r)) as ->.
  { rewrite rstrip_cons. destruct (rstrip r); [rewrite Hx|]; simpl; rewrite Hx; reflexivity. }
  apply rstrip_idem.
Qed.

Lemma existsb_name_false (n : string) (devices : list Device) :
  existsb (fun d => String.eqb (name d) n) devices = false ->
  ~ In n (map name devices).
Proof.
  induction devices as [|d ds IH]; simpl; [tauto|].
  intros [Hd Hds]%orb_false_iff [H|H].
  - apply String.eqb_neq in Hd. contradiction.
  - apply IH; assumption.
Qed.

Lemma add_device_ok (name_entry power_entry : string) (devices : list Device) :
  device_list_ok devices ->
  device_list_ok (fst (add_device name_entry power_entry devices)).
Proof.
  intros [Hnd Hall]. unfold add_device.
  destruct (float_parse power_entry) as [p|]; [|split; assumption].
  destruct (negb (String.eqb (strip name_entry) EmptyString)) eqn:Hn;
    [|split; assumption].
  destruct (negb (Qle_bool p 0)) eqn:Hp; [|split; assumption].
  cbn [andb].
  destruct (existsb _ devices) eqn:Hdup; [split; assumption|].
  cbn [fst]. split.
  - rewrite map_app. cbn [map name new_device].
    apply NoDup_app. split; [exact Hnd|]. split; [|apply NoDup_singleton].
    intros x Hx Hx'. apply list_elem_of_singleton in Hx'. subst x.
    apply list_elem_of_In in Hx. eapply existsb_name_false; eassumption.
  - apply Forall_app. split; [exact Hall|]. constructor; [|constructor].
    cbn [name power new_device]. split; [|split].
    + apply negb_true_iff, String.eqb_neq in Hn. exact Hn.
    + apply strip_idem.
    + apply negb_true_iff in Hp. apply Qnot_le_lt. intros Hle.
      apply Qle_bool_iff in Hle. congruence.
Qed.

(** X3: whatever texts are typed into the two entry fields, and however
    often, [add_device] keeps the device names pairwise distinct, not empty
    and free of white space at their ends, and every power positive. *)
Theorem add_devices_keep_list_ok (entries : list (string * string))
    (devices : list Device) :
  device_list_ok devices ->
  device_list_ok (add_devices entries devices).
Proof.
  unfold add_devices. revert devices.
  induction entries as [|e es IH]; intros devices Hok; [exact Hok|].
  cbn [fold_left]. apply IH, add_device_ok, Hok.
Qed.

End AddFacts.

Lemma add_devices_witness :
  device_list_ok
    (add_devices (FT := plain_decimal)
       [(" Lamp ", "60"); ("Lamp", "75"); ("", "5"); ("Fan", "-3"); ("Fan", "abc");
        ("Fan", "12.5")] []).
Proof.
  apply add_devices_keep_list_ok. split; constructor.
Defined.

Example add_devices_example :
  map summary_of
    (add_devices (FT := plain_decimal)
       [(" Lamp ", "60"); ("Lamp", "75"); ("", "5"); ("Fan", "-3"); ("Fan", "abc");
        ("Fan", "12.5")] [])
  = [("Lamp", 60%Q, 0%Q); ("Fan", (25 # 2)%Q, 0%Q)].
Proof. vm_compute. reflexivity. Qed.

(** ** Loading *)

Section LoadFacts.
Import PyStr.
Context {FT : FloatText}.

Lemma load_lines_skip (bad : string) (post : list string) :
  parse_device_line (strip bad) = None ->
  strip bad <> DEVICES_MARK -> strip bad <> LOGS_MARK ->
  forall pre b, load_lines b (pre ++ bad :: post) = load_lines b (pre ++ post).
Proof.
  intros Hp Hd Hl. apply String.eqb_neq in Hd, Hl.
  induction pre as [|l pre IH]; intros b; cbn [app load_lines].
  - rewrite Hd, Hl, Hp. destruct (String.eqb (strip bad) EmptyString), b; reflexivity.
  - destruct (String.eqb (strip l) EmptyString); [apply IH|].
    destruct (String.eqb (strip l) DEVICES_MARK); [apply IH|].
    destruct (String.eqb (strip l) LOGS_MARK); [reflexivity|].
    destruct b; [|apply IH].
    destruct (parse_device_line (strip l)); rewrite IH; reflexivity.
Qed.

(** X4: a line of the data file that is no section marker and that the
    [try] block cannot take apart is skipped; the lines before and after it
    are loaded as if it were not there. *)
Theorem malformed_line_is_skipped (pre : list string) (bad rest : string) :
  forallb is_complete_line pre = true ->
  is_complete_line bad = true ->
  parse_device_line (strip bad) = None ->
  strip bad <> DEVICES_MARK -> strip bad <> LOGS_MARK ->
  load_state (Some (join pre +:+ bad +:+ rest))
  = load_state (Some (join pre +:+ rest)).
Proof.
  intros Hpre Hbad Hp Hd Hl. unfold load_state.
  rewrite !readlines_join_app by exact Hpre.
  rewrite readlines_complete_app by exact Hbad.
  apply load_lines_skip; assumption.
Qed.

Lemma parse_device_line_shape (stripped : string) (d : Device) :
  parse_device_line stripped = Some d ->
  is_on d = false /\ last_on_time d = None /\ session_usage_seconds d = 0%Q
  /\ strip (name d) = name d
  /\ contains " (" (name d) = false
  /\ contains " | " (name d) = false.
Proof.
  intros Hp. pose proof (parse_device_line_name _ _ Hp) as Hpar.
  revert Hp. unfold parse_device_line.
  destruct (split " | " stripped) as [|info_part [|usage_part [|? ?]]] eqn:Hbar;
    try discriminate.
  destruct (split " (" info_part) as [|name_part [|power_part [|? ?]]] eqn:Hsplit;
    try discriminate.
  destruct (float_parse _); [|discriminate].
  destruct (float_parse usage_part); [|discriminate].
  intros [= <-]. cbn [is_on last_on_time session_usage_seconds name
                      set_saved_usage_units new_device] in *.
  repeat split; try reflexivity; [apply strip_idem|exact Hpar|].
  apply split_two_first in Hbar as [_ Hc]; [|discriminate].
  apply split_two_first in Hsplit as [Hpre _]; [|discriminate].
  destruct (contains " | " (strip name_part)) eqn:Hs; [|reflexivity].
  apply contains_strip in Hs.
  pose proof (contains_prefix_mono " | " _ _ Hpre Hs). congruence.
Qed.

(** X5: every device that [load_state] creates, from any file, is off, has
    no open interval and an empty session counter, and bears a name with no
    white space at its ends that contains neither [" ("] nor [" | "]: the
    session is not persisted, and such names never come back. *)
Theorem loaded_devices_shape (file : option string) :
  Forall (fun d =>
            is_on d = false /\ last_on_time d = None
            /\ session_usage_seconds d = 0%Q
            /\ strip (name d) = name d
            /\ contains " (" (name d) = false
            /\ contains " | " (name d) = false)
         (load_state file).
Proof.
  destruct file as [content|]; [|constructor]. unfold load_state.
  assert (forall lines b,
    Forall (fun d =>
              is_on d = false /\ last_on_time d = None
              /\ session_usage_seconds d = 0%Q
              /\ strip (name d) = name d
              /\ contains " (" (name d) = false
              /\ contains " | " (name d) = false)
           (load_lines b lines)) as H; [|apply H].
  induction lines as [|line rest IH]; intros b; cbn [load_lines]; [constructor|].
  destruct (String.eqb (strip line) EmptyString); [apply IH|].
  destruct (String.eqb (strip line) DEVICES_MARK); [apply IH|].
  destruct (String.eqb (strip line) LOGS_MARK); [constructor|].
  destruct b; [|apply IH].
  destruct (parse_device_line (strip line)) as [d|] eqn:Hp; [|apply IH].
  constructor; [|apply IH]. eapply parse_device_line_shape, Hp.
Qed.

End LoadFacts.

Lemma malformed_line_witness :
  load_state (FT := plain_decimal)
    (Some (PyStr.join ["## DEVICES ##
"; "Lamp (60.0W) | 1.5
"] +:+ "Fan 25.0W 2.0
" +:+ "Radio (10.0W) | 0.5

## LOGS ##
"))
  = load_state (FT := plain_decimal)
      (Some (PyStr.join ["## DEVICES ##
"; "Lamp (60.0W) | 1.5
"] +:+ "Radio (10.0W) | 0.5

## LOGS ##
")).
Proof.
  apply malformed_line_is_skipped.
  - reflexivity.
  - reflexivity.
  - vm_compute. reflexivity.
  - vm_compute. discriminate.
  - vm_compute. discriminate.
Defined.

(** ** Saving, appending and saving again *)

Section SaveFacts.
Import PyStr.
Context {FT : FloatText}.

(** The text written for a float has no line feed. *)
Hypothesis float_one_line : forall q, no_LF (float_repr q) = true.

Lemma saved_file_form (devices : list Device) (old : option string) :
  exists logs,
    save_state devices old = summary_block devices +:+ join logs
    /\ lines_ok logs
    /\ List.filter not_marker logs = logs.
Proof.
  unfold save_state. destruct old as [content|].
  - exists (collect_logs false (readlines content)). split; [reflexivity|].
    rewrite collect_logs_false. split.
    + apply lines_ok_filter, lines_ok_log_block, readlines_ok.
    + apply filter_not_marker_idem.
  - exists []. repeat split. constructor.
Qed.

Lemma load_lines_stop (X Y : list string) :
  forall pre b,
    load_lines b (pre ++ "## LOGS ##
" :: X) = load_lines b (pre ++ "## LOGS ##
" :: Y).
Proof.
  induction pre as [|l pre IH]; intros b; cbn [app load_lines]; [reflexivity|].
  destruct (String.eqb (strip l) EmptyString); [apply IH|].
  destruct (String.eqb (strip l) DEVICES_MARK); [apply IH|].
  destruct (String.eqb (strip l) LOGS_MARK); [reflexivity|].
  destruct b; [|apply IH].
  destruct (parse_device_line (strip l)); rewrite (IH true); reflexivity.
Qed.

Lemma total_usage_stop (X Y : list string) :
  forall pre b total,
    total_usage_from_file b total (pre ++ "## LOGS ##
" :: X)
    = total_usage_from_file b total (pre ++ "## LOGS ##
" :: Y).
Proof.
  induction pre as [|l pre IH]; intros b total;
    cbn [app total_usage_from_file]; [reflexivity|].
  destruct (String.eqb (strip l) EmptyString); [apply IH|].
  destruct (String.eqb (strip l) DEVICES_MARK); [apply IH|].
  destruct (String.eqb (strip l) LOGS_MARK); [reflexivity|].
  destruct b; [|apply IH].
  destruct (split " | " (strip l)) as [|? [|u [|? ?]]]; try apply IH.
  destruct (float_parse u); apply IH.
Qed.

(** X6: whatever text is appended to a file that [save_state] wrote (the
    toggle events are), [load_state] reads the same devices from it and the
    leaderboard reads the same sum: neither reads past the [## LOGS ##]
    line. *)
Theorem appended_text_is_not_read (devices : list Device) (old : option string)
    (extra : string) :
  single_line_names devices = true ->
  load_state (Some (save_state devices old +:+ extra))
  = load_state (Some (save_state devices old))
  /\ total_usage_from_file false 0%Q (readlines (save_state devices old +:+ extra))
     = total_usage_from_file false 0%Q (readlines (save_state devices old)).
Proof.
  intros Hn. destruct (saved_file_form devices old) as (logs & -> & _ & _).
  unfold load_state. rewrite app_assoc_str.
  rewrite !(readlines_summary float_one_line) by exact Hn.
  split; [apply load_lines_stop|apply total_usage_stop].
Qed.

(** Saving the text that a save wrote, with the same devices, gives that
    text again. *)
Lemma save_state_twice (devices : list Device) (old : option string) :
  single_line_names devices = true ->
  save_state devices (Some (save_state devices old)) = save_state devices old.
Proof.
  intros Hn. destruct (saved_file_form devices old) as (logs & Hform & Hok & Hfilter).
  rewrite Hform. unfold save_state at 1.
  rewrite collect_logs_false.
  fold (log_lines_of (summary_block devices +:+ join logs)).
  rewrite (log_lines_of_written float_one_line) by assumption.
  rewrite Hfilter. reflexivity.
Qed.

Lemma fmt2_no_LF (n : Z) : no_LF (fmt2 n) = true.
Proof. unfold fmt2. rewrite !no_LF_cons, !digit_char_not_LF. reflexivity. Qed.

Lemma fmt4_no_LF (n : Z) : no_LF (fmt4 n) = true.
Proof. unfold fmt4. rewrite !no_LF_cons, !digit_char_not_LF. reflexivity. Qed.

Lemma strftime_no_LF (dt : datetime) : no_LF (strftime dt) = true.
Proof.
  unfold strftime. rewrite !no_LF_app, fmt4_no_LF, !fmt2_no_LF. reflexivity.
Qed.

Lemma log_message_complete (now : datetime) (n : string) (on : bool) :
  no_LF n = true -> is_complete_line (log_message now n on) = true.
Proof.
  intros Hn. unfold log_message.
  rewrite (complete_line_app "[") by reflexivity.
  rewrite complete_line_app by apply strftime_no_LF.
  rewrite complete_line_app by reflexivity.
  rewrite complete_line_app by exact Hn.
  rewrite complete_line_app by reflexivity.
  rewrite complete_line_app by (destruct on; reflexivity).
  reflexivity.
Qed.

Lemma log_message_not_marker (now : datetime) (n : string) (on : bool) :
  not_marker (log_message now n on) = true.
Proof.
  unfold not_marker, is_marker_line. apply negb_true_iff, String.eqb_neq.
  intros Heq.
  assert (has_char "[" (strip (log_message now n on)) = true) as H.
  { rewrite has_char_strip by reflexivity. reflexivity. }
  rewrite Heq in H. discriminate H.
Qed.

Lemma filter_app_list {A : Type} (p : A -> bool) (l k : list A) :
  List.filter p (l ++ k) = List.filter p l ++ List.filter p k.
Proof.
  induction l as [|x l IH]; [reflexivity|].
  simpl. destruct (p x); simpl; rewrite IH; reflexivity.
Qed.

Lemma readlines_one_complete (l : string) :
  is_complete_line l = true -> readlines l = [l].
Proof.
  intros Hl. rewrite <- (app_nil_r l) at 1.
  rewrite readlines_complete_app by exact Hl. reflexivity.
Qed.

(** An event line behind the text that a save wrote is the last line of the
    log block that the next save writes. *)
Lemma appended_event_kept (devices devices' : list Device)
    (old : option string) (now : datetime) (n : string) (on : bool) :
  single_line_names devices = true ->
  single_line_names devices' = true ->
  no_LF n = true ->
  forallb is_complete_line (log_lines_of (save_state devices old)) = true ->
  log_lines_of
    (save_state devices' (Some (save_state devices old +:+ log_message now n on)))
  = log_lines_of (save_state devices old) ++ [log_message now n on].
Proof.
  intros Hn Hn' Hname.
  destruct (saved_file_form devices old) as (logs & -> & Hok & Hfilter).
  rewrite (log_lines_of_written float_one_line) by assumption.
  intros Hcomplete.
  rewrite (log_lines_of_save float_one_line) by exact Hn'.
  unfold log_lines_of. rewrite app_assoc_str.
  rewrite (readlines_summary float_one_line) by exact Hn.
  rewrite log_block_skip;
    [|simpl; rewrite forallb_app, (device_lines_not_marker devices); reflexivity
     |reflexivity].
  rewrite readlines_join_app by exact Hcomplete.
  rewrite readlines_one_complete by apply log_message_complete, Hname.
  rewrite filter_app_list, Hfilter. simpl.
  rewrite log_message_not_marker. reflexivity.
Qed.

End SaveFacts.

Lemma appended_text_witness :
  load_state (FT := plain_decimal)
    (Some (save_state (FT := plain_decimal) [new_device "Lamp" 100] None
           +:+ log_message (mk_datetime 2024 1 1 10 0 0 0) "Lamp" true))
  = load_state (FT := plain_decimal)
      (Some (save_state (FT := plain_decimal) [new_device "Lamp" 100] None))
  /\ total_usage_from_file (FT := plain_decimal) false 0%Q
       (PyStr.readlines
          (save_state (FT := plain_decimal) [new_device "Lamp" 100] None
           +:+ log_message (mk_datetime 2024 1 1 10 0 0 0) "Lamp" true))
     = total_usage_from_file (FT := plain_decimal) false 0%Q
         (PyStr.readlines (save_state (FT := plain_decimal) [new_device "Lamp" 100] None)).
Proof.
  apply (appended_text_is_not_read (FT := plain_decimal) decimal_repr_no_LF).
  reflexivity.
Defined.

(** ** Saving again what was saved *)

Section SaveAgainFacts.
Import PyStr.
Context {FT : FloatText}.

(** The text written for a float is a number text. *)
Hypothesis float_number_text : forall q, number_text (float_repr q) = true.

(** X7: saving twice in a row with the same devices, their names holding
    neither line feed nor carriage return, writes the same file twice, the
    second save reading what the first one wrote. *)
Theorem save_state_idempotent (devices : list Device) (file : option string) :
  no_newline_names devices = true ->
  save_state devices (read_text (Some (save_state devices (read_text file))))
  = save_state devices (read_text file).
Proof.
  intros Hn. rewrite (reread_saved float_number_text) by exact Hn.
  apply (save_state_twice (float_repr_no_LF float_number_text)).
  apply no_newline_single_line, Hn.
Qed.

Lemma digit_char_not_CR (k : Z) : Ascii.eqb CR (digit_char k) = false.
Proof.
  unfold digit_char.
  assert (Z.to_nat (k mod 10) < 10)%nat as Hlt.
  { pose proof (Z.mod_pos_bound k 10 ltac:(lia)). lia. }
  destruct (Z.to_nat (k mod 10)) as [|n]; [reflexivity|].
  do 9 (destruct n as [|n]; [reflexivity|]). lia.
Qed.

Lemma strftime_no_CR (dt : datetime) : no_CR (strftime dt) = true.
Proof.
  unfold strftime, fmt4, fmt2.
  rewrite !no_CR_app, !no_CR_cons, !digit_char_not_CR. reflexivity.
Qed.

Lemma log_message_no_CR (now : datetime) (n : string) (on : bool) :
  no_CR n = true -> no_CR (log_message now n on) = true.
Proof.
  intros Hn. unfold log_message.
  rewrite !no_CR_app, strftime_no_CR, Hn. destruct on; reflexivity.
Qed.

(** X8: once a file has been saved, the event line that a toggle appends to
    it for a device whose name holds neither line feed nor carriage return
    is kept by the next save, as the last line of the log block (the names
    saved being such names too, and the log block that the first save wrote
    having every line ended by a line feed). *)
Theorem event_after_save_is_kept (devices devices' : list Device)
    (file : option string) (now : datetime) (n : string) (on : bool) :
  no_newline_names devices = true ->
  no_newline_names devices' = true ->
  no_LF n = true -> no_CR n = true ->
  forallb is_complete_line
          (log_lines_of (save_state devices (read_text file))) = true ->
  log_lines_of
    (save_state devices'
       (read_text (Some (save_state devices (read_text file)
                         +:+ log_message now n on))))
  = log_lines_of (save_state devices (read_text file)) ++ [log_message now n on].
Proof.
  intros Hn Hn' Hlf Hcr Hcomplete. cbn [read_text option_map].
  rewrite universal_newlines_id.
  - apply (appended_event_kept (float_repr_no_LF float_number_text));
      try assumption; apply no_newline_single_line; assumption.
  - rewrite no_CR_app, (save_state_no_CR float_number_text) by exact Hn.
    apply log_message_no_CR, Hcr.
Qed.

End SaveAgainFacts.

Lemma save_state_idempotent_witness :
  save_state (FT := plain_decimal) [new_device "Lamp" 100]
    (read_text (Some (save_state (FT := plain_decimal) [new_device "Lamp" 100]
                        (read_text (Some file_with_two_markers)))))
  = save_state (FT := plain_decimal) [new_device "Lamp" 100]
      (read_text (Some file_with_two_markers)).
Proof.
  apply (save_state_idempotent (FT := plain_decimal) decimal_repr_number_text).
  reflexivity.
Defined.

Lemma event_after_save_witness :
  log_lines_of
    (save_state (FT := plain_decimal) [new_device "Lamp" 100; new_device "Fan" 60]
       (read_text
          (Some (save_state (FT := plain_decimal) [new_device "Lamp" 100]
                   (read_text (Some file_with_two_markers))
                 +:+ log_message (mk_datetime 2024 1 1 12 0 0 0) "Lamp" true))))
  = log_lines_of (save_state (FT := plain_decimal) [new_device "Lamp" 100]
                    (read_text (Some file_with_two_markers)))
    ++ [log_message (mk_datetime 2024 1 1 12 0 0 0) "Lamp" true].
Proof.
  apply (event_after_save_is_kept (FT := plain_decimal) decimal_repr_number_text).
  - reflexivity.
  - reflexivity.
  - reflexivity.
  - reflexivity.
  - vm_compute. reflexivity.
Defined.

(** ** Closing and starting again *)

Section RestartFacts.
Import PyStr.
Local Open Scope Q_scope.
Context {FT : FloatText}.

(** The text written for a float is a number text. *)
Hypothesis float_number_text : forall q, number_text (float_repr q) = true.

Lemma parse_restorable (d : Device) :
  restorable d ->
  exists p u,
    parse_device_line (device_text d)
    = Some (set_saved_usage_units u (new_device (name d) p))
    /\ p == power d /\ u == saved_usage_units d.
Proof.
  intros (Hn & (p & Hp & Hpe) & (u & Hu & Hue)).
  exists p, u. split; [|split; assumption].
  destruct (good_name_parts _ Hn) as (Hl & Hr & Hbar & Hpar & _).
  unfold parse_device_line, device_text.
  change ("W) | " +:+ float_repr (saved_usage_units d))
    with ("W)" +:+ (" | " +:+ float_repr (saved_usage_units d))).
  rewrite <- (app_assoc_str (float_repr (power d)) "W)").
  rewrite <- (app_assoc_str " (").
  rewrite <- (app_assoc_str (name d)).
  rewrite (split_once "|").
  - rewrite (split_once "(").
    + change (float_repr (power d) +:+ "W)")
        with (float_repr (power d) +:+ ("W)" +:+ EmptyString)).
      rewrite (split_app_sep "W");
        [|reflexivity|apply (float_repr_chars float_number_text); reflexivity].
      simpl hd. rewrite Hp, Hu.
      unfold strip. rewrite Hl, Hr. reflexivity.
    + reflexivity.
    + exact Hpar.
    + rewrite has_char_app, (float_repr_chars float_number_text) by reflexivity.
      reflexivity.
  - reflexivity.
  - rewrite !has_char_app, Hbar, (float_repr_chars float_number_text) by reflexivity.
    reflexivity.
  - apply (float_repr_chars float_number_text). reflexivity.
Qed.

Lemma load_restorable_lines (devices : list Device) (rest : list string) :
  Forall restorable devices ->
  Forall (fun d => session_usage_seconds d = 0) devices ->
  Forall2 same_after_restart
    (load_lines true (map device_line devices ++ String LF EmptyString
                        :: "## LOGS ##
" :: rest))
    devices.
Proof.
  induction 1 as [|d ds Hd Hds IH]; intros Hz; [constructor|].
  cbn [map app load_lines].
  rewrite (strip_device_line float_number_text) by apply Hd.
  rewrite !(eqb_has_char "|") by (apply device_text_has_bar || reflexivity).
  destruct (parse_restorable d Hd) as (p & u & -> & Hp & Hu).
  inversion Hz as [|? ? Hd0 Hds0]; subst.
  constructor; [|apply IH, Hds0].
  unfold same_after_restart, get_total_units, get_session_units.
  cbn [set_saved_usage_units new_device name power is_on saved_usage_units
       session_usage_seconds].
  rewrite Hd0, Hp, Hu. repeat split; reflexivity.
Qed.

Lemma restorable_single_line (devices : list Device) :
  Forall restorable devices -> single_line_names devices = true.
Proof.
  unfold single_line_names. induction 1 as [|d ds Hd Hds IH]; [reflexivity|].
  simpl. rewrite IH, andb_true_r.
  destruct Hd as [Hn _]. apply good_name_parts in Hn. apply Hn.
Qed.

Lemma consolidated_sessions (devices : list Device) :
  forall clock,
    Forall (fun d => session_usage_seconds d = 0)
           (consolidate_session_usage clock devices).
Proof.
  unfold consolidate_session_usage.
  induction devices as [|d ds IH]; intros clock; [constructor|].
  cbn [imap]. constructor; [reflexivity|]. apply IH.
Qed.

(** X9: after [save_usage] (and so after [on_closing]), [load_state] reads
    from the file written, device by device and in order, the name, the
    power and the [total_units] that the devices in memory have; every
    device comes back switched off.  The names are names that the summary
    line can carry (not empty, no white space at their ends, no ["("], no
    ["|"], no line feed, no carriage return) and the numbers are read back
    from their text with the same value. *)
Theorem restart_keeps_totals (clock : nat -> datetime * datetime)
    (devices : list Device) (file : option string) :
  Forall restorable (fst (save_usage clock devices file)) ->
  Forall2 same_after_restart
          (load_state (read_text (Some (snd (save_usage clock devices file)))))
          (fst (save_usage clock devices file)).
Proof.
  unfold save_usage. cbn [fst snd]. intros Hs.
  cbn [read_text option_map]. unfold load_state, save_state.
  rewrite universal_newlines_app
    by apply (summary_block_no_CR float_number_text), restorable_no_newline, Hs.
  rewrite (readlines_summary (float_repr_no_LF float_number_text))
    by apply restorable_single_line, Hs.
  cbn [app load_lines]. change (strip "## DEVICES ##
") with DEVICES_MARK.
  cbn [String.eqb]. simpl (String.eqb DEVICES_MARK _).
  rewrite <- app_assoc. cbn [app].
  apply load_restorable_lines; [exact Hs|apply consolidated_sessions].
Qed.

End RestartFacts.

Lemma restart_keeps_totals_witness :
  let devices :=
    [toggle (mk_datetime 2024 1 1 10 0 0 0)
       (set_saved_usage_units (3 # 2) (new_device "Desk lamp" 100))] in
  let clock := fun _ : nat =>
    (mk_datetime 2024 1 1 10 30 0 0, mk_datetime 2024 1 1 10 30 0 0) in
  Forall2 same_after_restart
          (load_state (FT := plain_decimal)
             (read_text
                (Some (snd (save_usage (FT := plain_decimal) clock devices None)))))
          (fst (save_usage (FT := plain_decimal) clock devices None)).
Proof.
  apply (restart_keeps_totals (FT := plain_decimal) decimal_repr_number_text).
  constructor; [|constructor].
  split; [reflexivity|]. split.
  - eexists. split; [vm_compute; reflexivity|reflexivity].
  - eexists. split; [vm_compute; reflexivity|reflexivity].
Defined.

(** ** Sessions and days *)

Section SessionFacts.
Local Open Scope Q_scope.

Lemma total_seconds_nonpos (z : Z) : (z <= 0)%Z -> Qle_bool (total_seconds z) 0 = true.
Proof.
  intros Hz. apply Qle_bool_iff. unfold total_seconds, Qle. simpl. lia.
Qed.

Lemma total_seconds_pos (z : Z) : (0 < z)%Z -> Qle_bool (total_seconds z) 0 = false.
Proof.
  intros Hz. destruct (Qle_bool (total_seconds z) 0) eqn:E; [|reflexivity].
  apply Qle_bool_iff in E. unfold total_seconds, Qle in E. simpl in E. lia.
Qed.

(** The loop over the days of a session, entry by entry. *)
Lemma attribute_days_lookup (n : nat) (s e : Z) (dev : string) :
  forall cur (daily : daily_usage) d m,
    attribute_days n cur s e dev daily !! (d, m)
    = if String.eqb m dev && (cur <=? d)%Z && (d <? cur + Z.of_nat n)%Z
         && negb (Qle_bool (day_slice s e d) 0)
      then Some (seconds_on daily d m + day_slice s e d)
      else daily !! (d, m).
Proof.
  induction n as [|k IH]; intros cur daily d m.
  - cbn [attribute_days].
    replace (d <? cur + Z.of_nat 0)%Z with (d <? cur)%Z by (f_equal; lia).
    destruct (cur <=? d)%Z eqn:E1, (d <? cur)%Z eqn:E2; try lia;
      rewrite ?andb_false_r; reflexivity.
  - cbn [attribute_days]. rewrite IH. fold (day_slice s e cur).
    destruct (String.eqb m dev) eqn:Em; cbn [andb].
    + apply String.eqb_eq in Em. subst m.
      destruct (Z.eq_dec d cur) as [->|Hne].
      * assert ((cur + 1 <=? cur)%Z = false) as -> by (apply Z.leb_gt; lia).
        assert ((cur <=? cur)%Z = true) as -> by (apply Z.leb_le; lia).
        assert ((cur <? cur + Z.of_nat (S k))%Z = true) as -> by (apply Z.ltb_lt; lia).
        cbn [andb]. unfold seconds_on.
        destruct (negb (Qle_bool (day_slice s e cur) 0)).
        -- rewrite lookup_insert_eq. reflexivity.
        -- reflexivity.
      * replace (d <? cur + 1 + Z.of_nat k)%Z with (d <? cur + Z.of_nat (S k))%Z
          by (f_equal; lia).
        assert ((cur + 1 <=? d)%Z && (d <? cur + Z.of_nat (S k))%Z
                = (cur <=? d)%Z && (d <? cur + Z.of_nat (S k))%Z) as Hc.
        { destruct (cur + 1 <=? d)%Z eqn:E1, (cur <=? d)%Z eqn:E2; try lia; reflexivity. }
        rewrite Hc. unfold seconds_on.
        destruct (negb (Qle_bool (day_slice s e cur) 0));
          [rewrite !lookup_insert_ne by congruence|]; reflexivity.
    + assert ((cur, dev) <> (d, m)) as Hk.
      { intros [= -> ->]. rewrite String.eqb_refl in Em. discriminate. }
      destruct (negb (Qle_bool (day_slice s e cur) 0));
        [rewrite !lookup_insert_ne by exact Hk|]; reflexivity.
Qed.

Lemma attribute_session_entry (dev : string) (s e : datetime)
    (daily : daily_usage) (d : date) (m : string) :
  attribute_session dev s e daily !! (d, m)
  = if String.eqb m dev && (date_of s <=? d)%Z && (d <=? date_of e)%Z
       && negb (Qle_bool (day_slice (to_us s) (to_us e) d) 0)
    then Some (seconds_on daily d m + day_slice (to_us s) (to_us e) d)
    else daily !! (d, m).
Proof.
  unfold attribute_session. rewrite attribute_days_lookup.
  assert ((date_of s <=? d)%Z
          && (d <? date_of s + Z.of_nat (Z.to_nat (date_of e - date_of s + 1)))%Z
          = (date_of s <=? d)%Z && (d <=? date_of e)%Z) as Hc.
  { destruct (date_of s <=? d)%Z eqn:E1; [|reflexivity]. cbn [andb].
    destruct (d <=? date_of e)%Z eqn:E2; [apply Z.ltb_lt|apply Z.ltb_ge]; lia. }
  destruct (String.eqb m dev); cbn [andb]; [|reflexivity].
  rewrite Hc. reflexivity.
Qed.

(** X10: closing a session adds, to the entry of its device on each day from
    the day of its start to the day of its end, the length of the part of
    the session between 00:00:00 and 23:59:59.999999 of that day, when that
    length is positive; no other entry of the per-day usage changes. *)
Theorem attribute_session_lookup (dev : string) (s e : datetime)
    (daily : daily_usage) (d : date) (m : string) :
  attribute_session dev s e daily !! (d, m)
  = if String.eqb m dev && (date_of s <=? d)%Z && (d <=? date_of e)%Z
       && negb (Qle_bool (day_slice (to_us s) (to_us e) d) 0)
    then Some (seconds_on daily d m + day_slice (to_us s) (to_us e) d)
    else daily !! (d, m).
Proof. apply attribute_session_entry. Qed.

Lemma attribute_days_nothing (n : nat) (s e : Z) (dev : string) :
  (e <= s)%Z ->
  forall cur (daily : daily_usage), attribute_days n cur s e dev daily = daily.
Proof.
  intros Hle. induction n as [|k IH]; intros cur daily; [reflexivity|].
  cbn [attribute_days]. rewrite total_seconds_nonpos by lia. apply IH.
Qed.

(** X11: a session whose end is not after its start (an OFF stamped at or
    before its ON, as after the clock was set back) adds nothing to any
    day. *)
Theorem reversed_session_adds_nothing (dev : string) (s e : datetime)
    (daily : daily_usage) :
  (to_us e <= to_us s)%Z -> attribute_session dev s e daily = daily.
Proof. intros H. apply attribute_days_nothing, H. Qed.

Lemma reversed_session_witness :
  attribute_session "Lamp" (mk_datetime 2024 1 1 11 0 0 0)
    (mk_datetime 2024 1 1 10 0 0 0) ∅ = ∅.
Proof. apply reversed_session_adds_nothing. vm_compute. discriminate. Defined.

Lemma time_of_day_bounds (dt : datetime) :
  valid_time dt = true ->
  (day_start (date_of dt) <= to_us dt <= day_end (date_of dt))%Z.
Proof.
  unfold valid_time, to_us, day_start, day_end, US_PER_DAY. intros H.
  repeat (apply andb_true_iff in H as [H ?]). lia.
Qed.

(** X12: a session that starts and ends on the same day, the end after the
    start, adds to that day exactly the time from its start to its end. *)
Theorem same_day_session_exact (dev : string) (s e : datetime)
    (daily : daily_usage) :
  valid_time s = true -> valid_time e = true ->
  date_of s = date_of e -> (to_us s < to_us e)%Z ->
  attribute_session dev s e daily !! (date_of s, dev)
  = Some (seconds_on daily (date_of s) dev + seconds_between e s).
Proof.
  intros Hs He Hd Hlt. rewrite attribute_session_entry.
  pose proof (time_of_day_bounds s Hs) as Bs.
  pose proof (time_of_day_bounds e He) as Be. rewrite <- Hd in Be.
  assert (day_slice (to_us s) (to_us e) (date_of s) = seconds_between e s) as ->.
  { unfold day_slice, seconds_between. f_equal. lia. }
  rewrite String.eqb_refl, <- Hd.
  assert ((date_of s <=? date_of s)%Z = true) as -> by (apply Z.leb_le; lia).
  cbn [andb].
  unfold seconds_between. rewrite total_seconds_pos by lia. reflexivity.
Qed.

Lemma same_day_session_witness :
  attribute_session "Lamp" (mk_datetime 2024 1 1 10 0 0 0)
    (mk_datetime 2024 1 1 11 30 0 0) ∅ !! (ymd2ord 2024 1 1, "Lamp")
  = Some (seconds_on ∅ (ymd2ord 2024 1 1) "Lamp"
          + seconds_between (mk_datetime 2024 1 1 11 30 0 0)
              (mk_datetime 2024 1 1 10 0 0 0)).
Proof.
  apply (same_day_session_exact "Lamp" (mk_datetime 2024 1 1 10 0 0 0)
           (mk_datetime 2024 1 1 11 30 0 0)).
  - reflexivity.
  - reflexivity.
  - reflexivity.
  - vm_compute. reflexivity.
Defined.

Lemma total_seconds_minus (a b : Z) :
  total_seconds (a - b) == total_seconds a - total_seconds b.
Proof.
  unfold total_seconds, Z.sub. rewrite inject_Z_plus, inject_Z_opp. field.
Qed.

Lemma session_entry_from_empty (dev : string) (s e : datetime) (d : date) :
  (date_of s <= d <= date_of e)%Z ->
  seconds_on (attribute_session dev s e ∅) d dev
  == total_seconds
       (Z.max 0 (Z.min (to_us e) (day_end d) - Z.max (to_us s) (day_start d))).
Proof.
  intros Hd. unfold seconds_on. rewrite attribute_session_entry.
  rewrite String.eqb_refl.
  assert ((date_of s <=? d)%Z = true) as -> by (apply Z.leb_le; lia).
  assert ((d <=? date_of e)%Z = true) as -> by (apply Z.leb_le; lia).
  cbn [andb]. unfold day_slice, seconds_on. rewrite lookup_empty.
  set (z := (Z.min (to_us e) (day_end d) - Z.max (to_us s) (day_start d))%Z).
  destruct (Z_lt_le_dec 0 z) as [Hz|Hz].
  - rewrite total_seconds_pos by exact Hz. cbn [negb default].
    rewrite Z.max_r by lia. apply Qplus_0_l.
  - rewrite total_seconds_nonpos by exact Hz. cbn [negb default].
    rewrite Z.max_l by lia. unfold total_seconds. field.
Qed.

Lemma clipped_slices_sum (s e : Z) (k : nat) :
  forall cur,
    (s <= day_end cur)%Z -> (Z.max s (day_start cur) <= e)%Z ->
    (day_start (cur + Z.of_nat k) <= e <= day_end (cur + Z.of_nat k))%Z ->
    fold_right Z.add 0%Z
      (map (fun d => Z.max 0 (Z.min e (day_end d) - Z.max s (day_start d)))
           (dates_from (S k) cur))
    = (e - Z.max s (day_start cur) - Z.of_nat k)%Z.
Proof.
  unfold day_start, day_end, US_PER_DAY.
  induction k as [|k IH]; intros cur Hs Hse He.
  - cbn [dates_from map fold_right]. lia.
  - change (dates_from (S (S k)) cur) with (cur :: dates_from (S k) (cur + 1)%Z).
    cbn [map fold_right]. rewrite IH by lia. lia.
Qed.

Lemma sum_total_seconds (f : date -> Z) (l : list date) :
  sum_Q (map (fun d => total_seconds (f d)) l)
  == total_seconds (fold_right Z.add 0%Z (map f l)).
Proof.
  induction l as [|d l IH]; cbn [map sum_Q fold_right].
  - unfold total_seconds. field.
  - fold (sum_Q (map (fun d => total_seconds (f d)) l)).
    rewrite IH, total_seconds_plus. reflexivity.
Qed.

Lemma sum_Q_ext (f g : date -> Q) (l : list date) :
  (forall d, In d l -> f d == g d) -> sum_Q (map f l) == sum_Q (map g l).
Proof.
  induction l as [|d l IH]; intros H; cbn [map sum_Q fold_right]; [reflexivity|].
  fold (sum_Q (map f l)). fold (sum_Q (map g l)).
  rewrite (H d) by (left; reflexivity).
  rewrite IH by (intros d' Hd'; apply H; right; exact Hd'). reflexivity.
Qed.

Lemma dates_from_range (n : nat) :
  forall cur d, In d (dates_from n cur) -> (cur <= d < cur + Z.of_nat n)%Z.
Proof.
  induction n as [|k IH]; intros cur d; cbn [dates_from]; [intros []|].
  intros [<-|H]; [lia|]. apply IH in H. lia.
Qed.

(** X13: over the days of a session that ends after it starts, the seconds
    attributed from an empty per-day usage add up to the length of the
    session less one microsecond for every midnight the session crosses. *)
Theorem each_midnight_costs_a_microsecond (dev : string) (s e : datetime) :
  valid_time s = true -> valid_time e = true ->
  (to_us s < to_us e)%Z ->
  sum_Q (map (fun d => seconds_on (attribute_session dev s e ∅) d dev)
             (dates_from (Z.to_nat (date_of e - date_of s + 1)) (date_of s)))
  == seconds_between e s - total_seconds (date_of e - date_of s).
Proof.
  intros Hs He Hlt.
  pose proof (time_of_day_bounds s Hs) as Bs.
  pose proof (time_of_day_bounds e He) as Be.
  assert (date_of s <= date_of e)%Z as Hd.
  { unfold day_start, day_end, US_PER_DAY in Bs, Be. lia. }
  remember (Z.to_nat (date_of e - date_of s)) as k eqn:Hk.
  replace (Z.to_nat (date_of e - date_of s + 1)) with (S k) by lia.
  rewrite (sum_Q_ext _
             (fun d => total_seconds
                (Z.max 0 (Z.min (to_us e) (day_end d) - Z.max (to_us s) (day_start d))))).
  - rewrite sum_total_seconds, clipped_slices_sum.
    + unfold seconds_between. rewrite Z.max_l by lia.
      replace (Z.of_nat k) with (date_of e - date_of s)%Z by lia.
      apply total_seconds_minus.
    + lia.
    + lia.
    + replace (date_of s + Z.of_nat k)%Z with (date_of e) by lia. exact Be.
  - intros d Hin. apply dates_from_range in Hin.
    apply session_entry_from_empty. lia.
Qed.

Lemma each_midnight_witness :
  sum_Q (map (fun d => seconds_on
                (attribute_session "Lamp" (mk_datetime 2024 1 1 23 0 0 0)
                   (mk_datetime 2024 1 3 1 0 0 0) ∅) d "Lamp")
             (dates_from (Z.to_nat (date_of (mk_datetime 2024 1 3 1 0 0 0)
                                    - date_of (mk_datetime 2024 1 1 23 0 0 0) + 1))
                (date_of (mk_datetime 2024 1 1 23 0 0 0))))
  == seconds_between (mk_datetime 2024 1 3 1 0 0 0) (mk_datetime 2024 1 1 23 0 0 0)
     - total_seconds (date_of (mk_datetime 2024 1 3 1 0 0 0)
                      - date_of (mk_datetime 2024 1 1 23 0 0 0)).
Proof.
  apply each_midnight_costs_a_microsecond.
  - reflexivity.
  - reflexivity.
  - vm_compute. reflexivity.
Defined.

End SessionFacts.

(** ** What the replay looks at *)

Section ReplayFacts.

Lemma insert_by_front {A : Type} (leb : A -> A -> bool) (x : A) (l : list A) :
  Forall (fun z => leb x z = true) l -> insert_by leb x l = x :: l.
Proof.
  intros H. destruct H as [|z l Hz _]; [reflexivity|].
  simpl. rewrite Hz. reflexivity.
Qed.

Lemma Forall_list_filter {A : Type} (P : A -> Prop) (p : A -> bool) (l : list A) :
  Forall P l -> Forall P (List.filter p l).
Proof.
  induction 1 as [|z k Hz Hk IHk]; simpl; [constructor|].
  destruct (p z); [constructor; assumption|assumption].
Qed.

Lemma filter_insert_by {A : Type} (leb : A -> A -> bool) (p : A -> bool) (x : A) :
  (forall a b c, leb a b = true -> leb b c = true -> leb a c = true) ->
  forall l, StronglySorted (fun a b => leb a b = true) l ->
    List.filter p (insert_by leb x l)
    = if p x then insert_by leb x (List.filter p l) else List.filter p l.
Proof.
  intros Htrans. induction 1 as [|y l Hs IH Hy]; simpl.
  - destruct (p x); reflexivity.
  - destruct (leb x y) eqn:Exy.
    + simpl. destruct (p x) eqn:Epx; [|reflexivity].
      rewrite insert_by_front; [reflexivity|].
      assert (Forall (fun z => leb x z = true) (y :: l)) as Hall.
      { constructor; [exact Exy|].
        eapply Forall_impl; [exact Hy|]. intros z Hz. simpl in Hz.
        eapply Htrans; eassumption. }
      exact (Forall_list_filter _ p (y :: l) Hall).
    + simpl. rewrite IH. destruct (p y), (p x); simpl; rewrite ?Exy; reflexivity.
Qed.

Lemma log_leb_total (a b : log_entry) : log_leb a b = true \/ log_leb b a = true.
Proof. unfold log_leb. destruct (Z.leb_spec (to_us (timestamp a)) (to_us (timestamp b)));
  [left; reflexivity|right; apply Z.leb_le; lia]. Qed.

Lemma log_leb_trans (a b c : log_entry) :
  log_leb a b = true -> log_leb b c = true -> log_leb a c = true.
Proof. unfold log_leb. rewrite !Z.leb_le. lia. Qed.

Lemma sort_by_strongly_sorted (l : list log_entry) :
  StronglySorted (fun a b => log_leb a b = true) (sort_by log_leb l).
Proof.
  apply Sorted_StronglySorted.
  - intros a b c. apply log_leb_trans.
  - apply sort_by_sorted, log_leb_total.
Qed.

(** The sort of the log is stable, so it commutes with leaving entries out. *)
Lemma filter_sort_logs (p : log_entry -> bool) (l : list log_entry) :
  List.filter p (sort_by log_leb l) = sort_by log_leb (List.filter p l).
Proof.
  induction l as [|x l IH]; [reflexivity|].
  simpl. rewrite filter_insert_by;
    [|apply log_leb_trans|apply sort_by_strongly_sorted].
  rewrite IH. destruct (p x); reflexivity.
Qed.

Lemma replay_step_not_acted_on (power_map : gmap string Q)
    (st : gmap string datetime * daily_usage) (e : log_entry) :
  acted_on power_map e = false -> replay_step power_map st e = st.
Proof.
  unfold acted_on, replay_step. destruct st as [open_sessions daily].
  destruct (power_map !! device e); [|reflexivity].
  intros [H1 H2]%orb_false_iff. rewrite H1, H2. reflexivity.
Qed.

Lemma fold_replay_filter (power_map : gmap string Q) (l : list log_entry) :
  forall st,
    fold_left (replay_step power_map) l st
    = fold_left (replay_step power_map) (List.filter (acted_on power_map) l) st.
Proof.
  induction l as [|e l IH]; intros st; [reflexivity|].
  simpl. destruct (acted_on power_map e) eqn:E.
  - simpl. apply IH.
  - rewrite replay_step_not_acted_on by exact E. apply IH.
Qed.

(** X14: the log entries of devices that are not in the current device
    list, and the entries whose status is neither ON nor OFF, can be left
    out of the log, wherever they stand in the file: the open sessions and
    the per-day usage that the replay produces are the same. *)
Theorem replay_ignores_other_entries (power_map : gmap string Q)
    (logs : list log_entry) :
  replay power_map logs = replay power_map (List.filter (acted_on power_map) logs).
Proof.
  unfold replay. rewrite fold_replay_filter, filter_sort_logs. reflexivity.
Qed.

Lemma keys_of_no_devices (daily : daily_usage) :
  keys_name_devices [] daily -> daily = ∅.
Proof.
  intros Hk. apply map_empty. intros [d n].
  destruct (daily !! (d, n)) as [q|] eqn:E; [|reflexivity].
  destruct (Hk d n q E).
Qed.

(** X15: [show_stats] shows the "No usage data" label instead of the table
    exactly when the device list is empty, whatever the log holds. *)
Theorem no_table_iff_no_devices (devices : list Device) (file : option string)
    (now now_table : datetime) :
  show_stats devices file now now_table = None <-> devices = [].
Proof.
  unfold show_stats. split.
  - destruct (bool_decide (daily_usage_seconds devices file now = ∅)); cbn [andb];
      [|discriminate].
    destruct (bool_decide (devices = [])) eqn:E; [|discriminate].
    intros _. apply bool_decide_eq_true in E. exact E.
  - intros ->.
    rewrite (keys_of_no_devices _ (daily_usage_seconds_keys [] file now)).
    reflexivity.
Qed.

End ReplayFacts.

(** ** The rows of the leaderboard *)

Section RowFacts.
Import PyStr.
Local Open Scope Q_scope.
Context {FT : FloatText}.

Lemma insert_by_perm {A : Type} (leb : A -> A -> bool) (x : A) (l : list A) :
  Permutation (insert_by leb x l) (x :: l).
Proof.
  induction l as [|y l IH]; simpl; [reflexivity|].
  destruct (leb x y); [reflexivity|].
  rewrite IH. apply perm_swap.
Qed.

Lemma sort_by_perm {A : Type} (leb : A -> A -> bool) (l : list A) :
  Permutation (sort_by leb l) l.
Proof.
  induction l as [|x l IH]; simpl; [reflexivity|].
  rewrite insert_by_perm, IH. reflexivity.
Qed.

Lemma leaderboard_data_names (active : string) (devices : list Device)
    (dir : directory) :
  map username (leaderboard_data active devices dir)
  = map (fun e => remove_all "_data.txt" (fst e)) (List.filter readable_data_file dir).
Proof.
  induction dir as [|[filename content] rest IH]; [reflexivity|].
  cbn [leaderboard_data List.filter]. unfold readable_data_file at 1. cbn [fst snd].
  destruct (endswith filename "_data.txt"); cbn [andb]; [|exact IH].
  destruct content as [text|]; [|exact IH].
  cbn [map username fst]. rewrite IH. reflexivity.
Qed.

(** X16: the leaderboard has one row for every entry of the directory whose
    name ends in [_data.txt] and that can be read, and no other row; a row
    bears the name of its file with every [_data.txt] removed; sorting only
    reorders the rows. *)
Theorem leaderboard_one_row_per_file (active : string) (devices : list Device)
    (dir : directory) :
  Permutation (map username (show_leaderboard active devices dir))
    (map (fun e => remove_all "_data.txt" (fst e)) (List.filter readable_data_file dir))
  /\ length (show_leaderboard active devices dir)
     = length (List.filter readable_data_file dir).
Proof.
  unfold show_leaderboard. split.
  - rewrite sort_by_perm. rewrite leaderboard_data_names. reflexivity.
  - rewrite (Permutation_length (sort_by_perm _ _)).
    rewrite <- (length_map username), leaderboard_data_names, length_map.
    reflexivity.
Qed.



(** The text written for a float is a number text. *)
Hypothesis float_number_text : forall q, number_text (float_repr q) = true.

Lemma split_bar_device_text (d : Device) :
  good_name (name d) = true ->
  split " | " (device_text d)
  = [name d +:+ " (" +:+ float_repr (power d) +:+ "W)";
     float_repr (saved_usage_units d)].
Proof.
  intros Hn. destruct (good_name_parts _ Hn) as (_ & _ & Hbar & _ & _).
  unfold device_text.
  change ("W) | " +:+ float_repr (saved_usage_units d))
    with ("W)" +:+ (" | " +:+ float_repr (saved_usage_units d))).
  rewrite <- (app_assoc_str (float_repr (power d)) "W)").
  rewrite <- (app_assoc_str " (").
  rewrite <- (app_assoc_str (name d)).
  rewrite (split_once "|").
  - reflexivity.
  - reflexivity.
  - rewrite !has_char_app, Hbar, (float_repr_chars float_number_text) by reflexivity.
    reflexivity.
  - apply (float_repr_chars float_number_text). reflexivity.
Qed.

Lemma total_of_device_lines (devices : list Device) (rest : list string) :
  Forall restorable devices ->
  forall total,
    total_usage_from_file true total
      (map device_line devices ++ String LF EmptyString :: "## LOGS ##
" :: rest)
    == total + sum_Q (map saved_usage_units devices).
Proof.
  induction 1 as [|d ds Hd Hds IH]; intros total.
  - cbn [map app total_usage_from_file sum_Q fold_right].
    change (strip (String LF EmptyString)) with EmptyString.
    cbn [String.eqb]. change (strip "## LOGS ##
") with LOGS_MARK. simpl. ring.
  - cbn [map app total_usage_from_file].
    destruct Hd as (Hn & _ & (u & Hu & Hue)).
    rewrite (strip_device_line float_number_text) by exact Hn.
    rewrite !(eqb_has_char "|") by (apply device_text_has_bar || reflexivity).
    rewrite split_bar_device_text by exact Hn. rewrite Hu.
    rewrite IH. cbn [sum_Q fold_right].
    fold (sum_Q (map saved_usage_units ds)). rewrite Hue. ring.
Qed.

Lemma fold_left_Qplus (l : list Q) :
  forall a, fold_left Qplus l a == a + sum_Q l.
Proof.
  induction l as [|x l IH]; intros a; cbn [fold_left sum_Q fold_right]; [ring|].
  rewrite IH. fold (sum_Q l). ring.
Qed.

(** X18: the sum that the leaderboard reads from a file that [save_state]
    wrote, whatever was appended to it since, is the sum of the saved units
    of the devices saved, added up from 0 in the order of the list, for
    names that the summary line can carry (not empty, no white space at
    their ends, no ["("], no ["|"], no line feed, no carriage return) and
    numbers that are read back from their text with the same value. *)
Theorem saved_file_total (devices : list Device) (old : option string)
    (extra : string) :
  Forall restorable devices ->
  total_usage_from_file false 0
    (readlines (universal_newlines (save_state devices old +:+ extra)))
  == fold_left Qplus (map saved_usage_units devices) 0.
Proof.
  intros Hs. unfold save_state. rewrite app_assoc_str.
  rewrite universal_newlines_app
    by apply (summary_block_no_CR float_number_text), restorable_no_newline, Hs.
  rewrite (readlines_summary (float_repr_no_LF float_number_text))
    by apply restorable_single_line, Hs.
  cbn [app total_usage_from_file]. change (strip "## DEVICES ##
") with DEVICES_MARK.
  cbn [String.eqb]. simpl (String.eqb DEVICES_MARK _).
  rewrite <- app_assoc. cbn [app].
  rewrite total_of_device_lines by exact Hs. rewrite fold_left_Qplus. reflexivity.
Qed.

End RowFacts.


Lemma saved_file_total_witness :
  let devices :=
    [set_saved_usage_units (3 # 2) (new_device "Desk lamp" 60);
     set_saved_usage_units (1 # 4) (new_device "Fan" 75)] in
  (total_usage_from_file (FT := plain_decimal) false 0
     (PyStr.readlines
        (PyStr.universal_newlines
           (save_state (FT := plain_decimal) devices None
            +:+ "[2024-02-29 10:00:00] Fan turned ON
")))
   == fold_left Qplus (map saved_usage_units devices) 0)%Q.
Proof.
  apply (saved_file_total (FT := plain_decimal) decimal_repr_number_text).
  repeat constructor; try reflexivity;
    (eexists; split; [vm_compute; reflexivity|reflexivity]).
Defined.

(** ** Who is ranked, and with which total *)

Section RankFacts.
Import PyStr.
Local Open Scope Q_scope.
Context {FT : FloatText}.




(** A user name without an underscore is what [replace('_data.txt', '')]
    returns for the name of the user's data file. *)
Lemma name_from_own_file (active : string) :
  has_char "_" active = false ->
  remove_all "_data.txt" (data_file active) = active.
Proof.
  unfold remove_all, data_file.
  induction active as [|x a IH]; intros Ha; [reflexivity|].
  rewrite app_cons. cbn [remove_from].
  assert (String.prefix "_data.txt" (String x (a +:+ "_data.txt")) = false) as ->.
  { rewrite <- (app_cons x a).
    exact (no_match_inside "_" "_data.txt" x a EmptyString eq_refl Ha). }
  rewrite IH; [reflexivity|].
  simpl in Ha. apply orb_false_iff in Ha as [_ Ha]. exact Ha.
Qed.



End RankFacts.



(** The user [x] is listed from the file [x_data.txt_data.txt], with no
    file [x_data.txt] in the directory. *)
Example listed_from_another_file (devices : list Device) :
  show_leaderboard (FT := plain_decimal) "x" devices odd_user_dir
  = [mk_entry "x" (current_user_total_usage devices)]
  /\ dir_lookup (data_file "x") odd_user_dir = None.
Proof. split; reflexivity. Qed.

(** An entry that cannot be opened: the toggle leaves it as it is and the
    user has no row. *)
Example unopened_file_gives_no_row (devices : list Device) :
  show_leaderboard (FT := plain_decimal) "ann" devices
    (snd (toggle_device "ann" (mk_datetime 2024 1 1 10 0 0 0)
            (mk_datetime 2024 1 1 10 0 0 0) (new_device "Lamp" 100)
            [("ann_data.txt", None)]))
  = [].
Proof. reflexivity. Qed.


(** ** The log line written and read *)

Section LogLineFacts.
Import PyStr.

Lemma digit_val_digit_char (k : Z) : digit_val (digit_char k) = Some (k mod 10).
Proof.
  pose proof (Z.mod_pos_bound k 10 ltac:(lia)) as Hb.
  unfold digit_val, digit_char.
  assert (k mod 10 = 0 \/ k mod 10 = 1 \/ k mod 10 = 2 \/ k mod 10 = 3
          \/ k mod 10 = 4 \/ k mod 10 = 5 \/ k mod 10 = 6 \/ k mod 10 = 7
          \/ k mod 10 = 8 \/ k mod 10 = 9) as H by lia.
  repeat (destruct H as [H|H]; [rewrite H; reflexivity|]).
  rewrite H. reflexivity.
Qed.

Lemma digits_val_cons (acc : Z) (c : ascii) (s : string) (v : Z) :
  digit_val c = Some v -> digits_val acc (String c s) = digits_val (acc * 10 + v) s.
Proof. intros H. cbn [digits_val]. rewrite H. reflexivity. Qed.

Lemma strptime_of_digits (c1 c2 c3 c4 c5 c6 c7 c8 c9 c10 c11 c12 c13 c14 : ascii) (v1 v2 v3 v4 v5 v6 v7 v8 v9 v10 v11 v12 v13 v14 : Z) :
  digit_val c1 = Some v1 ->
  digit_val c2 = Some v2 ->
  digit_val c3 = Some v3 ->
  digit_val c4 = Some v4 ->
  digit_val c5 = Some v5 ->
  digit_val c6 = Some v6 ->
  digit_val c7 = Some v7 ->
  digit_val c8 = Some v8 ->
  digit_val c9 = Some v9 ->
  digit_val c10 = Some v10 ->
  digit_val c11 = Some v11 ->
  digit_val c12 = Some v12 ->
  digit_val c13 = Some v13 ->
  digit_val c14 = Some v14 ->
  strptime (String c1 (String c2 (String c3 (String c4 (String "-" (String c5 (String c6 (String "-" (String c7 (String c8 (String " " (String c9 (String c10 (String ":" (String c11 (String c12 (String ":" (String c13 (String c14 (EmptyString))))))))))))))))))))
  = if (1 <=? ((((0 * 10 + v1) * 10 + v2) * 10 + v3) * 10 + v4)) && (1 <=? ((0 * 10 + v5) * 10 + v6)) && (((0 * 10 + v5) * 10 + v6) <=? 12)
       && (1 <=? ((0 * 10 + v7) * 10 + v8)) && (((0 * 10 + v7) * 10 + v8) <=? days_in_month ((((0 * 10 + v1) * 10 + v2) * 10 + v3) * 10 + v4) ((0 * 10 + v5) * 10 + v6))
       && (((0 * 10 + v9) * 10 + v10) <=? 23) && (((0 * 10 + v11) * 10 + v12) <=? 59) && (((0 * 10 + v13) * 10 + v14) <=? 59)
    then Some (mk_datetime ((((0 * 10 + v1) * 10 + v2) * 10 + v3) * 10 + v4) ((0 * 10 + v5) * 10 + v6) ((0 * 10 + v7) * 10 + v8) ((0 * 10 + v9) * 10 + v10) ((0 * 10 + v11) * 10 + v12) ((0 * 10 + v13) * 10 + v14) 0)
    else None.
Proof.
  intros H1 H2 H3 H4 H5 H6 H7 H8 H9 H10 H11 H12 H13 H14.
  unfold strptime.
  cbn [String.length Nat.eqb negb sep_at String.get].
  change (Ascii.eqb "-" "-") with true. change (Ascii.eqb " " " ") with true.
  change (Ascii.eqb ":" ":") with true. cbn [andb negb].
  unfold field_at. cbn [Nat.sub String.substring].
  rewrite !(digits_val_cons _ _ _ _ H1).
  rewrite ?(digits_val_cons _ _ _ _ H2).
  rewrite ?(digits_val_cons _ _ _ _ H3).
  rewrite ?(digits_val_cons _ _ _ _ H4).
  rewrite ?(digits_val_cons _ _ _ _ H5).
  rewrite ?(digits_val_cons _ _ _ _ H6).
  rewrite ?(digits_val_cons _ _ _ _ H7).
  rewrite ?(digits_val_cons _ _ _ _ H8).
  rewrite ?(digits_val_cons _ _ _ _ H9).
  rewrite ?(digits_val_cons _ _ _ _ H10).
  rewrite ?(digits_val_cons _ _ _ _ H11).
  rewrite ?(digits_val_cons _ _ _ _ H12).
  rewrite ?(digits_val_cons _ _ _ _ H13).
  rewrite ?(digits_val_cons _ _ _ _ H14).
  cbn [digits_val]. reflexivity.
Qed.

Lemma strftime_form (dt : datetime) :
  strftime dt = String (digit_char (year dt / 1000)) (String (digit_char (year dt / 100)) (String (digit_char (year dt / 10)) (String (digit_char (year dt)) (String "-" (String (digit_char (month dt / 10)) (String (digit_char (month dt)) (String "-" (String (digit_char (day dt / 10)) (String (digit_char (day dt)) (String " " (String (digit_char (hour dt / 10)) (String (digit_char (hour dt)) (String ":" (String (digit_char (minute dt / 10)) (String (digit_char (minute dt)) (String ":" (String (digit_char (second dt / 10)) (String (digit_char (second dt)) (EmptyString))))))))))))))))))).
Proof. reflexivity. Qed.

Lemma decimal4 (y : Z) :
  0 <= y <= 9999 ->
  (((0 * 10 + (y / 1000) mod 10) * 10 + (y / 100) mod 10) * 10 + (y / 10) mod 10) * 10
  + y mod 10 = y.
Proof. intros H. Z.div_mod_to_equations. lia. Qed.

Lemma decimal2 (n : Z) :
  0 <= n <= 99 -> (0 * 10 + (n / 10) mod 10) * 10 + n mod 10 = n.
Proof. intros H. Z.div_mod_to_equations. lia. Qed.

Lemma days_in_month_le (y m : Z) : days_in_month y m <= 31.
Proof.
  unfold days_in_month. destruct ((m =? 2) && is_leap y); [lia|].
  destruct (Z.to_nat m) as [|n]; [simpl; lia|].
  do 12 (destruct n as [|n]; [simpl; lia|]). simpl. destruct n; lia.
Qed.

(** [strptime] reads back what [strftime] wrote, to the second. *)
Lemma strptime_strftime (dt : datetime) :
  valid_date dt = true -> valid_time dt = true ->
  strptime (strftime dt) = Some (to_the_second dt).
Proof.
  unfold valid_date, valid_time. intros Hd Ht.
  repeat (apply andb_true_iff in Hd as [Hd ?]).
  repeat (apply andb_true_iff in Ht as [Ht ?]).
  pose proof (days_in_month_le (year dt) (month dt)) as Hdim.
  rewrite strftime_form.
  rewrite (strptime_of_digits _ _ _ _ _ _ _ _ _ _ _ _ _ _
             _ _ _ _ _ _ _ _ _ _ _ _ _ _
             (digit_val_digit_char _) (digit_val_digit_char _)
             (digit_val_digit_char _) (digit_val_digit_char _)
             (digit_val_digit_char _) (digit_val_digit_char _)
             (digit_val_digit_char _) (digit_val_digit_char _)
             (digit_val_digit_char _) (digit_val_digit_char _)
             (digit_val_digit_char _) (digit_val_digit_char _)
             (digit_val_digit_char _) (digit_val_digit_char _)).
  rewrite decimal4 by lia. rewrite !decimal2 by lia.
  assert ((1 <=? year dt) && (1 <=? month dt) && (month dt <=? 12)
          && (1 <=? day dt) && (day dt <=? days_in_month (year dt) (month dt))
          && (hour dt <=? 23) && (minute dt <=? 59) && (second dt <=? 59) = true) as ->.
  { repeat (apply andb_true_iff; split); assumption. }
  reflexivity.
Qed.

Lemma strftime_length (dt : datetime) : String.length (strftime dt) = 19%nat.
Proof. reflexivity. Qed.

Lemma substring_app_length (a b : string) :
  String.substring 0 (String.length a) (a +:+ b) = a.
Proof.
  induction a as [|x a IH]; [destruct b; reflexivity|].
  rewrite app_cons. simpl. rewrite IH. reflexivity.
Qed.

Lemma drop_app_length (a b : string) : drop (String.length a) (a +:+ b) = b.
Proof.
  induction a as [|x a IH]; [reflexivity|]. rewrite app_cons. simpl. exact IH.
Qed.

Lemma drop_app_more (a : string) (k : nat) (b : string) :
  drop (String.length a + k) (a +:+ b) = drop k b.
Proof.
  induction a as [|x a IH]; [reflexivity|]. rewrite app_cons. simpl. exact IH.
Qed.

Lemma prefix_app_short (s : string) :
  forall t r, (String.length s <= String.length t)%nat ->
              String.prefix s (t +:+ r) = String.prefix s t.
Proof.
  induction s as [|x s IH]; intros t r Hl; [rewrite !prefix_nil; reflexivity|].
  destruct t as [|y t]; [simpl in Hl; lia|].
  rewrite app_cons. simpl. destruct (ascii_dec x y); [|reflexivity].
  apply IH. simpl in Hl. lia.
Qed.

(** The first occurrence of a separator: where the separator occurs neither
    in [a] nor across the end of [a], [split] cuts right behind [a]. *)
Lemma split_at_first (sep' : string) (c : ascii) (a b : string) :
  contains (sep' +:+ String c EmptyString) (a +:+ sep') = false ->
  split (sep' +:+ String c EmptyString)
        (a +:+ ((sep' +:+ String c EmptyString) +:+ b))
  = a :: split (sep' +:+ String c EmptyString) b.
Proof.
  set (sep := sep' +:+ String c EmptyString).
  assert (String.length sep = S (String.length sep')) as Hlen.
  { unfold sep. rewrite length_app_str. simpl. lia. }
  unfold split. induction a as [|x a IH]; intros Ha.
  - rewrite app_nil_l. destruct sep as [|c0 s0] eqn:Es; [discriminate Hlen|].
    rewrite app_cons, split_from_0_cons.
    rewrite <- (app_cons c0 s0 b), prefix_app_self.
    simpl Nat.pred. rewrite split_from_skip. reflexivity.
  - rewrite app_cons in Ha. rewrite contains_cons in Ha.
    apply orb_false_iff in Ha as [Hp Ha].
    rewrite app_cons, split_from_0_cons.
    rewrite <- (app_cons x a (sep +:+ b)).
    assert (String.prefix sep (String x a +:+ (sep +:+ b)) = false) as ->.
    { unfold sep at 2. rewrite (app_assoc_str sep'), <- (app_assoc_str (String x a)).
      rewrite prefix_app_short; [rewrite app_cons; exact Hp|].
      rewrite Hlen, length_app_str. simpl. lia. }
    rewrite IH by exact Ha. reflexivity.
Qed.

Lemma split_from_nonempty (sep : string) (s : string) :
  forall skip, split_from sep skip s
               = hd EmptyString (split_from sep skip s) :: tl (split_from sep skip s).
Proof.
  induction s as [|x s IH]; intros skip; [reflexivity|].
  destruct skip as [|k]; [|apply IH].
  rewrite split_from_0_cons. destruct (String.prefix sep (String x s)); [reflexivity|].
  rewrite (IH 0%nat). reflexivity.
Qed.

(** What [show_stats] reads from a line of the form that [toggle_device] and
    [remove_device] write, [tail] being the text behind [" turned "]. *)
Lemma parse_written_line (now : datetime) (n tail : string) :
  valid_date now = true -> valid_time now = true ->
  loggable_name n = true ->
  parse_log_line ("[" +:+ strftime now +:+ "] " +:+ n +:+ " turned " +:+ tail)
  = Some (mk_log (to_the_second now) n
            (strip (hd EmptyString
                      (split " " (hd EmptyString (split " turned " tail)))))).
Proof.
  intros Hd Ht Hn. unfold loggable_name in Hn.
  apply andb_true_iff in Hn as [[_ Hs]%andb_true_iff Hc].
  apply String.eqb_eq in Hs. apply negb_true_iff in Hc.
  unfold parse_log_line.
  assert (slice 1 20 ("[" +:+ strftime now +:+ "] " +:+ n +:+ " turned " +:+ tail)
          = strftime now) as ->.
  { rewrite app_cons, app_nil_l. unfold slice.
    change (20 - 1)%nat with (String.length (strftime now)).
    cbn [String.substring]. apply substring_app_length. }
  rewrite (strptime_strftime now Hd Ht).
  assert (drop 22 ("[" +:+ strftime now +:+ "] " +:+ n +:+ " turned " +:+ tail)
          = n +:+ " turned " +:+ tail) as ->.
  { rewrite app_cons, app_nil_l.
    change 22%nat with (S (String.length (strftime now) + 2)).
    cbn [drop]. rewrite drop_app_more. reflexivity. }
  change " turned " with (" turned" +:+ " ").
  rewrite (split_at_first " turned" " " n tail Hc).
  unfold split. rewrite (split_from_nonempty _ tail 0%nat).
  rewrite Hs. reflexivity.
Qed.

Lemma strip_written_line (now : datetime) (n tail : string) :
  rstrip (tail +:+ "
") = tail -> tail <> EmptyString ->
  strip ("[" +:+ strftime now +:+ "] " +:+ n +:+ " turned " +:+ tail +:+ "
")
  = "[" +:+ strftime now +:+ "] " +:+ n +:+ " turned " +:+ tail.
Proof.
  intros Hr Hne. unfold strip.
  assert (forall rest, lstrip ("[" +:+ rest) = "[" +:+ rest) as -> by reflexivity.
  rewrite <- !app_assoc_str.
  rewrite (app_assoc_str _ tail).
  rewrite rstrip_app_nonempty by (rewrite Hr; exact Hne).
  rewrite Hr. reflexivity.
Qed.



(** X20: [remove_device] on a device that is on appends the line
    ["[time] name turned OFF (Removed)"] to the data file before it saves;
    when the clock reading has a year of four digits and the name is on one
    line, has no white space at its ends and does not hold the words
    [" turned "], the [try] block of [show_stats] reads that line as an OFF
    entry of that device at that time, to the second. *)
Theorem removal_line_is_read_as_off {FT : FloatText} (now_log : datetime)
    (clock : nat -> datetime) (i : nat) (devices : list Device)
    (old : string) (d : Device) :
  devices !! i = Some d -> is_on d = true ->
  clock_reading now_log = true ->
  loggable_name (name d) = true ->
  let line := removal_message now_log (name d) in
  let devices' := update_all_usages clock (delete i devices) in
  remove_device now_log clock i devices (Some old)
  = (devices', Some (save_state devices' (read_text (Some (old +:+ line)))))
  /\ parse_log_line (strip line)
     = Some (mk_log (to_the_second now_log) (name d) "OFF").
Proof.
  intros Hi Hon [[_ Hd]%andb_true_iff Ht]%andb_true_iff Hn line devices'.
  subst line devices'. split.
  - unfold remove_device. rewrite Hi, Hon. reflexivity.
  - unfold removal_message.
    change (name d +:+ " turned OFF (Removed)
") with (name d +:+ " turned " +:+ "OFF (Removed)" +:+ "
").
    rewrite strip_written_line; [|reflexivity|intros H; discriminate H].
    rewrite parse_written_line by assumption. reflexivity.
Qed.

Lemma removal_line_witness :
  let line := "[2024-02-29 10:00:00] Desk lamp turned OFF (Removed)
" in
  remove_device (FT := plain_decimal) (mk_datetime 2024 2 29 10 0 0 250117)
    (fun _ => mk_datetime 2024 2 29 10 0 1 0) 0
    [toggle (mk_datetime 2024 2 29 9 0 0 0) (new_device "Desk lamp" 60)]
    (Some "## DEVICES ##
")
  = ([], Some (save_state (FT := plain_decimal) []
                 (read_text (Some ("## DEVICES ##
" +:+ line)))))
  /\ parse_log_line (strip line)
     = Some (mk_log (mk_datetime 2024 2 29 10 0 0 0) "Desk lamp" "OFF").
Proof.
  apply (removal_line_is_read_as_off (FT := plain_decimal)
           (mk_datetime 2024 2 29 10 0 0 250117)
           (fun _ => mk_datetime 2024 2 29 10 0 1 0) 0
           [toggle (mk_datetime 2024 2 29 9 0 0 0) (new_device "Desk lamp" 60)]
           "## DEVICES ##
" (toggle (mk_datetime 2024 2 29 9 0 0 0) (new_device "Desk lamp" 60)));
    reflexivity.
Defined.

End LogLineFacts.

(** ** Removing a device *)

Section RemoveFacts.
Import PyStr.
Context {FT : FloatText}.
Hypothesis float_number_text : forall q, number_text (float_repr q) = true.

Lemma update_all_usages_fields (devices : list Device) :
  forall clock,
    Forall2 (fun d' d => name d' = name d /\ power d' = power d
                         /\ saved_usage_units d' = saved_usage_units d)
            (update_all_usages clock devices) devices.
Proof.
  unfold update_all_usages.
  induction devices as [|d ds IH]; intros clock; [constructor|].
  cbn [imap]. constructor; [|apply IH].
  unfold update_session_usage.
  destruct (is_on d); [destruct (last_on_time d)|]; repeat split; reflexivity.
Qed.

Lemma Forall2_restorable (ds' ds : list Device) :
  Forall2 (fun d' d => name d' = name d /\ power d' = power d
                       /\ saved_usage_units d' = saved_usage_units d) ds' ds ->
  Forall restorable ds -> Forall restorable ds'.
Proof.
  induction 1 as [|d' d ds' ds (Hn & Hp & Hu) _ IH]; intros Hr; [constructor|].
  inversion Hr as [|? ? Hd Hds]; subst. constructor; [|apply IH, Hds].
  unfold restorable. rewrite Hn, Hp, Hu. exact Hd.
Qed.

Lemma Forall2_names (ds' ds : list Device) :
  Forall2 (fun d' d => name d' = name d /\ power d' = power d
                       /\ saved_usage_units d' = saved_usage_units d) ds' ds ->
  map name ds' = map name ds.
Proof.
  induction 1 as [|d' d ds' ds (Hn & _) _ IH]; [reflexivity|].
  cbn [map]. rewrite Hn, IH. reflexivity.
Qed.

(** What [load_state] reads from device lines: the saved units, whatever
    session the device in memory has running. *)
Lemma load_saved_lines (devices : list Device) (rest : list string) :
  Forall restorable devices ->
  Forall2 (fun loaded d => name loaded = name d
                           /\ (power loaded == power d)%Q
                           /\ (get_total_units loaded == saved_usage_units d)%Q)
    (load_lines true (map device_line devices ++ String LF EmptyString
                        :: "## LOGS ##
" :: rest))
    devices.
Proof.
  induction 1 as [|d ds Hd Hds IH]; [constructor|].
  cbn [map app load_lines].
  rewrite (strip_device_line float_number_text) by apply Hd.
  rewrite !(eqb_has_char "|") by (apply device_text_has_bar || reflexivity).
  destruct (parse_restorable float_number_text d Hd) as (p & u & -> & Hp & Hu).
  constructor; [|apply IH].
  unfold get_total_units, get_session_units.
  cbn [set_saved_usage_units new_device name power is_on saved_usage_units
       session_usage_seconds].
  rewrite Hp, Hu. repeat split; try reflexivity. field.
Qed.

Lemma load_saved_state (devices : list Device) (file : option string) :
  Forall restorable devices ->
  Forall2 (fun loaded d => name loaded = name d
                           /\ (power loaded == power d)%Q
                           /\ (get_total_units loaded == saved_usage_units d)%Q)
    (load_state (read_text (Some (save_state devices file)))) devices.
Proof.
  intros Hs. cbn [read_text option_map]. unfold load_state, save_state.
  rewrite universal_newlines_app
    by apply (summary_block_no_CR float_number_text), restorable_no_newline, Hs.
  rewrite (readlines_summary (float_repr_no_LF float_number_text))
    by apply restorable_single_line, Hs.
  cbn [app load_lines]. change (strip "## DEVICES ##
") with DEVICES_MARK.
  cbn [String.eqb]. simpl (String.eqb DEVICES_MARK _).
  rewrite <- app_assoc. cbn [app].
  apply load_saved_lines, Hs.
Qed.

Lemma loaded_names (ls ds : list Device) :
  Forall2 (fun loaded d => name loaded = name d
                           /\ (power loaded == power d)%Q
                           /\ (get_total_units loaded == saved_usage_units d)%Q)
          ls ds ->
  map name ls = map name ds.
Proof.
  induction 1 as [|l d ls ds (Hn & _) _ IH]; [reflexivity|].
  cbn [map]. rewrite Hn, IH. reflexivity.
Qed.

Lemma Forall_delete_restorable (devices : list Device) :
  forall i, Forall restorable devices -> Forall restorable (delete i devices).
Proof.
  induction devices as [|d ds IH]; intros i Hr; [exact Hr|].
  inversion Hr as [|? ? Hd Hds]; subst.
  destruct i as [|i]; [exact Hds|]. cbn. constructor; [exact Hd|apply IH, Hds].
Qed.

Lemma deleted_name_is_gone (devices : list Device) :
  forall i d, devices !! i = Some d -> NoDup (map name devices) ->
              ~ In (name d) (map name (delete i devices)).
Proof.
  induction devices as [|x ds IH]; intros i d Hi Hnd; [discriminate Hi|].
  cbn [map] in Hnd. apply NoDup_cons in Hnd as [Hx Hnd].
  destruct i as [|i].
  - injection Hi as <-. cbn. intros Hin. apply Hx, list_elem_of_In, Hin.
  - cbn in Hi. cbn. intros [He|Hin]; [|exact (IH i d Hi Hnd Hin)].
    apply Hx. rewrite He. apply list_elem_of_In, in_map.
    apply list_elem_of_In. eapply list_elem_of_lookup_2, Hi.
Qed.

(** X21: after [remove_device], [load_state] reads from the file written the
    remaining devices, in order, each with its name, its power and, as its
    total, the saved units of the device in memory (a session still running
    on another device is not in the file); no device of the removed name is
    read.  The names of the list are distinct names that the summary line
    can carry (not empty, no white space at their ends, no ["("], no ["|"],
    no line feed, no carriage return) and the numbers are read back from
    their text with the same value. *)
Theorem removed_device_is_not_reloaded (now_log : datetime)
    (clock : nat -> datetime) (i : nat) (devices : list Device)
    (file : option string) (d : Device) :
  devices !! i = Some d ->
  NoDup (map name devices) ->
  Forall restorable devices ->
  Forall2 (fun loaded d' => name loaded = name d'
                            /\ (power loaded == power d')%Q
                            /\ (get_total_units loaded == saved_usage_units d')%Q)
    (load_state (read_text (snd (remove_device now_log clock i devices file))))
    (fst (remove_device now_log clock i devices file))
  /\ map name (fst (remove_device now_log clock i devices file))
     = map name (delete i devices)
  /\ ~ In (name d)
        (map name (load_state (read_text (snd (remove_device now_log clock i devices file))))).
Proof.
  intros Hi Hnd Hr. unfold remove_device. rewrite Hi. cbn [fst snd].
  pose proof (update_all_usages_fields (delete i devices) clock) as Hf.
  pose proof (Forall2_restorable _ _ Hf (Forall_delete_restorable _ i Hr)) as Hr'.
  pose proof (Forall2_names _ _ Hf) as Hnames.
  match goal with
  | |- context [save_state _ ?f] =>
      pose proof (load_saved_state
                    (update_all_usages clock (delete i devices)) f Hr') as Hl
  end.
  split; [exact Hl|]. split; [exact Hnames|].
  rewrite (loaded_names _ _ Hl), Hnames.
  apply deleted_name_is_gone; assumption.
Qed.

End RemoveFacts.

Lemma removed_device_witness :
  let devices :=
    [toggle (mk_datetime 2024 2 29 9 0 0 0) (new_device "Desk lamp" 60);
     set_saved_usage_units (3 # 2) (new_device "Fan" 75)] in
  let now := mk_datetime 2024 2 29 10 0 0 0 in
  Forall2 (fun loaded d' => name loaded = name d'
                            /\ (power loaded == power d')%Q
                            /\ (get_total_units loaded == saved_usage_units d')%Q)
    (load_state (FT := plain_decimal)
       (read_text
          (snd (remove_device (FT := plain_decimal) now (fun _ => now) 0
                  devices None))))
    (fst (remove_device (FT := plain_decimal) now (fun _ => now) 0 devices None))
  /\ map name (fst (remove_device (FT := plain_decimal) now (fun _ => now) 0
                      devices None))
     = map name (delete 0%nat devices)
  /\ ~ In "Desk lamp"
        (map name (load_state (FT := plain_decimal)
           (read_text
              (snd (remove_device (FT := plain_decimal) now (fun _ => now) 0
                      devices None))))).
Proof.
  apply (removed_device_is_not_reloaded (FT := plain_decimal)
           decimal_repr_number_text
           (mk_datetime 2024 2 29 10 0 0 0) (fun _ => mk_datetime 2024 2 29 10 0 0 0) 0
           [toggle (mk_datetime 2024 2 29 9 0 0 0) (new_device "Desk lamp" 60);
            set_saved_usage_units (3 # 2) (new_device "Fan" 75)]
           None
           (toggle (mk_datetime 2024 2 29 9 0 0 0) (new_device "Desk lamp" 60))).
  - reflexivity.
  - apply (bool_decide_unpack _). vm_compute. reflexivity.
  - repeat constructor; try reflexivity;
      (eexists; split; [vm_compute; reflexivity|reflexivity]).
Defined.
